(** * SANDAG household travel behaviour survey 2016: the data module

    A shallow embedding of [src/python/hhtbs2016Data.py] (class [SurveyData]):
    the geometry helpers [line_wkt] and [point_wkt], and the table builders
    [border_trips], [day], [households], [intercept], [location], [persons],
    [trips] and [vehicles], followed by the properties of these that the
    specification states and by further properties that the code shows.

    A row of a pandas [DataFrame] is a finite map from column name to value;
    a column that holds [NaN]/[pd.NA] in a row is absent from that row's map.
    A table is the list of its rows, in index order.  Every operation the
    builders use is row-wise except the surrogate keys, the wide-to-long
    reshape, and the sort and the grouping of [location], which are modelled
    on the whole table. *)

From Stdlib Require Import ZArith QArith Ascii.
From stdpp Require Import base decidable option list sorting lexico.
From stdpp Require Import strings pretty gmap fin_maps.

Local Open Scope Z_scope.
#[local] Set Warnings "-clear-no-such-hyp".

(** ** Values *)

(** The contents of a cell: an integer (a raw code, an identifier, a count), a
    string (a label or free text) or a floating point number (a weight), which
    is kept as an exact rational. *)
Inductive value :=
  | VInt (z : Z)
  | VStr (s : string)
  | VNum (q : Q).

#[global] Instance Q_eq_dec : EqDecision Q.
Proof. solve_decision. Defined.

#[global] Instance value_eq_dec : EqDecision value.
Proof. solve_decision. Defined.

(** A cell is [None] when pandas holds [NaN], [None] or [pd.NA] there. *)
Abbreviation cell := (option value).

Abbreviation row := (gmap string value).

(** ** Geometry *)

(** The shapely geometries the module builds. *)
Inductive geometry (C : Type) :=
  | Point (xy : C)
  | LineString (vertices : list C).
Arguments Point {C} xy.
Arguments LineString {C} vertices.

(** What the module needs from pyproj and shapely: the transformer from
    EPSG:4326 to a coordinate reference system (built with [always_xy=True]),
    the [is_valid] predicate and the [wkt] text of a geometry. *)
Class Geodesy (C : Type) := {
  from_crs : string → C → C;
  is_valid : geometry C → bool;
  wkt : geometry C → string
}.

(** [ops.transform(f, g)]: [f] applied to every coordinate of [g]. *)
Definition transform {C} (f : C → C) (g : geometry C) : geometry C :=
  match g with
  | Point xy => Point (f xy)
  | LineString vs => LineString (f <$> vs)
  end.

(** The outcome of code that may raise. *)
Inductive result (A : Type) :=
  | Ok (a : A)
  | Raise (exn : string).
Arguments Ok {A} a.
Arguments Raise {A} exn.

Module Geometry.
Section geometry.
Context {C : Type} `{EqDecision C} `{Geodesy C}.

(** [points = []; [points.append(x) for x in line if x not in points]]
    (line 137): the loop, with [points] as the accumulator. *)
Definition unique_points (line : list C) : list C :=
  foldl (λ points x, if decide (x ∈ points) then points else points ++ [x])
        [] line.

(** The body of the loop of [line_wkt] (lines 135-158) for one [line]:
    the text appended to [wkts], or [None]. *)
Definition line_wkt_one (crs : string) (line : list C) : result (option string) :=
  if decide (0 < length line)%nat then
    let points := unique_points line in
    let value :=
      if decide (2 ≤ length points)%nat then
        Some (transform (from_crs crs) (LineString points))
      else
        match points with
        | [xy] => Some (transform (from_crs crs) (Point xy))
        | _ => None
        end in
    match value with
    | Some g => if is_valid g then Ok (Some (wkt g)) else Ok None
    | None => Raise "AttributeError"
    end
  else Ok None.

(** [line_wkt(lines, crs)]: one entry of [wkts] per element of [lines]; the
    first exception ends the call. *)
Fixpoint line_wkt (lines : list (list C)) (crs : string)
    : result (list (option string)) :=
  match lines with
  | [] => Ok []
  | line :: lines =>
      match line_wkt_one crs line with
      | Raise e => Raise e
      | Ok w =>
          match line_wkt lines crs with
          | Raise e => Raise e
          | Ok wkts => Ok (w :: wkts)
          end
      end
  end.

(** [point_wkt(coordinates, crs)] (lines 188-195): the text of each
    transformed point, [np.NaN] ([None]) when it is not valid. *)
Definition point_wkt (coordinates : list C) (crs : string) : list (option string) :=
  (λ point, let value := transform (from_crs crs) point in
            if is_valid value then Some (wkt value) else None)
    <$> (Point <$> coordinates).

(** The specification's de-duplication: the first occurrence of each point
    is kept, every later copy is removed, over the whole sequence. *)
Fixpoint keep_first_occurrences (line : list C) : list C :=
  match line with
  | [] => []
  | x :: line => x :: filter (λ y, y ≠ x) (keep_first_occurrences line)
  end.

(** The specification's validity check: the text of a geometry that passes
    it, null otherwise. *)
Definition checked_text (g : geometry C) : option string :=
  if is_valid g then Some (wkt g) else None.

(** The specification's [encode_line]: a line through two or more distinct
    points, a point for one, null for none. *)
Definition encode_line (coords : list C) (target_crs : string) : option string :=
  match keep_first_occurrences coords with
  | [] => None
  | [xy] => checked_text (transform (from_crs target_crs) (Point xy))
  | points => checked_text (transform (from_crs target_crs) (LineString points))
  end.
End geometry.
End Geometry.

(** ** Data frames *)

Module Frame.

(** Writing a cell: a value, or [NaN]. *)
Definition set_cell (c : string) (x : cell) (df : row) : row :=
  match x with
  | Some v => <[c:=v]> df
  | None => delete c df
  end.

(** [pd.read_csv(file, usecols=...)]: only the listed columns are read. *)
Definition read_csv (usecols : list string) (file : list row) : list row :=
  filter (λ kv : string * value, kv.1 ∈ usecols) <$> file.

(** [s == v], [s != v], [s.isin(values)] and [s.isnull()] at one row.
    A missing cell equals nothing and is in no list of labels. *)
Definition eq_lit (x : cell) (v : value) : bool := bool_decide (x = Some v).
Definition ne_lit (x : cell) (v : value) : bool := negb (eq_lit x v).
Definition isin (x : cell) (values : list value) : bool :=
  match x with
  | Some v => bool_decide (v ∈ values)
  | None => false
  end.
Definition isnull (x : cell) : bool := bool_decide (x = None).

(** [s > k], [s == k] and [s >= k] for a numeric column and an integer [k];
    the comparison with a missing cell is [False]. *)
Definition num_gt (x : cell) (k : Z) : bool :=
  match x with
  | Some (VInt z) => bool_decide (k < z)
  | Some (VNum q) => negb (Qle_bool q (inject_Z k))
  | _ => false
  end.
Definition num_eq (x : cell) (k : Z) : bool :=
  match x with
  | Some (VInt z) => bool_decide (z = k)
  | Some (VNum q) => Qeq_bool q (inject_Z k)
  | _ => false
  end.
Definition num_ge (x : cell) (k : Z) : bool :=
  match x with
  | Some (VInt z) => bool_decide (k ≤ z)
  | Some (VNum q) => Qle_bool (inject_Z k) q
  | _ => false
  end.

(** A field's code table: raw code and label, in insertion order.  The key
    [None] is the [pd.NA] (or [np.NaN]) entry. *)
Definition mapping : Type := list (cell * value).

(** [s.map(m)] at one row: the label of the code, [NaN] for a code that is
    not a key. *)
Fixpoint map_cell (m : mapping) (x : cell) : cell :=
  match m with
  | [] => None
  | (k, v) :: m => if decide (k = x) then Some v else map_cell m x
  end.

(** [pd.Categorical(values, categories=...)] at one row: a value outside the
    categories becomes [NaN]. *)
Definition categorical (categories : list value) (x : cell) : cell :=
  match x with
  | Some v => if decide (v ∈ categories) then Some v else None
  | None => None
  end.

Definition recode_field (m : mapping) (x : cell) : cell :=
  categorical (m.*2) (map_cell m x).

(** [for field in mappings: df[field] = pd.Categorical(df[field].map(...), ...)].
    Registering a further category ([cat.add_categories]) changes no cell. *)
Definition recode (mappings : list (string * mapping)) (df : row) : row :=
  foldl (λ df fm, set_cell fm.1 (recode_field fm.2 (df !! fm.1)) df) df mappings.

(** The statements of the rule passes, at one row:
    - [Loc mask columns v] is [df.loc[mask, columns] = v] for a literal [v];
    - [Derive mask column f] is [df.loc[mask, column] = f(df)], and with the
      mask always true it is [df[column] = f(df)]. *)
Inductive step :=
  | Loc (mask : row → bool) (columns : list string) (v : value)
  | Derive (mask : row → bool) (column : string) (f : row → cell).

Definition apply_step (df : row) (s : step) : row :=
  match s with
  | Loc mask columns v =>
      if mask df then foldr (λ c acc, <[c:=v]> acc) df columns else df
  | Derive mask column f =>
      if mask df then set_cell column (f df) df else df
  end.

(** The statements run in source order, each on the result of the one before. *)
Definition run (steps : list step) (df : row) : row := foldl apply_step df steps.

(** The columns a statement assigns to. *)
Definition targets (s : step) : list string :=
  match s with
  | Loc _ columns _ => columns
  | Derive _ column _ => [column]
  end.

(** The mask of a statement. *)
Definition step_mask (s : step) : row → bool :=
  match s with
  | Loc mask _ _ => mask
  | Derive mask _ _ => mask
  end.

(** No statement of the list assigns to column [c]. *)
Definition untouched (c : string) (steps : list step) : bool :=
  forallb (λ s, bool_decide (c ∉ targets s)) steps.

(** Every statement of the list that assigns to column [c] assigns the
    literal [v]. *)
Definition writes_only (c : string) (v : value) (steps : list step) : bool :=
  forallb (λ s, match s with
                | Loc _ columns v' => bool_decide (c ∉ columns) || bool_decide (v' = v)
                | Derive _ column _ => bool_decide (c ≠ column)
                end) steps.

(** Every statement of the list that assigns to column [c] assigns one of
    the literals [vs]. *)
Definition writes_within (c : string) (vs : list value) (steps : list step) : bool :=
  forallb (λ s, match s with
                | Loc _ columns v => bool_decide (c ∉ columns) || bool_decide (v ∈ vs)
                | Derive _ column _ => bool_decide (c ≠ column)
                end) steps.

(** The labels a field can take after the recode: those of its mappings. *)
Definition labels_of (mappings : list (string * mapping)) (c : string) : list value :=
  mappings ≫= λ fm, if decide (fm.1 = c) then fm.2.*2 else [].

(** [df[columns] = df[columns].fillna(v)], column by column. *)
Definition fillna (columns : list string) (v : value) : list step :=
  (λ c, Loc (λ df, isnull (df !! c)) [c] v) <$> columns.

(** [df[name] = np.arange(len(df))]. *)
Definition arange (name : string) (df : list row) : list row :=
  imap (λ i r, <[name := VInt (Z.of_nat i)]> r) df.

(** [df[name] = values] for a list with one entry per row. *)
Definition assign_column (name : string) (values : list cell) (df : list row)
    : list row :=
  zip_with (set_cell name) values df.

(** [df.rename(columns=...)]: every column moves to its new name at once;
    columns that are not keys of the dictionary keep their name. *)
Definition rename (columns : list (string * string)) (df : row) : row :=
  foldr (λ on acc, set_cell on.2 (df !! on.1) acc)
        (filter (λ kv : string * value, kv.1 ∉ columns.*1) df) columns.

(** [df[[c1, c2, ...]]]: the listed columns only. *)
Definition select (columns : list string) (df : row) : row :=
  filter (λ kv : string * value, kv.1 ∈ columns) df.

End Frame.

Module FrameOps.
Import Frame.

(** [df[c] = k] for each pair, in order: constants for the columns a source
    does not have. *)
Definition assign_constants (constants : list (string * value)) (df : row) : row :=
  foldl (λ df cv, <[cv.1 := cv.2]> df) df constants.


(** The rename and the final column selection that end every builder. *)
Definition finish (renames : list (string * string)) (output_columns : list string)
    (df : row) : row :=
  select output_columns (rename renames df).

(** [self.point_wkt(zip(df[lng], df[lat]), crs)] as a column of cells. *)
Definition shape `{Geodesy (cell * cell)} (lng lat crs : string) (df : list row)
    : list cell :=
  (λ w : option string, VStr <$> w)
    <$> Geometry.point_wkt ((λ r : row, (r !! lng, r !! lat)) <$> df) crs.

End FrameOps.

(** ** Household border trips *)

Module BorderTrips.
Import Frame FrameOps.

(** [usecols] of the [read_csv] of SDRTS_Household_Data_20170731.csv (line 213). *)
Definition sdrts_usecols : list string :=
  [ "hhid"; "border_mode_1"; "border_poe_1"; "border_purpose_1"; "border_duration_1";
    "border_party_1"; "border_mode_2"; "border_poe_2"; "border_purpose_2";
    "border_duration_2"; "border_party_2"; "border_mode_3"; "border_poe_3";
    "border_purpose_3"; "border_duration_3"; "border_party_3"; "border_mode_4";
    "border_poe_4"; "border_purpose_4"; "border_duration_4"; "border_party_4" ].

(** [usecols] of the [read_csv] of SDRTS_AT_HH_Data_20170809.csv (line 255). *)
Definition at_usecols : list string :=
  [ "hhid"; "border_mode_1"; "border_poe_1"; "border_purpose_1"; "border_duration_1";
    "border_party_1"; "border_mode_2"; "border_poe_2"; "border_purpose_2";
    "border_duration_2"; "border_party_2"; "border_mode_3"; "border_poe_3";
    "border_purpose_3"; "border_duration_3"; "border_party_3"; "border_mode_4";
    "border_poe_4"; "border_purpose_4"; "border_duration_4"; "border_party_4" ].

(** The [mappings] dictionary (line 315): field, then code and label in
    insertion order; the key [None] is [pd.NA]. *)
Definition mappings : list (string * mapping) :=
  [ ("border_mode",
      [ (Some (VInt 1), VStr "My own vehicle (or motorcycle)");
        (Some (VInt 2), VStr "Other vehicle (e.g., rental, carshare, taxi, work car, friends)");
        (Some (VInt 3), VStr "Bus/shuttle");
        (Some (VInt 4), VStr "Walking (or biking)");
        (Some (VInt 5), VStr "Airplane (or helicopter)");
        (Some (VInt 97), VStr "Other way of traveling") ]);
    ("border_poe",
      [ (Some (VInt 1), VStr "Otay Mesa (SR-905) Port of Entry");
        (Some (VInt 2), VStr "San Ysidro (I-5/I-805) Port of Entry");
        (Some (VInt 3), VStr "Tecate (SR 188) Port of Entry");
        (Some (VInt 4), VStr "Cross-border Terminal, Tijuana Intl Airport (pedestrian only)");
        (Some (VInt 97), VStr "Other") ]);
    ("border_purpose",
      [ (Some (VInt 1), VStr "Drop-off/pick-up someone (e.g., at Tijuana Intl Airport)");
        (Some (VInt 2), VStr "Social (visit friends/family)");
        (Some (VInt 3), VStr "Leisure/recreation/vacation");
        (Some (VInt 4), VStr "Work/business-related");
        (Some (VInt 5), VStr "Personal business (e.g., medical appointment)");
        (Some (VInt 97), VStr "Other") ]);
    ("border_duration",
      [ (Some (VInt 1), VStr "Less than 1 day");
        (Some (VInt 2), VStr "1-2 days");
        (Some (VInt 3), VStr "3-5 days");
        (Some (VInt 4), VStr "6-10 days");
        (Some (VInt 5), VStr "More than 10 days") ]);
    ("border_party",
      [ (Some (VInt 1), VStr "1 (I traveled alone)");
        (Some (VInt 2), VStr "2 persons total");
        (Some (VInt 3), VStr "3 persons total");
        (Some (VInt 4), VStr "4 persons total");
        (Some (VInt 5), VStr "5 or more persons total (including me)") ]) ].

(** The [columns] dictionary of [df.rename] (line 365): old name, new name. *)
Definition renames : list (string * string) :=
  [ ("hhid", "household_id");
    ("border_mode", "mode");
    ("border_poe", "port_of_entry");
    ("border_purpose", "purpose");
    ("border_duration", "duration");
    ("border_party", "party_size") ].

(** The columns of the returned table, in order (line 375). *)
Definition output_columns : list string :=
  [ "border_trip_id"; "household_id"; "trip_id"; "mode"; "port_of_entry"; "purpose";
    "duration"; "party_size" ].






(** The household records of the two extracts (lines 211-299). *)
Definition households (sdrts_file at_file : list row) : list row :=
  read_csv sdrts_usecols sdrts_file ++ read_csv at_usecols at_file.






End BorderTrips.

(** ** Vehicles *)

Module Vehicles.
Import Frame FrameOps.

(** [usecols] of the [read_csv] of SDRTS_Vehicle_Data_20170731.csv (line 4619). *)
Definition sdrts_usecols : list string :=
  [ "hhid"; "vehnum"; "year"; "make"; "model"; "fuel"; "obtain"; "tolltransp";
    "respark_pass"; "respark_pass_monthly_cost"; "respark_pass_dontknow_cost" ].

(** [usecols] of the [read_csv] of SDRTS_AT_Vehicle_Data_20170809.csv (line 4638). *)
Definition at_usecols : list string :=
  [ "hhid"; "vehnum"; "year"; "make"; "model"; "fuel"; "obtain"; "tolltransp";
    "respark_pass"; "respark_pass_monthly_cost"; "respark_pass_dontknow_cost" ].

(** The [mappings] dictionary (line 4662): field, then code and label in
    insertion order; the key [None] is [pd.NA]. *)
Definition mappings : list (string * mapping) :=
  [ ("fuel",
      [ (Some (VInt 1), VStr "Gas");
        (Some (VInt 2), VStr "Diesel");
        (Some (VInt 3), VStr "Hybrid");
        (Some (VInt 4), VStr "Electric");
        (Some (VInt 5), VStr "Flex Fuel");
        (Some (VInt 97), VStr "Other") ]);
    ("obtain",
      [ (Some (VInt 1), VStr "Own");
        (Some (VInt 2), VStr "Lease");
        (Some (VInt 3), VStr "Employer/Institutional Car");
        (Some (VInt 97), VStr "Other") ]);
    ("tolltransp",
      [ (Some (VInt 1), VStr "No");
        (Some (VInt 2), VStr "Yes") ]);
    ("respark_pass",
      [ (Some (VInt 1), VStr "Yes, vehicle has permit for parking at/near residence");
        (Some (VInt 2), VStr "No pass needed - typically park at residence");
        (Some (VInt 3), VStr "No pass needed - typically park on street");
        (Some (VInt 4), VStr "No pass needed - typically park elsewhere") ]);
    ("respark_pass_dontknow_cost",
      [ (Some (VInt 0), VStr "No");
        (Some (VInt 1), VStr "Yes");
        (None, VStr "Not Applicable") ]) ].

(** The [columns] dictionary of [df.rename] (line 4696): old name, new name. *)
Definition renames : list (string * string) :=
  [ ("hhid", "household_id");
    ("vehnum", "vehicle_number");
    ("fuel", "fuel_type");
    ("obtain", "how_obtained");
    ("tolltransp", "toll_transponder");
    ("respark_pass", "residence_parking_pass");
    ("respark_pass_monthly_cost", "residence_parking_monthly_cost");
    ("respark_pass_dontknow_cost", "residence_parking_cost_unknown") ].

(** The columns of the returned table, in order (line 4707). *)
Definition output_columns : list string :=
  [ "vehicle_id"; "household_id"; "vehicle_number"; "year"; "make"; "model"; "fuel_type";
    "how_obtained"; "toll_transponder"; "residence_parking_pass";
    "residence_parking_cost_unknown"; "residence_parking_monthly_cost" ].

(** The group key of a row for [df.groupby(["hhid", "vehnum"])]: both
    identifiers are integers in the extracts; a row with a missing identifier
    has no key and belongs to no group. *)
Definition group_key (r : row) : option (Z * Z) :=
  match r !! "hhid", r !! "vehnum" with
  | Some (VInt hhid), Some (VInt vehnum) => Some (hhid, vehnum)
  | _, _ => None
  end.

(** The order of the group keys: [hhid] first, then [vehnum]. *)
Definition key_le (k1 k2 : Z * Z) : Prop := k1 = k2 ∨ lexico k1 k2.

#[global] Instance key_le_dec : RelDecision key_le.
Proof. intros k1 k2. unfold key_le. apply _. Defined.

(** The groups of [groupby] with its default [sort=True]: the distinct keys
    in ascending order. *)
Definition groups (df : list row) : list (Z * Z) :=
  merge_sort key_le (remove_dups (omap group_key df)).

(** [df.groupby(["hhid", "vehnum"]).ngroup()]: the position of the row's
    group among the groups; [-1] for a row without key. *)
Definition group_number (df : list row) (r : row) : Z :=
  match group_key r with
  | Some k =>
      match list_find (λ k', k' = k) (groups df) with
      | Some (i, _) => Z.of_nat i
      | None => -1
      end
  | None => -1
  end.

Definition ngroup (df : list row) : list Z := group_number df <$> df.

(** The frame after the recode (lines 4617-4690). *)
Definition vehicles_recoded (sdrts_file at_file : list row) : list row :=
  let df := read_csv sdrts_usecols sdrts_file ++ read_csv at_usecols at_file in
  recode mappings <$> df.

(** The [vehicles] property (lines 4594-4718). *)
Definition vehicles (sdrts_file at_file : list row) : list row :=
  let df := vehicles_recoded sdrts_file at_file in
  let df := assign_column "vehicle_id" ((λ n, Some (VInt (n + 1))) <$> ngroup df) df in
  finish renames output_columns <$> df.

(** The pair that identifies a vehicle in the returned table. *)
Definition vehicle_pair (out : row) : option (Z * Z) :=
  match out !! "household_id", out !! "vehicle_number" with
  | Some (VInt household_id), Some (VInt vehicle_number) =>
      Some (household_id, vehicle_number)
  | _, _ => None
  end.

(** The specification's numbering: distinct pairs numbered from 1 in the
    order in which they are first seen in the rows. *)
Definition first_seen_id (pairs : list (Z * Z)) (k : Z * Z) : option Z :=
  match list_find (λ k', k' = k) (Geometry.keep_first_occurrences pairs) with
  | Some (i, _) => Some (Z.of_nat i + 1)
  | None => None
  end.

Definition numbered_as_first_seen (table : list row) : Prop :=
  Forall (λ out, ∀ k, vehicle_pair out = Some k →
            out !! "vehicle_id" = VInt <$> first_seen_id (omap vehicle_pair table) k)
         table.

(** The numbering of the code: the number of a pair is 1 plus the number of
    distinct pairs of the table that come before it in the order by
    household, then vehicle number. *)
Definition ascending_id (pairs : list (Z * Z)) (k : Z * Z) : Z :=
  1 + Z.of_nat (length (filter (λ k', lexico k' k) (remove_dups pairs))).

Definition numbered_ascending (table : list row) : Prop :=
  Forall (λ out, ∀ k, vehicle_pair out = Some k →
            out !! "vehicle_id" = Some (VInt (ascending_id (omap vehicle_pair table) k)))
         table.

End Vehicles.

(** ** Person days *)

Module Day.
Import Frame FrameOps.

(** [usecols] of the [read_csv] of SDRTS_AT_Day_Data_20170831.csv (line 433). *)
Definition at_usecols : list string :=
  [ "personid"; "hhid"; "traveldate"; "daynum"; "travel_dow"; "day_iscomplete";
    "completed_at"; "revised_at"; "revised_count"; "survey_status"; "trips_yesno";
    "notravel"; "notravel_secondary"; "num_trips"; "num_answer"; "telework_time";
    "shop_time"; "toll_no"; "toll_express"; "deliver_package"; "deliver_food";
    "deliver_work" ].

(** [usecols] of the [read_csv] of SDRTS_Day_Data_20170731.csv (line 503). *)
Definition sdrts_usecols : list string :=
  [ "personid"; "hhid"; "traveldate"; "daynum"; "travel_dow"; "data_source";
    "day_hhcomplete"; "day_iscomplete"; "completed_at"; "revised_at"; "revised_count";
    "diary_start_pt"; "diary_end_pt"; "diary_duration"; "survey_status"; "proxy";
    "trips_yesno"; "notravel"; "notravel_secondary"; "notravel_other"; "num_trips";
    "num_answer"; "loc_start"; "loc_start_other"; "loc_end"; "loc_end_other";
    "telework_time"; "shop_time"; "toll_no"; "toll_express"; "deliver_package";
    "deliver_food"; "deliver_work"; "multiday_factor"; "multiday_weight_456x" ].

(** The [mappings] dictionary (line 565): field, then code and label in
    insertion order; the key [None] is [pd.NA]. *)
Definition mappings : list (string * mapping) :=
  [ ("travel_dow",
      [ (Some (VInt 1), VStr "Monday");
        (Some (VInt 2), VStr "Tuesday");
        (Some (VInt 3), VStr "Wednesday");
        (Some (VInt 4), VStr "Thursday");
        (Some (VInt 5), VStr "Friday");
        (Some (VInt 6), VStr "Saturday");
        (Some (VInt 7), VStr "Sunday");
        (None, VStr "Missing") ]);
    ("data_source",
      [ (Some (VInt 1), VStr "rMove");
        (Some (VInt 2), VStr "Online");
        (None, VStr "Missing") ]);
    ("day_hhcomplete",
      [ (Some (VInt 0), VStr "No");
        (Some (VInt 1), VStr "Yes");
        (Some (VInt 99), VStr "Not Applicable");
        (None, VStr "Missing") ]);
    ("day_iscomplete",
      [ (Some (VInt 0), VStr "No");
        (Some (VInt 1), VStr "Yes");
        (None, VStr "Missing") ]);
    ("survey_status",
      [ (Some (VInt 0), VStr "Diary/daily summary survey not complete");
        (Some (VInt 1), VStr "Diary/daily summary survey complete");
        (Some (VInt 2), VStr "Diary/daily summary survey not asked");
        (None, VStr "Not Applicable") ]);
    ("proxy",
      [ (Some (VInt 1), VStr "No");
        (Some (VInt 2), VStr "Present while other member filled out survey");
        (Some (VInt 3), VStr "Not present while other member filled out survey");
        (None, VStr "Not Applicable") ]);
    ("trips_yesno",
      [ (Some (VInt 1), VStr "Yes");
        (Some (VInt 2), VStr "No");
        (None, VStr "Missing") ]);
    ("notravel",
      [ (Some (VInt 1), VStr "Did travel, but rMove did not collect any trips");
        (Some (VInt 2), VStr "Not scheduled to work/took day off");
        (Some (VInt 3), VStr "Worked at home (for pay)");
        (Some (VInt 4), VStr "Worked around home (not for pay)");
        (Some (VInt 5), VStr "Kids were on school vacation/break");
        (Some (VInt 6), VStr "No available transportation");
        (Some (VInt 7), VStr "Was sick or caring for another person");
        (Some (VInt 8), VStr "Was waiting for visitor/delivery");
        (Some (VInt 9), VStr "Other reason (no reason given)");
        (Some (VInt 10), VStr "Stayed on base all day");
        (Some (VInt 97), VStr "Other reason");
        (Some (VInt (-9998)), VStr "Participant non-response");
        (Some (VInt (-9999)), VStr "Technical error") ]);
    ("notravel_secondary",
      [ (Some (VInt 1), VStr "Did travel, but rMove did not collect any trips");
        (Some (VInt 2), VStr "Not scheduled to work/took day off");
        (Some (VInt 3), VStr "Worked at home (for pay)");
        (Some (VInt 4), VStr "Worked around home (not for pay)");
        (Some (VInt 5), VStr "Kids were on school vacation/break");
        (Some (VInt 6), VStr "No available transportation");
        (Some (VInt 7), VStr "Was sick or caring for another person");
        (Some (VInt 8), VStr "Was waiting for visitor/delivery");
        (Some (VInt 9), VStr "Other reason (no reason given)");
        (Some (VInt 10), VStr "Stayed on base all day");
        (Some (VInt 97), VStr "Other reason");
        (Some (VInt (-9998)), VStr "Participant non-response");
        (Some (VInt (-9999)), VStr "Technical error");
        (None, VStr "Not Applicable") ]);
    ("loc_start",
      [ (Some (VInt 1), VStr "Home");
        (Some (VInt 2), VStr "Work (Primary)");
        (Some (VInt 3), VStr "Work (Second Jobs)");
        (Some (VInt 97), VStr "Other");
        (Some (VInt 99), VStr "Not Applicable") ]);
    ("loc_end",
      [ (Some (VInt 1), VStr "Home");
        (Some (VInt 2), VStr "Work (Primary)");
        (Some (VInt 3), VStr "Work (Second Jobs)");
        (Some (VInt 97), VStr "Other");
        (Some (VInt 99), VStr "Not Applicable") ]);
    ("toll_no",
      [ (Some (VInt 0), VStr "Yes");
        (Some (VInt 1), VStr "No");
        (Some (VInt (-9998)), VStr "Participant non-response");
        (Some (VInt (-9999)), VStr "Technical error");
        (None, VStr "Not Applicable") ]);
    ("toll_express",
      [ (Some (VInt 0), VStr "No");
        (Some (VInt 1), VStr "Yes");
        (Some (VInt (-9998)), VStr "Participant non-response");
        (Some (VInt (-9999)), VStr "Technical error");
        (None, VStr "Not Applicable") ]);
    ("deliver_package",
      [ (Some (VInt 0), VStr "No");
        (Some (VInt 1), VStr "Yes");
        (Some (VInt (-9998)), VStr "Participant non-response");
        (Some (VInt (-9999)), VStr "Technical error");
        (None, VStr "Not Applicable") ]);
    ("deliver_food",
      [ (Some (VInt 0), VStr "No");
        (Some (VInt 1), VStr "Yes");
        (Some (VInt (-9998)), VStr "Participant non-response");
        (Some (VInt (-9999)), VStr "Technical error");
        (None, VStr "Not Applicable") ]);
    ("deliver_work",
      [ (Some (VInt 0), VStr "No");
        (Some (VInt 1), VStr "Yes");
        (Some (VInt (-9998)), VStr "Participant non-response");
        (Some (VInt (-9999)), VStr "Technical error");
        (None, VStr "Not Applicable") ]) ].

(** The [columns] dictionary of [df.rename] (line 727): old name, new name. *)
Definition renames : list (string * string) :=
  [ ("personid", "person_id");
    ("hhid", "household_id");
    ("traveldate", "travel_date");
    ("daynum", "travel_day_number");
    ("travel_dow", "travel_day_of_week");
    ("day_hhcomplete", "completed_household_survey");
    ("day_iscomplete", "completed_person_survey");
    ("completed_at", "completed_date");
    ("revised_at", "revised_at");
    ("diary_start_pt", "diary_start_time");
    ("diary_end_pt", "diary_end_time");
    ("survey_status", "survey_status");
    ("proxy", "proxy");
    ("trips_yesno", "made_trips");
    ("notravel", "no_trips_reason_1");
    ("notravel_secondary", "no_trips_reason_2");
    ("notravel_other", "no_trips_reason_specify_other");
    ("num_trips", "number_trips");
    ("num_answer", "number_surveys");
    ("loc_start", "start_location");
    ("loc_start_other", "start_location_other");
    ("loc_end", "end_location");
    ("loc_end_other", "end_location_other");
    ("telework_time", "time_telework");
    ("shop_time", "time_shop");
    ("toll_no", "toll_road");
    ("toll_express", "toll_road_express");
    ("multiday_factor", "weight_household_multiday_factor");
    ("multiday_weight_456x", "weight_person_multiday_456x") ].

(** The columns of the returned table, in order (line 760). *)
Definition output_columns : list string :=
  [ "day_id"; "person_id"; "household_id"; "travel_date"; "travel_day_number";
    "travel_day_of_week"; "data_source"; "completed_household_survey";
    "completed_person_survey"; "completed_date"; "revised_at"; "revised_count";
    "diary_start_time"; "diary_end_time"; "diary_duration"; "survey_status"; "proxy";
    "made_trips"; "no_trips_reason_1"; "no_trips_reason_2";
    "no_trips_reason_specify_other"; "number_trips"; "number_surveys"; "start_location";
    "start_location_other"; "end_location"; "end_location_other"; "time_telework";
    "time_shop"; "toll_road"; "toll_road_express"; "deliver_package"; "deliver_food";
    "deliver_work"; "weight_household_multiday_factor"; "weight_person_multiday_456x" ].

(** The values set for the columns that the AT extract does not have
    (lines 492-498). *)
Definition at_constants : list (string * value) :=
  [ ("data_source", VInt 1);
    ("day_hhcomplete", VInt 99);
    ("notravel_other", VStr "Not Applicable");
    ("loc_start", VInt 99);
    ("loc_start_other", VStr "Not Applicable");
    ("loc_end", VInt 99);
    ("loc_end_other", VStr "Not Applicable") ].

(** The conditional assignments of lines 670-721, in source order. *)
Definition rules : list step :=
  [ (* number of trips takes precedence *)
    Loc (λ df, num_gt (df !! "num_trips") 0) ["trips_yesno"] (VStr "Yes");
    Loc (λ df, num_eq (df !! "num_trips") 0) ["trips_yesno"] (VStr "No");
    (* reason for not traveling *)
    Loc (λ df, num_eq (df !! "num_trips") 0 && isnull (df !! "notravel"))
        ["notravel"] (VStr "Missing");
    Loc (λ df, num_gt (df !! "num_trips") 0 && isnull (df !! "notravel"))
        ["notravel"] (VStr "Not Applicable");
    Loc (λ df, ne_lit (df !! "notravel") (VStr "Other reason") &&
               ne_lit (df !! "notravel_secondary") (VStr "Other reason"))
        ["notravel_other"] (VStr "Not Applicable");
    Loc (λ df, (eq_lit (df !! "notravel") (VStr "Other reason") ||
                eq_lit (df !! "notravel_secondary") (VStr "Other reason")) &&
               isnull (df !! "notravel_other"))
        ["notravel_other"] (VStr "Missing");
    (* location at the start and the end of the day *)
    Loc (λ df, eq_lit (df !! "data_source") (VStr "rMove"))
        ["loc_start"; "loc_start_other"; "loc_end"; "loc_end_other"]
        (VStr "Not Applicable");
    Loc (λ df, eq_lit (df !! "data_source") (VStr "Online") &&
               isnull (df !! "loc_start"))
        ["loc_start"] (VStr "Missing");
    Loc (λ df, eq_lit (df !! "data_source") (VStr "Online") &&
               isnull (df !! "loc_end"))
        ["loc_end"] (VStr "Missing");
    Loc (λ df, eq_lit (df !! "data_source") (VStr "Online") &&
               ne_lit (df !! "loc_start") (VStr "Other"))
        ["loc_start_other"] (VStr "Not Applicable");
    Loc (λ df, eq_lit (df !! "data_source") (VStr "Online") &&
               ne_lit (df !! "loc_end") (VStr "Other"))
        ["loc_end_other"] (VStr "Not Applicable") ].

(** The frame before the surrogate key is added (lines 433-721). *)
Definition day_frame (sdrts_file at_file : list row) : list row :=
  let at_df := assign_constants at_constants <$> read_csv at_usecols at_file in
  let df := read_csv sdrts_usecols sdrts_file ++ at_df in
  let df := recode mappings <$> df in
  run rules <$> df.

(** The [day] property (lines 386-795). *)
Definition day (sdrts_file at_file : list row) : list row :=
  let df := day_frame sdrts_file at_file in
  let df := arange "day_id" df in
  finish renames output_columns <$> df.

End Day.

(** ** Persons *)

Module Persons.
Import Frame FrameOps.

(** [usecols] of the [read_csv] of SDRTS_AT_Person_Data_20170831.csv (line 2107). *)
Definition at_usecols : list string :=
  [ "personid"; "hhid"; "pernum"; "traveldate_start"; "rmove_participant"; "relationship";
    "gender"; "age"; "employment"; "jobs_count"; "student"; "education"; "license";
    "military"; "ethnicity_amindian_alaska"; "ethnicity_asian"; "ethnicity_black";
    "ethnicity_hispanic"; "ethnicity_hawaiian_pacific"; "ethnicity_white";
    "ethnicity_other"; "ethnicity_prefernot"; "disability"; "height"; "weight_lbs";
    "physical_activity"; "transit_freq"; "transitpass"; "schooltype"; "school_freq";
    "other_school"; "school_mode"; "daycare_early"; "daycare_late"; "job_type";
    "occupation"; "industry"; "hours_work"; "commute_freq"; "commute_mode"; "work_flex";
    "work_park_pay"; "work_park_cost"; "work_park_cost_dk"; "work_park_ease";
    "telecommute_freq"; "commute_subsidy_none"; "commute_subsidy_parking";
    "commute_subsidy_transit"; "commute_subsidy_vanpool"; "commute_subsidy_cash";
    "commute_subsidy_other"; "commute_subsidy_specify"; "secondhome"; "secondhome_address";
    "secondhome_lat"; "secondhome_lng"; "mainschool_address"; "mainschool_lat";
    "mainschool_lng"; "secondschool_address"; "secondschool_lat"; "secondschool_lng";
    "work_address"; "work_lat"; "work_lng"; "secondwork_address"; "secondwork_lat";
    "secondwork_lng"; "numdays_complete"; "day1_complete"; "day2_complete";
    "day3_complete"; "day4_complete"; "day5_complete"; "day6_complete"; "day7_complete" ].

(** [usecols] of the [read_csv] of SDRTS_Person_Data_20170731.csv (line 2262). *)
Definition sdrts_usecols : list string :=
  [ "personid"; "hhid"; "pernum"; "traveldate_start"; "rmove_participant"; "relationship";
    "gender"; "age"; "employment"; "jobs_count"; "student"; "education"; "license";
    "military"; "ethnicity_amindian_alaska"; "ethnicity_asian"; "ethnicity_black";
    "ethnicity_hispanic"; "ethnicity_hawaiian_pacific"; "ethnicity_white";
    "ethnicity_other"; "ethnicity_prefernot"; "disability"; "height"; "weight_lbs";
    "physical_activity"; "transit_freq"; "transitpass"; "schooltype"; "school_freq";
    "other_school"; "school_mode"; "daycare_early"; "daycare_late"; "job_type";
    "occupation"; "industry"; "hours_work"; "commute_freq"; "commute_mode"; "work_flex";
    "work_park_pay"; "work_park_cost"; "work_park_cost_dk"; "work_park_ease";
    "telecommute_freq"; "commute_subsidy_none"; "commute_subsidy_parking";
    "commute_subsidy_transit"; "commute_subsidy_vanpool"; "commute_subsidy_cash";
    "commute_subsidy_other"; "commute_subsidy_specify"; "secondhome"; "secondhome_address";
    "secondhome_lat"; "secondhome_lng"; "mainschool_address"; "mainschool_lat";
    "mainschool_lng"; "secondschool_address"; "secondschool_lat"; "secondschool_lng";
    "work_address"; "work_lat"; "work_lng"; "secondwork_address"; "secondwork_lat";
    "secondwork_lng"; "smartphone_type"; "smartphone_age"; "child_smartphone";
    "callcenter_diary"; "mobile_diary"; "activated_rmove"; "numdays_complete";
    "day1_complete"; "day2_complete"; "day3_complete"; "day4_complete"; "day5_complete";
    "day6_complete"; "day7_complete" ].

(** The [mappings] dictionary (line 2412): field, then code and label in
    insertion order; the key [None] is [pd.NA]. *)
Definition mappings : list (string * mapping) :=
  [ ("rmove_participant",
      [ (Some (VInt 0), VStr "No");
        (Some (VInt 1), VStr "Yes");
        (None, VStr "Missing") ]);
    ("relationship",
      [ (Some (VInt 0), VStr "Self");
        (Some (VInt 1), VStr "Husband/Wife/Partner");
        (Some (VInt 2), VStr "Son/Daughter/In-law");
        (Some (VInt 3), VStr "Mother/Father/In-law");
        (Some (VInt 4), VStr "Brother/Sister/In-law");
        (Some (VInt 5), VStr "Other relative");
        (Some (VInt 6), VStr "Roommate/Friend");
        (Some (VInt 7), VStr "Household help");
        (Some (VInt 97), VStr "Other");
        (None, VStr "Missing") ]);
    ("gender",
      [ (Some (VInt 1), VStr "Male");
        (Some (VInt 2), VStr "Female");
        (None, VStr "Missing") ]);
    ("age",
      [ (Some (VInt 1), VStr "Under 5 years old");
        (Some (VInt 2), VStr "5-15 years");
        (Some (VInt 3), VStr "16-17 years");
        (Some (VInt 4), VStr "18-24 years");
        (Some (VInt 5), VStr "25-34 years");
        (Some (VInt 6), VStr "35-44 years");
        (Some (VInt 7), VStr "45-49 years");
        (Some (VInt 8), VStr "50-54 years");
        (Some (VInt 9), VStr "55-59 years");
        (Some (VInt 10), VStr "60-64 years");
        (Some (VInt 11), VStr "65-74 years");
        (Some (VInt 12), VStr "75-79 years");
        (Some (VInt 13), VStr "80-84 years");
        (Some (VInt 14), VStr "85 years or older");
        (None, VStr "Missing") ]);
    ("employment",
      [ (Some (VInt 1), VStr "Employed full-time (paid) 35+ hours/week");
        (Some (VInt 2), VStr "Employed part-time (paid) up to 35 hours/week");
        (Some (VInt 3), VStr "Unpaid volunteer or intern");
        (Some (VInt 4), VStr "Not currently employed");
        (None, VStr "Missing") ]);
    ("jobs_count",
      [ (Some (VInt 0), VStr "0 (age 16+)");
        (Some (VInt 1), VStr "1");
        (Some (VInt 2), VStr "2");
        (Some (VInt 3), VStr "3");
        (Some (VInt 4), VStr "4");
        (Some (VInt 5), VStr "5+");
        (None, VStr "Missing") ]);
    ("student",
      [ (Some (VInt 1), VStr "Not a student");
        (Some (VInt 2), VStr "Part-time student");
        (Some (VInt 3), VStr "Full-time student");
        (None, VStr "Missing") ]);
    ("education",
      [ (Some (VInt 1), VStr "Less than high school");
        (Some (VInt 2), VStr "High school graduate/GED");
        (Some (VInt 3), VStr "Some college");
        (Some (VInt 4), VStr "Vocational/technical training");
        (Some (VInt 5), VStr "Associates degree");
        (Some (VInt 6), VStr "Bachelor degree");
        (Some (VInt 7), VStr "Graduate/post-graduate degree");
        (None, VStr "Missing") ]);
    ("license",
      [ (Some (VInt 1), VStr "Yes");
        (Some (VInt 2), VStr "No");
        (None, VStr "Missing") ]);
    ("military",
      [ (Some (VInt 1), VStr "No current affiliation with the military");
        (Some (VInt 2), VStr "Active duty within the San Diego region");
        (Some (VInt 3), VStr "Active duty outside of the San Diego region");
        (Some (VInt 4), VStr "Reserve or National Guard");
        (Some (VInt 5), VStr "Department of Defense civilian workforce and/or contractor");
        (Some (VInt 6), VStr "Veteran");
        (Some (VInt 97), VStr "Other affiliation (e.g., spouse or parent of active military)");
        (None, VStr "Missing") ]);
    ("ethnicity_amindian_alaska",
      [ (Some (VInt 0), VStr "No");
        (Some (VInt 1), VStr "Yes");
        (None, VStr "Missing") ]);
    ("ethnicity_asian",
      [ (Some (VInt 0), VStr "No");
        (Some (VInt 1), VStr "Yes");
        (None, VStr "Missing") ]);
    ("ethnicity_black",
      [ (Some (VInt 0), VStr "No");
        (Some (VInt 1), VStr "Yes");
        (None, VStr "Missing") ]);
    ("ethnicity_hispanic",
      [ (Some (VInt 0), VStr "No");
        (Some (VInt 1), VStr "Yes");
        (None, VStr "Missing") ]);
    ("ethnicity_hawaiian_pacific",
      [ (Some (VInt 0), VStr "No");
        (Some (VInt 1), VStr "Yes");
        (None, VStr "Missing") ]);
    ("ethnicity_white",
      [ (Some (VInt 0), VStr "No");
        (Some (VInt 1), VStr "Yes");
        (None, VStr "Missing") ]);
    ("ethnicity_other",
      [ (Some (VInt 0), VStr "No");
        (Some (VInt 1), VStr "Yes");
        (None, VStr "Missing") ]);
    ("ethnicity_prefernot",
      [ (Some (VInt 0), VStr "No");
        (Some (VInt 1), VStr "Yes");
        (None, VStr "Missing") ]);
    ("disability",
      [ (Some (VInt 1), VStr "No");
        (Some (VInt 2), VStr "Yes");
        (Some (VInt 99), VStr "Prefer not to answer");
        (None, VStr "Missing") ]);
    ("physical_activity",
      [ (Some (VInt 1), VStr "I rarely or never do any physical activity");
        (Some (VInt 2), VStr "I do some light or moderate physical activities");
        (Some (VInt 3), VStr "I do some vigorous physical activities");
        (Some (VInt 99), VStr "Prefer not to answer");
        (None, VStr "Missing") ]);
    ("transit_freq",
      [ (Some (VInt 1), VStr "6-7 days a week");
        (Some (VInt 2), VStr "4-5 days a week");
        (Some (VInt 3), VStr "2-3 days a week");
        (Some (VInt 4), VStr "1 day a week");
        (Some (VInt 5), VStr "1-3 days per month");
        (Some (VInt 6), VStr "Less than monthly");
        (Some (VInt 7), VStr "Never");
        (None, VStr "Missing") ]);
    ("transitpass",
      [ (Some (VInt 1), VStr "Monthly Adult Regional Compass Card: $72");
        (Some (VInt 2), VStr "Monthly Adult Premium Compass Card: $100");
        (Some (VInt 3), VStr "Monthly Adult COASTER Compass Card: by zone");
        (Some (VInt 4), VStr "MTS College Semester Pass");
        (Some (VInt 5), VStr "MTS College Monthly Pass");
        (Some (VInt 6), VStr "UC San Diego Annual U-Pass");
        (Some (VInt 7), VStr "Monthly Youth Regional Compass Card: $36");
        (Some (VInt 8), VStr "Monthly Youth Premium Compass Card: $50");
        (Some (VInt 9), VStr "Monthly Youth COASTER Compass Card: $82.50");
        (Some (VInt 10), VStr "Monthly Senior/Disabled/Medicare Regional Compass Card: $18");
        (Some (VInt 11), VStr "Monthly Senior/Disabled/Medicare Premium Compass Card: $25");
        (Some (VInt 12), VStr "Monthly Senior/Disabled/Medicare COASTER Compass Card: $41.25");
        (Some (VInt 13), VStr "Other transit pass (e.g., free, employee, etc.)");
        (Some (VInt 14), VStr "Do not have a transit pass");
        (Some (VInt 98), VStr "Do not know");
        (None, VStr "Missing") ]);
    ("schooltype",
      [ (Some (VInt 1), VStr "Cared for at home");
        (Some (VInt 2), VStr "Daycare outside home");
        (Some (VInt 3), VStr "Preschool");
        (Some (VInt 4), VStr "Kindergarten-Grade 5 (public or private)");
        (Some (VInt 5), VStr "Kindergarten-Grade 5 (home school)");
        (Some (VInt 6), VStr "Grade 6-Grade 8 (public or private)");
        (Some (VInt 7), VStr "Grade 6-Grade 8 (home school)");
        (Some (VInt 8), VStr "Grade 9-Grade 12 (public or private)");
        (Some (VInt 9), VStr "Grade 9-Grade 12 (home school)");
        (Some (VInt 10), VStr "Vocational/technical school");
        (Some (VInt 11), VStr "2-year college");
        (Some (VInt 12), VStr "4-year college");
        (Some (VInt 13), VStr "Graduate or professional school");
        (Some (VInt 97), VStr "Other");
        (None, VStr "Missing") ]);
    ("school_freq",
      [ (Some (VInt 1), VStr "6-7 days a week");
        (Some (VInt 2), VStr "5 days a week");
        (Some (VInt 3), VStr "3-4 days a week");
        (Some (VInt 4), VStr "1-2 days a week");
        (Some (VInt 5), VStr "1-3 days per month");
        (Some (VInt 6), VStr "Less than monthly");
        (Some (VInt 7), VStr "Never, only takes online classes");
        (None, VStr "Missing") ]);
    ("other_school",
      [ (Some (VInt 1), VStr "Never, only 1 school location");
        (Some (VInt 2), VStr "1 or more days a week");
        (Some (VInt 3), VStr "A few times per month");
        (Some (VInt 4), VStr "Less than monthly");
        (None, VStr "Missing") ]);
    ("school_mode",
      [ (Some (VInt 1), VStr "Drive alone");
        (Some (VInt 2), VStr "Carpool with only family/household member(s)");
        (Some (VInt 3), VStr "Carpool with at least one person not in household");
        (Some (VInt 4), VStr "Motorcycle/moped/scooter");
        (Some (VInt 5), VStr "Walk/jog/wheelchair");
        (Some (VInt 6), VStr "Bicycle");
        (Some (VInt 7), VStr "School bus");
        (Some (VInt 8), VStr "Bus (public transit)");
        (Some (VInt 9), VStr "Private shuttle bus");
        (Some (VInt 10), VStr "Vanpool");
        (Some (VInt 11), VStr "Light Rail (e.g., Trolley, SPRINTER)");
        (Some (VInt 12), VStr "Intercity Rail (e.g., COASTER, Amtrak)");
        (Some (VInt 13), VStr "Paratransit");
        (Some (VInt 14), VStr "Taxi or other hired car service (e.g., Lyft, Uber)");
        (Some (VInt 97), VStr "Other");
        (None, VStr "Missing") ]);
    ("daycare_early",
      [ (Some (VInt 1), VStr "Before 6 AM");
        (Some (VInt 2), VStr "6:00 AM");
        (Some (VInt 3), VStr "6:15 AM");
        (Some (VInt 4), VStr "6:30 AM");
        (Some (VInt 5), VStr "6:45 AM");
        (Some (VInt 6), VStr "7:00 AM");
        (Some (VInt 7), VStr "7:15 AM");
        (Some (VInt 8), VStr "7:30 AM");
        (Some (VInt 9), VStr "7:45 AM");
        (Some (VInt 10), VStr "8:00 AM");
        (Some (VInt 11), VStr "8:15 AM");
        (Some (VInt 12), VStr "8:30 AM");
        (Some (VInt 13), VStr "After 8:30 AM");
        (None, VStr "Missing") ]);
    ("daycare_late",
      [ (Some (VInt 1), VStr "Before 5 PM");
        (Some (VInt 2), VStr "5:00 PM");
        (Some (VInt 3), VStr "5:15 PM");
        (Some (VInt 4), VStr "5:30 PM");
        (Some (VInt 5), VStr "5:45 PM");
        (Some (VInt 6), VStr "6:00 PM");
        (Some (VInt 7), VStr "6:15 PM");
        (Some (VInt 8), VStr "6:30 PM");
        (Some (VInt 9), VStr "6:45 PM");
        (Some (VInt 10), VStr "7:00 PM");
        (Some (VInt 11), VStr "7:15 PM");
        (Some (VInt 12), VStr "7:30 PM");
        (Some (VInt 13), VStr "After 7:30 PM");
        (None, VStr "Missing") ]);
    ("job_type",
      [ (Some (VInt 1), VStr "Has one work location (outside of home, may also telework)");
        (Some (VInt 2), VStr "Work location regularly varies (work in different offices or jobsites)");
        (Some (VInt 3), VStr "Work at home only (only telework or self-employed)");
        (Some (VInt 4), VStr "Drive/Travel for a living (e.g., bus/truck driver, salesman)");
        (None, VStr "Missing") ]);
    ("occupation",
      [ (Some (VInt 11), VStr "Management Occupations");
        (Some (VInt 13), VStr "Business & Financial Operations");
        (Some (VInt 15), VStr "Computer & Mathematical");
        (Some (VInt 17), VStr "Architecture & Engineering");
        (Some (VInt 19), VStr "Life, Physical, & Social Science");
        (Some (VInt 21), VStr "Community & Social Services");
        (Some (VInt 23), VStr "Legal");
        (Some (VInt 25), VStr "Education, Training, & Library");
        (Some (VInt 27), VStr "Arts, Design, Entertainment, Sports, & Media");
        (Some (VInt 29), VStr "Healthcare Practitioners & Technical");
        (Some (VInt 31), VStr "Healthcare Support");
        (Some (VInt 33), VStr "Protective Service");
        (Some (VInt 35), VStr "Food Preparation & Serving Related");
        (Some (VInt 37), VStr "Building & Grounds Cleaning/Maintenance");
        (Some (VInt 39), VStr "Personal Care & Service");
        (Some (VInt 41), VStr "Sales & Related");
        (Some (VInt 43), VStr "Office & Administrative Support");
        (Some (VInt 45), VStr "Farming, Fishing, & Forestry");
        (Some (VInt 47), VStr "Construction & Extraction");
        (Some (VInt 49), VStr "Installation, Maintenance, & Repair");
        (Some (VInt 51), VStr "Production");
        (Some (VInt 53), VStr "Transportation & Material Moving");
        (Some (VInt 55), VStr "Military");
        (Some (VInt 97), VStr "Other");
        (Some (VInt 98), VStr "Do not know");
        (None, VStr "Missing") ]);
    ("industry",
      [ (Some (VInt 1), VStr "Accommodation (e.g., hotels/motels)");
        (Some (VInt 2), VStr "Administrative, Support, & Waste Management Services");
        (Some (VInt 3), VStr "Agriculture, Forestry, Fishing, & Hunting");
        (Some (VInt 4), VStr "Arts, Entertainment, & Recreation");
        (Some (VInt 5), VStr "Construction");
        (Some (VInt 6), VStr "Education Services");
        (Some (VInt 7), VStr "Food Services & Drinking Places");
        (Some (VInt 8), VStr "Finance & Insurance");
        (Some (VInt 9), VStr "Health Care & Social Assistance");
        (Some (VInt 10), VStr "Information");
        (Some (VInt 11), VStr "Management of Companies & Enterprises");
        (Some (VInt 12), VStr "Manufacturing");
        (Some (VInt 13), VStr "Military");
        (Some (VInt 14), VStr "Mining, Quarrying, & Oil/Gas Extraction");
        (Some (VInt 15), VStr "Other Services");
        (Some (VInt 16), VStr "Professional, Scientific, & Technical Services");
        (Some (VInt 17), VStr "Public Administration");
        (Some (VInt 18), VStr "Real Estate, Rental, & Leasing");
        (Some (VInt 19), VStr "Retail Trade");
        (Some (VInt 20), VStr "Transportation & Warehousing");
        (Some (VInt 21), VStr "Utilities");
        (Some (VInt 22), VStr "Wholesale Trade");
        (Some (VInt 97), VStr "Other");
        (Some (VInt 98), VStr "Do not know");
        (None, VStr "Missing") ]);
    ("hours_work",
      [ (Some (VInt 1), VStr "50 or more hours");
        (Some (VInt 2), VStr "40-49 hours");
        (Some (VInt 3), VStr "35-39 hours");
        (Some (VInt 4), VStr "30-34 hours");
        (Some (VInt 5), VStr "20-29 hours");
        (Some (VInt 6), VStr "10-19 hours");
        (Some (VInt 7), VStr "Fewer than 10 hours");
        (Some (VInt 8), VStr "Hours vary greatly from week to week");
        (None, VStr "Missing") ]);
    ("commute_freq",
      [ (Some (VInt 1), VStr "6-7 days a week");
        (Some (VInt 2), VStr "5 days a week");
        (Some (VInt 3), VStr "4 days a week");
        (Some (VInt 4), VStr "2-3 days a week");
        (Some (VInt 5), VStr "1 day a week");
        (Some (VInt 6), VStr "9 days every 2 weeks");
        (Some (VInt 7), VStr "1-3 days per month");
        (Some (VInt 8), VStr "Less than monthly");
        (Some (VInt 9), VStr "Never");
        (None, VStr "Missing") ]);
    ("commute_mode",
      [ (Some (VInt 1), VStr "Drive alone");
        (Some (VInt 2), VStr "Carpool with only family/household member(s)");
        (Some (VInt 3), VStr "Carpool with at least one person not in household");
        (Some (VInt 4), VStr "Motorcycle/moped/scooter");
        (Some (VInt 5), VStr "Walk/jog/wheelchair");
        (Some (VInt 6), VStr "Bicycle");
        (Some (VInt 7), VStr "School bus");
        (Some (VInt 8), VStr "Bus (public transit)");
        (Some (VInt 9), VStr "Private shuttle bus");
        (Some (VInt 10), VStr "Vanpool");
        (Some (VInt 11), VStr "Light Rail (e.g., Trolley, SPRINTER)");
        (Some (VInt 12), VStr "Intercity Rail (e.g., COASTER, Amtrak)");
        (Some (VInt 13), VStr "Paratransit");
        (Some (VInt 14), VStr "Taxi or other hired car service (e.g., Lyft, Uber)");
        (Some (VInt 97), VStr "Other");
        (None, VStr "Missing") ]);
    ("work_flex",
      [ (Some (VInt 1), VStr "No flexibility (must always arrive on time)");
        (Some (VInt 2), VStr "Can arrive up to 15 minutes earlier/later");
        (Some (VInt 3), VStr "Can arrive up to 30 minutes earlier/later");
        (Some (VInt 4), VStr "Can arrive up to 45 minutes earlier/later");
        (Some (VInt 5), VStr "Can arrive more than an hour earlier/later");
        (Some (VInt 6), VStr "Sets own schedule (start time can vary greatly)");
        (None, VStr "Missing") ]);
    ("work_park_pay",
      [ (Some (VInt 1), VStr "No cost to anyone to park at/near work");
        (Some (VInt 2), VStr "Employer pays all parking costs");
        (Some (VInt 3), VStr "Employer offers discounted monthly parking pass");
        (Some (VInt 4), VStr "Employer offers discounted other (e.g., daily, weekly) parking pass");
        (Some (VInt 5), VStr "Personally pay all cost for monthly parking pass");
        (Some (VInt 6), VStr "Personally pay all cost for daily parking");
        (Some (VInt 7), VStr "Personally pay for parking on other (daily, biweekly, annual) schedule");
        (Some (VInt 96), VStr "Not Applicable");
        (Some (VInt 98), VStr "Do not know");
        (None, VStr "Missing") ]);
    ("work_park_cost_dk",
      [ (Some (VInt 0), VStr "No");
        (Some (VInt 1), VStr "Yes");
        (None, VStr "Not Applicable") ]);
    ("work_park_ease",
      [ (Some (VInt 1), VStr "Easy to find a parking spot");
        (Some (VInt 2), VStr "Difficult to find a parking spot (usually takes a few minutes)");
        (Some (VInt 96), VStr "Not Applicable");
        (None, VStr "Missing") ]);
    ("telecommute_freq",
      [ (Some (VInt 1), VStr "6-7 days a week");
        (Some (VInt 2), VStr "5 days a week");
        (Some (VInt 3), VStr "4 days a week");
        (Some (VInt 4), VStr "2-3 days a week");
        (Some (VInt 5), VStr "1 day a week");
        (Some (VInt 6), VStr "9 days every 2 weeks");
        (Some (VInt 7), VStr "1-3 days per month");
        (Some (VInt 8), VStr "Less than monthly");
        (Some (VInt 9), VStr "Never");
        (None, VStr "Missing") ]);
    ("commute_subsidy_none",
      [ (Some (VInt 0), VStr "No");
        (Some (VInt 1), VStr "Yes");
        (None, VStr "Missing") ]);
    ("commute_subsidy_parking",
      [ (Some (VInt 0), VStr "No");
        (Some (VInt 1), VStr "Yes");
        (None, VStr "Missing") ]);
    ("commute_subsidy_transit",
      [ (Some (VInt 0), VStr "No");
        (Some (VInt 1), VStr "Yes");
        (None, VStr "Missing") ]);
    ("commute_subsidy_vanpool",
      [ (Some (VInt 0), VStr "No");
        (Some (VInt 1), VStr "Yes");
        (None, VStr "Missing") ]);
    ("commute_subsidy_cash",
      [ (Some (VInt 0), VStr "No");
        (Some (VInt 1), VStr "Yes");
        (None, VStr "Missing") ]);
    ("commute_subsidy_other",
      [ (Some (VInt 0), VStr "No");
        (Some (VInt 1), VStr "Yes");
        (None, VStr "Missing") ]);
    ("secondhome",
      [ (Some (VInt 0), VStr "No");
        (Some (VInt 1), VStr "Yes");
        (None, VStr "Missing") ]);
    ("smartphone_type",
      [ (Some (VInt 1), VStr "Yes, has an Android phone");
        (Some (VInt 2), VStr "Yes, has an iPhone");
        (Some (VInt 3), VStr "Yes, has a Windows Phone");
        (Some (VInt 4), VStr "Yes, has a Blackberry");
        (Some (VInt 5), VStr "Yes, has other type of smartphone");
        (Some (VInt 6), VStr "No, does not have a smartphone");
        (Some (VInt 99), VStr "Not Applicable");
        (None, VStr "Missing") ]);
    ("smartphone_age",
      [ (Some (VInt 1), VStr "Yes");
        (Some (VInt 2), VStr "No");
        (Some (VInt 99), VStr "Not Applicable");
        (None, VStr "Missing") ]);
    ("child_smartphone",
      [ (Some (VInt 1), VStr "Yes");
        (Some (VInt 2), VStr "No");
        (Some (VInt 99), VStr "Not Applicable");
        (None, VStr "Missing") ]);
    ("callcenter_diary",
      [ (Some (VInt 0), VStr "No");
        (Some (VInt 1), VStr "Yes");
        (Some (VInt 99), VStr "Not Applicable");
        (None, VStr "Missing") ]);
    ("mobile_diary",
      [ (Some (VInt 0), VStr "No");
        (Some (VInt 1), VStr "Yes");
        (Some (VInt 99), VStr "Not Applicable");
        (None, VStr "Missing") ]);
    ("day1_complete",
      [ (Some (VInt 0), VStr "No");
        (Some (VInt 1), VStr "Yes");
        (None, VStr "Not Applicable") ]);
    ("day2_complete",
      [ (Some (VInt 0), VStr "No");
        (Some (VInt 1), VStr "Yes");
        (None, VStr "Not Applicable") ]);
    ("day3_complete",
      [ (Some (VInt 0), VStr "No");
        (Some (VInt 1), VStr "Yes");
        (None, VStr "Not Applicable") ]);
    ("day4_complete",
      [ (Some (VInt 0), VStr "No");
        (Some (VInt 1), VStr "Yes");
        (None, VStr "Not Applicable") ]);
    ("day5_complete",
      [ (Some (VInt 0), VStr "No");
        (Some (VInt 1), VStr "Yes");
        (None, VStr "Not Applicable") ]);
    ("day6_complete",
      [ (Some (VInt 0), VStr "No");
        (Some (VInt 1), VStr "Yes");
        (None, VStr "Not Applicable") ]);
    ("day7_complete",
      [ (Some (VInt 0), VStr "No");
        (Some (VInt 1), VStr "Yes");
        (None, VStr "Not Applicable") ]) ].

(** The [columns] dictionary of [df.rename] (line 3041): old name, new name. *)
Definition renames : list (string * string) :=
  [ ("personid", "person_id");
    ("hhid", "household_id");
    ("pernum", "person_number");
    ("traveldate_start", "travel_date_start");
    ("age", "age_category");
    ("employment", "employment_status");
    ("jobs_count", "number_of_jobs");
    ("student", "adult_student_status");
    ("education", "educational_attainment");
    ("license", "drivers_license");
    ("military", "military_status");
    ("ethnicity_amindian_alaska", "ethnicity_americanindian_alaskanative");
    ("weight_lbs", "weight");
    ("transit_freq", "transit_frequency");
    ("transitpass", "transit_pass");
    ("schooltype", "school_type");
    ("school_freq", "school_frequency");
    ("daycare_early", "daycare_open");
    ("daycare_late", "daycare_close");
    ("job_type", "work_location_type");
    ("hours_work", "hours_worked");
    ("commute_freq", "commute_frequency");
    ("work_flex", "work_arrival_frequency");
    ("work_park_pay", "work_parking_payment");
    ("work_park_cost", "work_parking_cost");
    ("work_park_cost_dk", "work_parking_cost_dk");
    ("work_park_ease", "work_parking_ease");
    ("telecommute_freq", "telecommute_frequency");
    ("secondhome", "has_second_home");
    ("secondhome_address", "second_home_address");
    ("secondhome_lat", "second_home_latitude");
    ("secondhome_lng", "second_home_longitude");
    ("mainschool_address", "school_address");
    ("mainschool_lat", "school_latitude");
    ("mainschool_lng", "school_longitude");
    ("secondschool_address", "second_school_address");
    ("secondschool_lat", "second_school_latitude");
    ("secondschool_lng", "second_school_longitude");
    ("work_lat", "work_latitude");
    ("work_lng", "work_longitude");
    ("secondwork_address", "second_work_address");
    ("secondwork_lat", "second_work_latitude");
    ("secondwork_lng", "second_work_longitude");
    ("child_smartphone", "smartphone_child");
    ("callcenter_diary", "diary_callcenter");
    ("mobile_diary", "diary_mobile");
    ("activated_rmove", "rmove_activated");
    ("numdays_complete", "completed_days");
    ("day1_complete", "completed_day1");
    ("day2_complete", "completed_day2");
    ("day3_complete", "completed_day3");
    ("day4_complete", "completed_day4");
    ("day5_complete", "completed_day5");
    ("day6_complete", "completed_day6");
    ("day7_complete", "completed_day7") ].

(** The columns of the returned table, in order (line 3100). *)
Definition output_columns : list string :=
  [ "person_id"; "household_id"; "person_number"; "travel_date_start"; "rmove_participant";
    "relationship"; "gender"; "age_category"; "employment_status"; "number_of_jobs";
    "adult_student_status"; "educational_attainment"; "drivers_license"; "military_status";
    "ethnicity_americanindian_alaskanative"; "ethnicity_asian"; "ethnicity_black";
    "ethnicity_hispanic"; "ethnicity_hawaiian_pacific"; "ethnicity_white";
    "ethnicity_other"; "disability"; "height"; "weight"; "physical_activity";
    "transit_frequency"; "transit_pass"; "school_type"; "school_frequency"; "other_school";
    "school_mode"; "daycare_open"; "daycare_close"; "work_location_type"; "occupation";
    "industry"; "hours_worked"; "commute_frequency"; "commute_mode";
    "work_arrival_frequency"; "work_parking_payment"; "work_parking_cost";
    "work_parking_cost_dk"; "work_parking_ease"; "telecommute_frequency";
    "commute_subsidy_none"; "commute_subsidy_parking"; "commute_subsidy_transit";
    "commute_subsidy_vanpool"; "commute_subsidy_cash"; "commute_subsidy_other";
    "commute_subsidy_specify"; "has_second_home"; "second_home_address";
    "second_home_latitude"; "second_home_longitude"; "second_home_shape"; "school_address";
    "school_latitude"; "school_longitude"; "school_shape"; "second_school_address";
    "second_school_latitude"; "second_school_longitude"; "second_school_shape";
    "work_address"; "work_latitude"; "work_longitude"; "work_shape"; "second_work_address";
    "second_work_latitude"; "second_work_longitude"; "second_work_shape";
    "smartphone_type"; "smartphone_age"; "smartphone_child"; "diary_callcenter";
    "diary_mobile"; "rmove_activated"; "completed_days"; "completed_day1";
    "completed_day2"; "completed_day3"; "completed_day4"; "completed_day5";
    "completed_day6"; "completed_day7" ].

(** The values set for the columns that the AT extract does not have
    (lines 2253-2257). *)
Definition at_constants : list (string * value) :=
  [ ("smartphone_type", VInt 99);
    ("smartphone_age", VInt 99);
    ("child_smartphone", VInt 99);
    ("callcenter_diary", VInt 99);
    ("mobile_diary", VInt 99) ].

(** The statements after the recode, in source order. *)
Definition rules : list step :=
  [ (* line 2815 *)
    Loc (λ df, isin (df !! "age") [VStr "Under 5 years old"; VStr "5-15 years"])
        ["employment"; "jobs_count"; "license"; "military";
         "ethnicity_amindian_alaska"; "ethnicity_asian"; "ethnicity_black";
         "ethnicity_hispanic"; "ethnicity_hawaiian_pacific"; "ethnicity_white";
         "ethnicity_other"; "ethnicity_prefernot"; "disability"; "transit_freq";
         "transitpass"; "job_type"; "occupation"; "industry"; "hours_work";
         "commute_freq"; "commute_mode"; "work_flex"; "work_park_pay";
         "work_park_cost_dk"; "work_park_ease"; "telecommute_freq";
         "commute_subsidy_none"; "commute_subsidy_parking";
         "commute_subsidy_transit"; "commute_subsidy_vanpool";
         "commute_subsidy_cash"; "commute_subsidy_other"; "commute_subsidy_specify";
         "work_address"; "secondwork_address"; "smartphone_type"; "smartphone_age"]
        (VStr "Not Applicable");
    (* line 2855 *)
    Loc (λ df, ne_lit (df !! "age") (VStr "16-17 years"))
        ["child_smartphone"]
        (VStr "Not Applicable");
    (* line 2858 *)
    Loc (λ df, isin (df !! "age") 
                 [ VStr "Under 5 years old";
                   VStr "5-15 years";
                   VStr "16-17 years" ])
        ["student"; "education"; "physical_activity"]
        (VStr "Not Applicable");
    (* line 2864 *)
    Loc (λ df, eq_lit (df !! "employment") (VStr "Not currently employed"))
        ["jobs_count"; "military"; "job_type"; "occupation"; "industry";
         "hours_work"; "commute_freq"; "commute_mode"; "work_flex"; "work_park_pay";
         "work_park_cost_dk"; "work_park_ease"; "telecommute_freq";
         "commute_subsidy_none"; "commute_subsidy_parking";
         "commute_subsidy_transit"; "commute_subsidy_vanpool";
         "commute_subsidy_cash"; "commute_subsidy_other"; "commute_subsidy_specify";
         "work_address"; "secondwork_address"]
        (VStr "Not Applicable") ] ++
  (* line 2891 *) fillna ["secondwork_address"] (VStr "Not Applicable") ++
  [ (* line 2894 *)
    Loc (λ df, eq_lit (df !! "ethnicity_prefernot") (VStr "Yes"))
        ["ethnicity_amindian_alaska"; "ethnicity_asian"; "ethnicity_black";
         "ethnicity_hispanic"; "ethnicity_hawaiian_pacific"; "ethnicity_white";
         "ethnicity_other"]
        (VStr "Not Applicable");
    (* line 2904 *)
    Loc (λ df, isin (df !! "transit_freq") 
                 [ VStr "1-3 days per month";
                   VStr "Less than monthly";
                   VStr "Never" ])
        ["transitpass"]
        (VStr "Not Applicable");
    (* line 2910 *)
    Loc (λ df, isin (df !! "schooltype") [VStr "Missing"; VStr "Not Applicable"])
        ["mainschool_address"; "secondschool_address"]
        (VStr "Not Applicable") ] ++
  (* line 2915 *) fillna ["secondschool_address"] (VStr "Not Applicable") ++
  [ (* line 2918 *)
    Loc (λ df, isin (df !! "schooltype") 
                 [ VStr "Cared for at home";
                   VStr "Kindergarten-Grade 5 (home school)";
                   VStr "Grade 6-Grade 8 (home school)";
                   VStr "Grade 9-Grade 12 (home school)";
                   VStr "Missing";
                   VStr "Not Applicable" ])
        ["school_freq"; "other_school"; "school_mode"]
        (VStr "Not Applicable");
    (* line 2928 *)
    Loc (λ df, eq_lit (df !! "school_freq") (VStr "Never, only takes online classes"))
        ["school_mode"]
        (VStr "Not Applicable");
    (* line 2932 *)
    Loc (λ df, ne_lit (df !! "schooltype") (VStr "Daycare outside home"))
        ["daycare_early"; "daycare_late"]
        (VStr "Not Applicable");
    (* line 2937 *)
    Loc (λ df, isin (df !! "military") 
                 [ VStr "Active duty within the San Diego region";
                   VStr "Active duty outside of the San Diego region" ])
        ["job_type"; "occupation"; "industry"; "hours_work"; "commute_freq";
         "commute_mode"; "work_flex"; "work_park_pay"; "work_park_cost_dk";
         "work_park_ease"; "telecommute_freq"; "commute_subsidy_none";
         "commute_subsidy_parking"; "commute_subsidy_transit";
         "commute_subsidy_vanpool"; "commute_subsidy_cash"; "commute_subsidy_other";
         "commute_subsidy_specify"]
        (VStr "Not Applicable");
    (* line 2959 *)
    Loc (λ df, eq_lit (df !! "job_type") (VStr "Work at home only (only telework or self-employed)"))
        ["telecommute_freq"]
        (VStr "Not Applicable");
    (* line 2962 *)
    Loc (λ df, isin (df !! "job_type") 
                 [ VStr "Work at home only (only telework or self-employed)";
                   VStr "Drive/Travel for a living (e.g., bus/truck driver, salesman)" ])
        ["commute_freq"]
        (VStr "Not Applicable");
    (* line 2966 *)
    Loc (λ df, isin (df !! "commute_freq") [VStr "Never"; VStr "Not Applicable"])
        ["commute_mode"; "work_flex"; "work_park_pay"; "work_park_cost_dk";
         "work_park_ease"; "commute_subsidy_none"; "commute_subsidy_parking";
         "commute_subsidy_transit"; "commute_subsidy_vanpool";
         "commute_subsidy_cash"; "commute_subsidy_other"; "commute_subsidy_specify"]
        (VStr "Not Applicable");
    (* line 2981 *)
    Loc (λ df, isin (df !! "commute_subsidy_other") [VStr "No"; VStr "Not Applicable"])
        ["commute_subsidy_specify"]
        (VStr "Not Applicable");
    (* line 2986 *)
    Loc (λ df, negb (isin (df !! "commute_mode") 
                 [ VStr "Drive alone";
                   VStr "Carpool with only family/household member(s)";
                   VStr "Carpool with at least one person not in household";
                   VStr "Motorcycle/moped/scooter" ]))
        ["work_park_pay"; "work_park_cost_dk"; "work_park_ease"]
        (VStr "Not Applicable");
    (* line 2995 *)
    Loc (λ df, ne_lit (df !! "secondhome") (VStr "Yes"))
        ["secondhome_address"]
        (VStr "Not Applicable");
    (* line 2997 *)
    Loc (λ df, eq_lit (df !! "rmove_participant") (VStr "Yes"))
        ["callcenter_diary"; "mobile_diary"]
        (VStr "Not Applicable");
    (* line 3002 *)
    Loc (λ df, isin (df !! "smartphone_type") 
                 [ VStr "Yes, has a Windows Phone";
                   VStr "Yes, has other type of smartphone";
                   VStr "Yes, has a Blackberry";
                   VStr "No, does not have a smartphone";
                   VStr "Not Applicable" ])
        ["smartphone_age"]
        (VStr "Not Applicable") ] ++
  (* line 3011 *) fillna ["mainschool_address"] (VStr "Missing") ++
  (* line 3012 *) fillna ["work_address"] (VStr "Missing").

(** The frame after the recode (lines 2107-2812). *)
Definition persons_recoded (sdrts_file at_file : list row) : list row :=
  let at_df := assign_constants at_constants <$> read_csv at_usecols at_file in
  let df := read_csv sdrts_usecols sdrts_file ++ at_df in
  recode mappings <$> df.

(** The frame after the rule pass (lines 2814-3012), before the geometry
    columns are added. *)
Definition persons_frame (sdrts_file at_file : list row) : list row :=
  run rules <$> persons_recoded sdrts_file at_file.

(** The [persons] property (lines 2016-3186). *)
Definition persons `{Geodesy (cell * cell)} (sdrts_file at_file : list row)
    : list row :=
  let df := persons_frame sdrts_file at_file in
  let df := assign_column "second_home_shape"
              (shape "secondhome_lng" "secondhome_lat" "EPSG:2230" df) df in
  let df := assign_column "school_shape"
              (shape "mainschool_lng" "mainschool_lat" "EPSG:2230" df) df in
  let df := assign_column "second_school_shape"
              (shape "secondschool_lng" "secondschool_lat" "EPSG:2230" df) df in
  let df := assign_column "work_shape"
              (shape "work_lng" "work_lat" "EPSG:2230" df) df in
  let df := assign_column "second_work_shape"
              (shape "secondwork_lng" "secondwork_lat" "EPSG:2230" df) df in
  finish renames output_columns <$> df.

(** The geometry columns added after the rule pass (lines 3015-3038). *)
Definition shape_columns : list string :=
  [ "second_home_shape"; "school_shape"; "second_school_shape"; "work_shape";
    "second_work_shape" ].

(** The labels of active duty in the military rule of line 2937. *)
Definition active_duty : list value :=
  [ VStr "Active duty within the San Diego region";
    VStr "Active duty outside of the San Diego region" ].

(** The statements that run before the commute rule of line 2966; the
    military rule is one of them. *)
Definition rules_before_commute_rule : list step := take 15 rules.

(** The fields the military rule of line 2937 blanks that the specification
    names, under their names in the frame. *)
Definition civilian_employment_columns : list string :=
  [ "occupation"; "industry"; "hours_work"; "commute_freq"; "commute_mode";
    "work_park_pay"; "work_park_cost_dk"; "work_park_ease"; "telecommute_freq";
    "commute_subsidy_none"; "commute_subsidy_parking"; "commute_subsidy_transit";
    "commute_subsidy_vanpool"; "commute_subsidy_cash"; "commute_subsidy_other";
    "commute_subsidy_specify" ].

(** The same fields under their names in the returned table. *)
Definition civilian_employment_fields : list string :=
  [ "occupation"; "industry"; "hours_worked"; "commute_frequency"; "commute_mode";
    "work_parking_payment"; "work_parking_cost_dk"; "work_parking_ease";
    "telecommute_frequency"; "commute_subsidy_none"; "commute_subsidy_parking";
    "commute_subsidy_transit"; "commute_subsidy_vanpool"; "commute_subsidy_cash";
    "commute_subsidy_other"; "commute_subsidy_specify" ].

End Persons.

(** ** Trips *)

Module Trips.
Import Frame FrameOps.

(** [usecols] of the [read_csv] of SDRTS_AT_Trip_Data_20170831.csv (line 3283). *)
Definition at_usecols : list string :=
  [ "tripid"; "tripid_linked"; "personid"; "hhid"; "traveldate"; "daynum"; "travel_dow";
    "svy_complete"; "completed_at"; "revised_at"; "revised_count"; "error";
    "flag_teleport"; "copied_trip"; "analyst_merged"; "analyst_split"; "user_merged";
    "user_split"; "added_trip"; "unlinked_transit_trip"; "origin_lat"; "origin_lng";
    "destination_lat"; "destination_lng"; "o_purpose"; "o_purpose_other";
    "o_purpose_inferred"; "d_purpose"; "d_purpose_other"; "d_purpose_inferred";
    "departure_time"; "arrival_time"; "travelers_total"; "travelers_hh"; "travelers_nonhh";
    "mode1"; "google_mode"; "driver"; "parklocation"; "parktype"; "parkcost";
    "park_cost_dk"; "parkegress_time"; "taxitype"; "taxicost"; "taxi_cost_dk"; "airtype";
    "airfarecost"; "airfare_cost_dk"; "bustype"; "buscost"; "bus_cost_dk"; "railtype";
    "railcost"; "rail_cost_dk"; "ferrytype"; "ferrycost"; "ferry_cost_dk";
    "trip_path_distance"; "trip_duration"; "speed_mph" ].

(** [usecols] of the [read_csv] of SDRTS_Trip_Data_20170731.csv (line 3438). *)
Definition sdrts_usecols : list string :=
  [ "tripid"; "tripid_linked"; "location_tripid"; "personid"; "hhid"; "traveldate";
    "daynum"; "travel_dow"; "data_source"; "svy_complete"; "completed_at";
    "day_hhcomplete"; "pday_complete"; "h_complete_weekdays"; "revised_at";
    "revised_count"; "error"; "flag_teleport"; "copied_trip"; "analyst_merged";
    "analyst_split"; "user_merged"; "user_split"; "added_trip"; "nonproxy_derived_trip";
    "proxy_added_trip"; "unlinked_transit_trip"; "origin_name"; "origin_address";
    "origin_lat"; "origin_lng"; "destination_name"; "destination_address";
    "destination_lat"; "destination_lng"; "o_purpose"; "o_purpose_other";
    "o_purpose_inferred"; "d_purpose"; "d_purpose_other"; "d_purpose_inferred";
    "departure_time"; "arrival_time"; "travelers_total"; "travelers_hh"; "travelers_nonhh";
    "mode1"; "mode2"; "mode3"; "mode4"; "transit_access"; "transit_egress"; "google_mode";
    "driver"; "toll_no"; "toll_express"; "parklocation"; "parktype"; "parkcost";
    "park_cost_dk"; "parkegress_time"; "taxitype"; "taxicost"; "taxi_cost_dk"; "airtype";
    "airfarecost"; "airfare_cost_dk"; "bustype"; "buscost"; "bus_cost_dk"; "railtype";
    "railcost"; "rail_cost_dk"; "ferrytype"; "ferrycost"; "ferry_cost_dk"; "parkride_lot";
    "parkride_city"; "trip_path_distance"; "trip_duration"; "trip_duration_reported";
    "speed_mph"; "h_multiday_factor"; "multiday_weight_456x" ].

(** The [mappings] dictionary (line 3578): field, then code and label in
    insertion order; the key [None] is [pd.NA]. *)
Definition mappings : list (string * mapping) :=
  [ ("travel_dow",
      [ (Some (VInt 1), VStr "Monday");
        (Some (VInt 2), VStr "Tuesday");
        (Some (VInt 3), VStr "Wednesday");
        (Some (VInt 4), VStr "Thursday");
        (Some (VInt 5), VStr "Friday");
        (Some (VInt 6), VStr "Saturday");
        (Some (VInt 7), VStr "Sunday");
        (None, VStr "Missing") ]);
    ("data_source",
      [ (Some (VInt 1), VStr "rMove");
        (Some (VInt 2), VStr "Online");
        (None, VStr "Missing") ]);
    ("svy_complete",
      [ (Some (VInt 0), VStr "No");
        (Some (VInt 1), VStr "Yes");
        (None, VStr "Missing") ]);
    ("day_hhcomplete",
      [ (Some (VInt 0), VStr "No");
        (Some (VInt 1), VStr "Yes");
        (Some (VInt 99), VStr "Not Applicable");
        (None, VStr "Missing") ]);
    ("pday_complete",
      [ (Some (VInt 0), VStr "No");
        (Some (VInt 1), VStr "Yes");
        (Some (VInt 99), VStr "Not Applicable");
        (None, VStr "Missing") ]);
    ("error",
      [ (Some (VInt 1), VStr "No error");
        (Some (VInt 2), VStr "Not moving");
        (Some (VInt 3), VStr "Still traveling");
        (Some (VInt 4), VStr "Made other stops");
        (Some (VInt 97), VStr "Other error");
        (None, VStr "Missing") ]);
    ("flag_teleport",
      [ (Some (VInt 0), VStr "No");
        (Some (VInt 1), VStr "Yes");
        (None, VStr "Missing") ]);
    ("copied_trip",
      [ (Some (VInt 0), VStr "No");
        (Some (VInt 1), VStr "Yes");
        (None, VStr "Missing") ]);
    ("analyst_merged",
      [ (Some (VInt 0), VStr "No");
        (Some (VInt 1), VStr "Yes");
        (None, VStr "Missing") ]);
    ("analyst_split",
      [ (Some (VInt 0), VStr "No");
        (Some (VInt 1), VStr "Yes");
        (None, VStr "Missing") ]);
    ("user_merged",
      [ (Some (VInt 0), VStr "No");
        (Some (VInt 1), VStr "Yes");
        (None, VStr "Missing") ]);
    ("user_split",
      [ (Some (VInt 0), VStr "No");
        (Some (VInt 1), VStr "Yes");
        (None, VStr "Missing") ]);
    ("added_trip",
      [ (Some (VInt 0), VStr "No");
        (Some (VInt 1), VStr "Yes");
        (None, VStr "Missing") ]);
    ("nonproxy_derived_trip",
      [ (Some (VInt 0), VStr "No");
        (Some (VInt 1), VStr "Yes");
        (Some (VInt 99), VStr "Not Applicable");
        (None, VStr "Missing") ]);
    ("proxy_added_trip",
      [ (Some (VInt 0), VStr "No");
        (Some (VInt 1), VStr "Yes");
        (Some (VInt 99), VStr "Not Applicable");
        (None, VStr "Missing") ]);
    ("unlinked_transit_trip",
      [ (Some (VInt 0), VStr "No");
        (Some (VInt 1), VStr "Yes");
        (None, VStr "Missing") ]);
    ("o_purpose",
      [ (Some (VInt 1), VStr "Home");
        (Some (VInt 3), VStr "School/Class");
        (Some (VInt 5), VStr "Drop off, pick up, accompany person (Online diary only)");
        (Some (VInt 7), VStr "Social/leisure/vacation activity (Online diary only)");
        (Some (VInt 10), VStr "Primary workplace");
        (Some (VInt 11), VStr "Work-related");
        (Some (VInt 12), VStr "Traveling for work (e.g., going to airport)");
        (Some (VInt 13), VStr "Volunteer work");
        (Some (VInt 14), VStr "Other work");
        (Some (VInt 21), VStr "K-12 School");
        (Some (VInt 22), VStr "College/University");
        (Some (VInt 24), VStr "Other education-related (e.g., field trip)");
        (Some (VInt 25), VStr "Vocational education");
        (Some (VInt 30), VStr "Grocery");
        (Some (VInt 31), VStr "Gas");
        (Some (VInt 32), VStr "Routine shopping");
        (Some (VInt 33), VStr "Errands without appointment");
        (Some (VInt 34), VStr "Medical");
        (Some (VInt 36), VStr "Shopping for a major item");
        (Some (VInt 37), VStr "Errands with appointment");
        (Some (VInt 45), VStr "Pick someone up (rMove only)");
        (Some (VInt 46), VStr "Drop someone off (rMove only)");
        (Some (VInt 47), VStr "Accompany someone (rMove only)");
        (Some (VInt 48), VStr "Multiple: pickup, dropoff, accompany (rMove only)");
        (Some (VInt 50), VStr "Restaurant");
        (Some (VInt 51), VStr "Exercise");
        (Some (VInt 52), VStr "Social (rMove only)");
        (Some (VInt 53), VStr "Leisure/entertainment (rMove only)");
        (Some (VInt 54), VStr "Religious/civic (rMove only)");
        (Some (VInt 55), VStr "Vacation/travel (rMove only)");
        (Some (VInt 56), VStr "Family activity (rMove only)");
        (Some (VInt 60), VStr "Change travel mode");
        (Some (VInt 61), VStr "Other errand");
        (Some (VInt 62), VStr "Other leisure (rMove only)");
        (Some (VInt 97), VStr "Other purpose");
        (Some (VInt 99), VStr "Other");
        (Some (VInt (-9999)), VStr "Technical error");
        (Some (VInt (-9998)), VStr "Participant non-response");
        (None, VStr "Missing") ]);
    ("o_purpose_inferred",
      [ (Some (VInt 1), VStr "Home");
        (Some (VInt 3), VStr "School/Class");
        (Some (VInt 5), VStr "Drop off, pick up, accompany person (Online diary only)");
        (Some (VInt 7), VStr "Social/leisure/vacation activity (Online diary only)");
        (Some (VInt 10), VStr "Primary workplace");
        (Some (VInt 11), VStr "Work-related");
        (Some (VInt 12), VStr "Traveling for work (e.g., going to airport)");
        (Some (VInt 13), VStr "Volunteer work");
        (Some (VInt 14), VStr "Other work");
        (Some (VInt 21), VStr "K-12 School");
        (Some (VInt 22), VStr "College/University");
        (Some (VInt 24), VStr "Other education-related (e.g., field trip)");
        (Some (VInt 25), VStr "Vocational education");
        (Some (VInt 30), VStr "Grocery");
        (Some (VInt 31), VStr "Gas");
        (Some (VInt 32), VStr "Routine shopping");
        (Some (VInt 33), VStr "Errands without appointment");
        (Some (VInt 34), VStr "Medical");
        (Some (VInt 36), VStr "Shopping for a major item");
        (Some (VInt 37), VStr "Errands with appointment");
        (Some (VInt 45), VStr "Pick someone up (rMove only)");
        (Some (VInt 46), VStr "Drop someone off (rMove only)");
        (Some (VInt 47), VStr "Accompany someone (rMove only)");
        (Some (VInt 48), VStr "Multiple: pickup, dropoff, accompany (rMove only)");
        (Some (VInt 50), VStr "Restaurant");
        (Some (VInt 51), VStr "Exercise");
        (Some (VInt 52), VStr "Social (rMove only)");
        (Some (VInt 53), VStr "Leisure/entertainment (rMove only)");
        (Some (VInt 54), VStr "Religious/civic (rMove only)");
        (Some (VInt 55), VStr "Vacation/travel (rMove only)");
        (Some (VInt 56), VStr "Family activity (rMove only)");
        (Some (VInt 60), VStr "Change travel mode");
        (Some (VInt 61), VStr "Other errand");
        (Some (VInt 62), VStr "Other leisure (rMove only)");
        (Some (VInt 97), VStr "Other purpose");
        (Some (VInt 99), VStr "Other");
        (Some (VInt (-9999)), VStr "Technical error");
        (Some (VInt (-9998)), VStr "Participant non-response");
        (None, VStr "Missing") ]);
    ("d_purpose",
      [ (Some (VInt 1), VStr "Home");
        (Some (VInt 3), VStr "School/Class");
        (Some (VInt 5), VStr "Drop off, pick up, accompany person (Online diary only)");
        (Some (VInt 7), VStr "Social/leisure/vacation activity (Online diary only)");
        (Some (VInt 10), VStr "Primary workplace");
        (Some (VInt 11), VStr "Work-related");
        (Some (VInt 12), VStr "Traveling for work (e.g., going to airport)");
        (Some (VInt 13), VStr "Volunteer work");
        (Some (VInt 14), VStr "Other work");
        (Some (VInt 21), VStr "K-12 School");
        (Some (VInt 22), VStr "College/University");
        (Some (VInt 24), VStr "Other education-related (e.g., field trip)");
        (Some (VInt 25), VStr "Vocational education");
        (Some (VInt 30), VStr "Grocery");
        (Some (VInt 31), VStr "Gas");
        (Some (VInt 32), VStr "Routine shopping");
        (Some (VInt 33), VStr "Errands without appointment");
        (Some (VInt 34), VStr "Medical");
        (Some (VInt 36), VStr "Shopping for a major item");
        (Some (VInt 37), VStr "Errands with appointment");
        (Some (VInt 45), VStr "Pick someone up (rMove only)");
        (Some (VInt 46), VStr "Drop someone off (rMove only)");
        (Some (VInt 47), VStr "Accompany someone (rMove only)");
        (Some (VInt 48), VStr "Multiple: pickup, dropoff, accompany (rMove only)");
        (Some (VInt 50), VStr "Restaurant");
        (Some (VInt 51), VStr "Exercise");
        (Some (VInt 52), VStr "Social (rMove only)");
        (Some (VInt 53), VStr "Leisure/entertainment (rMove only)");
        (Some (VInt 54), VStr "Religious/civic (rMove only)");
        (Some (VInt 55), VStr "Vacation/travel (rMove only)");
        (Some (VInt 56), VStr "Family activity (rMove only)");
        (Some (VInt 60), VStr "Change travel mode");
        (Some (VInt 61), VStr "Other errand");
        (Some (VInt 62), VStr "Other leisure (rMove only)");
        (Some (VInt 97), VStr "Other purpose");
        (Some (VInt 99), VStr "Other");
        (Some (VInt (-9999)), VStr "Technical error");
        (Some (VInt (-9998)), VStr "Participant non-response");
        (None, VStr "Missing") ]);
    ("d_purpose_inferred",
      [ (Some (VInt 1), VStr "Home");
        (Some (VInt 3), VStr "School/Class");
        (Some (VInt 5), VStr "Drop off, pick up, accompany person (Online diary only)");
        (Some (VInt 7), VStr "Social/leisure/vacation activity (Online diary only)");
        (Some (VInt 10), VStr "Primary workplace");
        (Some (VInt 11), VStr "Work-related");
        (Some (VInt 12), VStr "Traveling for work (e.g., going to airport)");
        (Some (VInt 13), VStr "Volunteer work");
        (Some (VInt 14), VStr "Other work");
        (Some (VInt 21), VStr "K-12 School");
        (Some (VInt 22), VStr "College/University");
        (Some (VInt 24), VStr "Other education-related (e.g., field trip)");
        (Some (VInt 25), VStr "Vocational education");
        (Some (VInt 30), VStr "Grocery");
        (Some (VInt 31), VStr "Gas");
        (Some (VInt 32), VStr "Routine shopping");
        (Some (VInt 33), VStr "Errands without appointment");
        (Some (VInt 34), VStr "Medical");
        (Some (VInt 36), VStr "Shopping for a major item");
        (Some (VInt 37), VStr "Errands with appointment");
        (Some (VInt 45), VStr "Pick someone up (rMove only)");
        (Some (VInt 46), VStr "Drop someone off (rMove only)");
        (Some (VInt 47), VStr "Accompany someone (rMove only)");
        (Some (VInt 48), VStr "Multiple: pickup, dropoff, accompany (rMove only)");
        (Some (VInt 50), VStr "Restaurant");
        (Some (VInt 51), VStr "Exercise");
        (Some (VInt 52), VStr "Social (rMove only)");
        (Some (VInt 53), VStr "Leisure/entertainment (rMove only)");
        (Some (VInt 54), VStr "Religious/civic (rMove only)");
        (Some (VInt 55), VStr "Vacation/travel (rMove only)");
        (Some (VInt 56), VStr "Family activity (rMove only)");
        (Some (VInt 60), VStr "Change travel mode");
        (Some (VInt 61), VStr "Other errand");
        (Some (VInt 62), VStr "Other leisure (rMove only)");
        (Some (VInt 97), VStr "Other purpose");
        (Some (VInt 99), VStr "Other");
        (Some (VInt (-9999)), VStr "Technical error");
        (Some (VInt (-9998)), VStr "Participant non-response");
        (None, VStr "Missing") ]);
    ("travelers_total",
      [ (Some (VInt 1), VInt 1);
        (Some (VInt 2), VInt 2);
        (Some (VInt 3), VInt 3);
        (Some (VInt 4), VInt 4);
        (Some (VInt 5), VInt 5);
        (Some (VInt 6), VInt 6);
        (Some (VInt 7), VInt 7);
        (Some (VInt 8), VInt 8);
        (Some (VInt 9), VInt 9);
        (Some (VInt 10), VInt 10);
        (Some (VInt (-9998)), VStr "Participant Non-response");
        (Some (VInt (-9999)), VStr "Technical error");
        (None, VStr "Missing") ]);
    ("travelers_hh",
      [ (Some (VInt 1), VInt 1);
        (Some (VInt 2), VInt 2);
        (Some (VInt 3), VInt 3);
        (Some (VInt 4), VInt 4);
        (Some (VInt 5), VInt 5);
        (Some (VInt 6), VInt 6);
        (Some (VInt 7), VInt 7);
        (Some (VInt 8), VInt 8);
        (Some (VInt 9), VInt 9);
        (Some (VInt 10), VInt 10);
        (Some (VInt (-9998)), VStr "Participant Non-response");
        (Some (VInt (-9999)), VStr "Technical error");
        (None, VStr "Missing") ]);
    ("travelers_nonhh",
      [ (Some (VInt 0), VInt 0);
        (Some (VInt 1), VInt 1);
        (Some (VInt 2), VInt 2);
        (Some (VInt 3), VInt 3);
        (Some (VInt 4), VInt 4);
        (Some (VInt 5), VStr "5+");
        (Some (VInt (-9998)), VStr "Participant Non-response");
        (Some (VInt (-9999)), VStr "Technical error");
        (None, VStr "Missing") ]);
    ("mode1",
      [ (Some (VInt 1), VStr "Walk/jog/wheelchair");
        (Some (VInt 2), VStr "Personal bicycle");
        (Some (VInt 3), VStr "Borrowed bicycle");
        (Some (VInt 4), VStr "Rental bicycle");
        (Some (VInt 6), VStr "Household vehicle 1");
        (Some (VInt 7), VStr "Household vehicle 2");
        (Some (VInt 8), VStr "Household vehicle 3");
        (Some (VInt 9), VStr "Household vehicle 4");
        (Some (VInt 10), VStr "Household vehicle 5");
        (Some (VInt 11), VStr "Household vehicle 6");
        (Some (VInt 12), VStr "Household vehicle 7");
        (Some (VInt 16), VStr "Other household vehicle");
        (Some (VInt 17), VStr "Rental car");
        (Some (VInt 18), VStr "Carshare");
        (Some (VInt 21), VStr "Vanpool");
        (Some (VInt 22), VStr "Other auto");
        (Some (VInt 23), VStr "Bus");
        (Some (VInt 24), VStr "School bus");
        (Some (VInt 25), VStr "Intercity bus");
        (Some (VInt 26), VStr "Shuttle bus");
        (Some (VInt 27), VStr "Paratransit");
        (Some (VInt 28), VStr "Other bus");
        (Some (VInt 30), VStr "Subway");
        (Some (VInt 31), VStr "Airplane");
        (Some (VInt 32), VStr "Ferry or water taxi");
        (Some (VInt 33), VStr "Work car");
        (Some (VInt 34), VStr "Friends car");
        (Some (VInt 36), VStr "Taxi - Regular");
        (Some (VInt 37), VStr "Taxi - Rideshare");
        (Some (VInt 38), VStr "University bus or shuttle");
        (Some (VInt 39), VStr "Rail - Light");
        (Some (VInt 41), VStr "Rail - Intercity");
        (Some (VInt 42), VStr "Rail - Other");
        (Some (VInt 43), VStr "Skateboard");
        (Some (VInt 44), VStr "Golf cart");
        (Some (VInt 45), VStr "ATV");
        (Some (VInt 47), VStr "Other household motorcycle");
        (Some (VInt 55), VStr "Express bus/Rapid");
        (Some (VInt 97), VStr "Other mode");
        (Some (VInt 150), VStr "San Diego Coaster Line");
        (Some (VInt (-9999)), VStr "Technical error");
        (Some (VInt (-9998)), VStr "Participant non-response");
        (None, VStr "Not Applicable") ]);
    ("mode2",
      [ (Some (VInt 1), VStr "Walk/jog/wheelchair");
        (Some (VInt 2), VStr "Personal bicycle");
        (Some (VInt 3), VStr "Borrowed bicycle");
        (Some (VInt 4), VStr "Rental bicycle");
        (Some (VInt 6), VStr "Household vehicle 1");
        (Some (VInt 7), VStr "Household vehicle 2");
        (Some (VInt 8), VStr "Household vehicle 3");
        (Some (VInt 9), VStr "Household vehicle 4");
        (Some (VInt 10), VStr "Household vehicle 5");
        (Some (VInt 11), VStr "Household vehicle 6");
        (Some (VInt 12), VStr "Household vehicle 7");
        (Some (VInt 16), VStr "Other household vehicle");
        (Some (VInt 17), VStr "Rental car");
        (Some (VInt 18), VStr "Carshare");
        (Some (VInt 21), VStr "Vanpool");
        (Some (VInt 22), VStr "Other auto");
        (Some (VInt 23), VStr "Bus");
        (Some (VInt 24), VStr "School bus");
        (Some (VInt 25), VStr "Intercity bus");
        (Some (VInt 26), VStr "Shuttle bus");
        (Some (VInt 27), VStr "Paratransit");
        (Some (VInt 28), VStr "Other bus");
        (Some (VInt 30), VStr "Subway");
        (Some (VInt 31), VStr "Airplane");
        (Some (VInt 32), VStr "Ferry or water taxi");
        (Some (VInt 33), VStr "Work car");
        (Some (VInt 34), VStr "Friends car");
        (Some (VInt 36), VStr "Taxi - Regular");
        (Some (VInt 37), VStr "Taxi - Rideshare");
        (Some (VInt 38), VStr "University bus or shuttle");
        (Some (VInt 39), VStr "Rail - Light");
        (Some (VInt 41), VStr "Rail - Intercity");
        (Some (VInt 42), VStr "Rail - Other");
        (Some (VInt 43), VStr "Skateboard");
        (Some (VInt 44), VStr "Golf cart");
        (Some (VInt 45), VStr "ATV");
        (Some (VInt 47), VStr "Other household motorcycle");
        (Some (VInt 55), VStr "Express bus/Rapid");
        (Some (VInt 97), VStr "Other mode");
        (Some (VInt 150), VStr "San Diego Coaster Line");
        (Some (VInt (-9999)), VStr "Technical error");
        (Some (VInt (-9998)), VStr "Participant non-response");
        (None, VStr "Not Applicable") ]);
    ("mode3",
      [ (Some (VInt 1), VStr "Walk/jog/wheelchair");
        (Some (VInt 2), VStr "Personal bicycle");
        (Some (VInt 3), VStr "Borrowed bicycle");
        (Some (VInt 4), VStr "Rental bicycle");
        (Some (VInt 6), VStr "Household vehicle 1");
        (Some (VInt 7), VStr "Household vehicle 2");
        (Some (VInt 8), VStr "Household vehicle 3");
        (Some (VInt 9), VStr "Household vehicle 4");
        (Some (VInt 10), VStr "Household vehicle 5");
        (Some (VInt 11), VStr "Household vehicle 6");
        (Some (VInt 12), VStr "Household vehicle 7");
        (Some (VInt 16), VStr "Other household vehicle");
        (Some (VInt 17), VStr "Rental car");
        (Some (VInt 18), VStr "Carshare");
        (Some (VInt 21), VStr "Vanpool");
        (Some (VInt 22), VStr "Other auto");
        (Some (VInt 23), VStr "Bus");
        (Some (VInt 24), VStr "School bus");
        (Some (VInt 25), VStr "Intercity bus");
        (Some (VInt 26), VStr "Shuttle bus");
        (Some (VInt 27), VStr "Paratransit");
        (Some (VInt 28), VStr "Other bus");
        (Some (VInt 30), VStr "Subway");
        (Some (VInt 31), VStr "Airplane");
        (Some (VInt 32), VStr "Ferry or water taxi");
        (Some (VInt 33), VStr "Work car");
        (Some (VInt 34), VStr "Friends car");
        (Some (VInt 36), VStr "Taxi - Regular");
        (Some (VInt 37), VStr "Taxi - Rideshare");
        (Some (VInt 38), VStr "University bus or shuttle");
        (Some (VInt 39), VStr "Rail - Light");
        (Some (VInt 41), VStr "Rail - Intercity");
        (Some (VInt 42), VStr "Rail - Other");
        (Some (VInt 43), VStr "Skateboard");
        (Some (VInt 44), VStr "Golf cart");
        (Some (VInt 45), VStr "ATV");
        (Some (VInt 47), VStr "Other household motorcycle");
        (Some (VInt 55), VStr "Express bus/Rapid");
        (Some (VInt 97), VStr "Other mode");
        (Some (VInt 150), VStr "San Diego Coaster Line");
        (Some (VInt (-9999)), VStr "Technical error");
        (Some (VInt (-9998)), VStr "Participant non-response");
        (None, VStr "Not Applicable") ]);
    ("mode4",
      [ (Some (VInt 1), VStr "Walk/jog/wheelchair");
        (Some (VInt 2), VStr "Personal bicycle");
        (Some (VInt 3), VStr "Borrowed bicycle");
        (Some (VInt 4), VStr "Rental bicycle");
        (Some (VInt 6), VStr "Household vehicle 1");
        (Some (VInt 7), VStr "Household vehicle 2");
        (Some (VInt 8), VStr "Household vehicle 3");
        (Some (VInt 9), VStr "Household vehicle 4");
        (Some (VInt 10), VStr "Household vehicle 5");
        (Some (VInt 11), VStr "Household vehicle 6");
        (Some (VInt 12), VStr "Household vehicle 7");
        (Some (VInt 16), VStr "Other household vehicle");
        (Some (VInt 17), VStr "Rental car");
        (Some (VInt 18), VStr "Carshare");
        (Some (VInt 21), VStr "Vanpool");
        (Some (VInt 22), VStr "Other auto");
        (Some (VInt 23), VStr "Bus");
        (Some (VInt 24), VStr "School bus");
        (Some (VInt 25), VStr "Intercity bus");
        (Some (VInt 26), VStr "Shuttle bus");
        (Some (VInt 27), VStr "Paratransit");
        (Some (VInt 28), VStr "Other bus");
        (Some (VInt 30), VStr "Subway");
        (Some (VInt 31), VStr "Airplane");
        (Some (VInt 32), VStr "Ferry or water taxi");
        (Some (VInt 33), VStr "Work car");
        (Some (VInt 34), VStr "Friends car");
        (Some (VInt 36), VStr "Taxi - Regular");
        (Some (VInt 37), VStr "Taxi - Rideshare");
        (Some (VInt 38), VStr "University bus or shuttle");
        (Some (VInt 39), VStr "Rail - Light");
        (Some (VInt 41), VStr "Rail - Intercity");
        (Some (VInt 42), VStr "Rail - Other");
        (Some (VInt 43), VStr "Skateboard");
        (Some (VInt 44), VStr "Golf cart");
        (Some (VInt 45), VStr "ATV");
        (Some (VInt 47), VStr "Other household motorcycle");
        (Some (VInt 55), VStr "Express bus/Rapid");
        (Some (VInt 97), VStr "Other mode");
        (Some (VInt 150), VStr "San Diego Coaster Line");
        (Some (VInt (-9999)), VStr "Technical error");
        (Some (VInt (-9998)), VStr "Participant non-response");
        (None, VStr "Not Applicable") ]);
    ("transit_access",
      [ (Some (VInt 1), VStr "Walked or jogged");
        (Some (VInt 2), VStr "Rode a bike");
        (Some (VInt 3), VStr "Drove and parked a car");
        (Some (VInt 4), VStr "Got dropped off");
        (Some (VInt 5), VStr "Took a taxi");
        (Some (VInt 6), VStr "Transferred from other transit");
        (Some (VInt 7), VStr "Was already at the stop");
        (Some (VInt 97), VStr "Other");
        (Some (VInt 99), VStr "Not Applicable");
        (None, VStr "Missing") ]);
    ("transit_egress",
      [ (Some (VInt 1), VStr "Walked or jogged");
        (Some (VInt 2), VStr "Rode a bike");
        (Some (VInt 3), VStr "Drove and parked a car");
        (Some (VInt 4), VStr "Got dropped off");
        (Some (VInt 5), VStr "Took a taxi");
        (Some (VInt 6), VStr "Transferred from other transit");
        (Some (VInt 7), VStr "Was already at the stop");
        (Some (VInt 97), VStr "Other");
        (Some (VInt 99), VStr "Not Applicable");
        (None, VStr "Missing") ]);
    ("google_mode",
      [ (Some (VStr "DRIVE"), VStr "DRIVE");
        (Some (VStr "TRANSIT"), VStr "TRANSIT");
        (Some (VStr "WALK/BIKE"), VStr "WALK/BIKE");
        (None, VStr "Not Applicable") ]);
    ("driver",
      [ (Some (VInt 1), VStr "Driver");
        (Some (VInt 2), VStr "Passenger");
        (Some (VInt 3), VStr "Both (switched drivers during trip)");
        (None, VStr "Missing") ]);
    ("toll_no",
      [ (Some (VInt 1), VStr "No");
        (Some (VInt 0), VStr "Yes");
        (Some (VInt 99), VStr "Not Applicable");
        (None, VStr "Missing") ]);
    ("toll_express",
      [ (Some (VInt 0), VStr "No");
        (Some (VInt 1), VStr "Yes");
        (Some (VInt 99), VStr "Not Applicable");
        (None, VStr "Missing") ]);
    ("parklocation",
      [ (Some (VInt 1), VStr "My own driveway/garage");
        (Some (VInt 2), VStr "Someone elses driveway");
        (Some (VInt 3), VStr "Parking lot/garage");
        (Some (VInt 4), VStr "On street parking");
        (Some (VInt 5), VStr "Park & Ride lot");
        (Some (VInt 6), VStr "Did not park (e.g., waited, drop-off, drive-thru)");
        (Some (VInt 97), VStr "Other");
        (Some (VInt (-9999)), VStr "Technical error");
        (Some (VInt (-9998)), VStr "Participant non-response");
        (None, VStr "Missing") ]);
    ("parktype",
      [ (Some (VInt 1), VStr "Free parking (no cost)");
        (Some (VInt 2), VStr "Used a parking pass (any type)");
        (Some (VInt 3), VStr "Paid via cash, credit card, or ticket(s)");
        (Some (VInt 4), VStr "Reserved parking service (e.g., ParkingPanda)");
        (Some (VInt 5), VStr "Another person paid");
        (Some (VInt 97), VStr "Other");
        (Some (VInt (-9999)), VStr "Technical error");
        (Some (VInt (-9998)), VStr "Participant non-response");
        (None, VStr "Missing") ]);
    ("park_cost_dk",
      [ (Some (VInt 0), VStr "No");
        (Some (VInt 1), VStr "Yes");
        (None, VStr "Missing") ]);
    ("taxitype",
      [ (Some (VInt 1), VStr "I paid the fare myself (no reimbursement)");
        (Some (VInt 2), VStr "Employer paid (I am reimbursed)");
        (Some (VInt 3), VStr "Split/shared fare with other(s)");
        (Some (VInt 4), VStr "Someone else paid 100% (all of taxi fare)");
        (Some (VInt 97), VStr "Other");
        (Some (VInt (-9999)), VStr "Technical error");
        (Some (VInt (-9998)), VStr "Participant non-response");
        (None, VStr "Missing") ]);
    ("taxi_cost_dk",
      [ (Some (VInt 0), VStr "No");
        (Some (VInt 1), VStr "Yes");
        (None, VStr "Missing") ]);
    ("airtype",
      [ (Some (VInt 1), VStr "Personally paid the airfare cost");
        (Some (VInt 2), VStr "Employer paid 100%");
        (Some (VInt 3), VStr "Used miles/points to purchase flight");
        (Some (VInt 4), VStr "Someone else paid 100% (all of airfare cost)");
        (Some (VInt 97), VStr "Other");
        (Some (VInt (-9999)), VStr "Technical error");
        (Some (VInt (-9998)), VStr "Participant non-response");
        (None, VStr "Missing") ]);
    ("airfare_cost_dk",
      [ (Some (VInt 0), VStr "No");
        (Some (VInt 1), VStr "Yes");
        (None, VStr "Missing") ]);
    ("bustype",
      [ (Some (VInt (-9999)), VStr "Technical error");
        (Some (VInt (-9998)), VStr "Participant non-response");
        (Some (VInt 1), VStr "Free (no cost)");
        (Some (VInt 2), VStr "Used pass (any type)");
        (Some (VInt 3), VStr "Cash, credit card, or ticket(s)");
        (Some (VInt 97), VStr "Other");
        (Some (VInt 98), VStr "Do not know");
        (None, VStr "Missing") ]);
    ("bus_cost_dk",
      [ (Some (VInt 0), VStr "No");
        (Some (VInt 1), VStr "Yes");
        (None, VStr "Missing") ]);
    ("railtype",
      [ (Some (VInt 1), VStr "Free (no cost)");
        (Some (VInt 2), VStr "Used pass (any type)");
        (Some (VInt 3), VStr "Cash, credit card, or ticket(s)");
        (Some (VInt 97), VStr "Other");
        (Some (VInt 98), VStr "Do not know");
        (Some (VInt (-9999)), VStr "Technical error");
        (Some (VInt (-9998)), VStr "Participant non-response");
        (None, VStr "Missing") ]);
    ("rail_cost_dk",
      [ (Some (VInt 0), VStr "No");
        (Some (VInt 1), VStr "Yes");
        (None, VStr "Missing") ]);
    ("ferrytype",
      [ (Some (VInt 1), VStr "Free (no cost)");
        (Some (VInt 2), VStr "Used pass (any type)");
        (Some (VInt 3), VStr "Cash, credit card, or ticket(s)");
        (Some (VInt 97), VStr "Other");
        (Some (VInt 98), VStr "Do not know");
        (None, VStr "Missing") ]);
    ("ferry_cost_dk",
      [ (Some (VInt 0), VStr "No");
        (Some (VInt 1), VStr "Yes");
        (None, VStr "Missing") ]);
    ("parkride_lot",
      [ (Some (VInt 1), VStr "Lot #16 Poway Rd at Sabre Springs Pkwy");
        (Some (VInt 2), VStr "Lot #17 I-8 at Taylor St");
        (Some (VInt 3), VStr "Lot #20 I-805 at Governor Dr");
        (Some (VInt 4), VStr "Lot #24 I-805 at Mira Mesa Blvd & Vista Sorrento Pkwy");
        (Some (VInt 5), VStr "Lot #26 Carmel Mountain Rd at Rancho Carmel Dr");
        (Some (VInt 6), VStr "Lot #31 SR 56 at Rancho Carmel Dr");
        (Some (VInt 7), VStr "Lot #4 Carmel Mountain Rd at Freeport Rd");
        (Some (VInt 8), VStr "Lot #43 I-5 at Gilman Dr");
        (Some (VInt 9), VStr "Lot #51 I-15 at Rancho Penasquitos Blvd");
        (Some (VInt 10), VStr "Lot #53 Carmel Mountain Rd at Paseo Cardiel");
        (Some (VInt 11), VStr "Lot #57 Carmel Mountain Rd at Stoney Creek Rd");
        (Some (VInt 12), VStr "Lot #6 I-15 at Mira Mesa Blvd");
        (Some (VInt 13), VStr "Lot #65 I-15 at Rancho Bernardo Rd");
        (Some (VInt 14), VStr "Lot #7 I-5 at Carmel Valley Rd & Sorrento Valley Rd");
        (Some (VInt 15), VStr "Lot #76 I-15 at Scripps Poway Pkwy");
        (Some (VInt 16), VStr "Lot #78 I-805 at Childrens Way");
        (Some (VInt 17), VStr "Lot #80 Caliente Ave");
        (Some (VInt 18), VStr "Lot #1 SR 94 at Sweetwater Springs Blvd");
        (Some (VInt 19), VStr "Lot #28 SR 94 at Potrero Post Office");
        (Some (VInt 20), VStr "Lot #33 I-15 at Deer Springs Rd");
        (Some (VInt 21), VStr "Lot #34 I-15 at Mountain Meadow Rd");
        (Some (VInt 22), VStr "Lot #35 I-15 at Gopher Canyon Rd");
        (Some (VInt 23), VStr "Lot #37 SR 94 at Avocado Blvd");
        (Some (VInt 24), VStr "Lot #40 SR 54 at Jamacha Blvd");
        (Some (VInt 25), VStr "Lot #71 Sweetwater Springs Blvd at Austin Dr");
        (Some (VInt 26), VStr "Lot #11 SR 78 at Broadway");
        (Some (VInt 27), VStr "Lot #3 Felicita Ave at Escondido Blvd");
        (Some (VInt 28), VStr "Lot #30 I-15 at El Norte Pkwy");
        (Some (VInt 29), VStr "Lot #38 7 Oakes Rd at El Norte Pkwy");
        (Some (VInt 30), VStr "Lot #81 Westfield North County");
        (Some (VInt 31), VStr "Lot #22 I-8 at Murray Dr");
        (Some (VInt 32), VStr "Lot #59 Bancroft Dr at Grossmont Blvd");
        (Some (VInt 33), VStr "Lot #60 Severin Dr at Bancroft Dr");
        (Some (VInt 34), VStr "Lot #61 Severin Dr at Murray Dr");
        (Some (VInt 35), VStr "Lot #8 Lemon Grove Ave at High St");
        (Some (VInt 36), VStr "Lot #39 SR 78 at College Blvd (South)");
        (Some (VInt 37), VStr "Lot #44 I-5 at SR 78 & Moreno St");
        (Some (VInt 38), VStr "Lot #45 SR 78 at College Blvd (North)");
        (Some (VInt 39), VStr "Lot #5 Maxson St at Barnes St");
        (Some (VInt 40), VStr "Lot #73 Mission Ave at Frontier Dr");
        (Some (VInt 41), VStr "Lot #32 I-5 at La Costa Ave");
        (Some (VInt 42), VStr "Lot #47 I-5 at Birmingham Dr");
        (Some (VInt 43), VStr "Lot #62 Encinitas Blvd at Calle Magdelena");
        (Some (VInt 44), VStr "Lot #10 SR 67 at Mapleview St");
        (Some (VInt 45), VStr "Lot #2 SR 67 at Riverford Rd & Woodside Ave");
        (Some (VInt 46), VStr "Lot #42 I-8 at Lake Jennings Park Rd");
        (Some (VInt 47), VStr "Lot #48 Twin Peaks Rd at Budwin Ln");
        (Some (VInt 48), VStr "Lot #77 SR 67 at Poway Rd");
        (Some (VInt 49), VStr "Lot #25 SR 54 at Washington Ave");
        (Some (VInt 50), VStr "Lot #41 I-8 at Los Coches Rd");
        (Some (VInt 51), VStr "Lot #63 SR 67 at Day St");
        (Some (VInt 52), VStr "Lot #75 SR 67 at Dye Rd");
        (Some (VInt 53), VStr "Lot #70 Mission Gorge Rd at Big Rock Dr");
        (Some (VInt 54), VStr "Lot #72 North Magnolia Ave at Alexander Way");
        (Some (VInt 55), VStr "Lot #50 Telegraph Canyon Rd at Paseo Del Ray");
        (Some (VInt 56), VStr "Lot #56 East H St at Buena Vista Way");
        (Some (VInt 57), VStr "Lot #46 SR 76 at Sweetgrass Ln");
        (Some (VInt 58), VStr "Lot #29 I-8 at Japatul Valley Rd");
        (Some (VInt 59), VStr "Lot #69 SR 78 at Barham Dr");
        (Some (VInt 60), VStr "Lot #19 I-15 at SR 76");
        (Some (VInt 61), VStr "Lot #21 SR 78 at Sunset Dr & Seaview Pl");
        (Some (VInt 62), VStr "Lot #12 Lemon Grove Ave at Lincoln St");
        (Some (VInt 63), VStr "Lot #9 I-805 at Sweetwater Rd");
        (None, VStr "Not Applicable") ]);
    ("parkride_city",
      [ (Some (VInt 1), VStr "Bonsall");
        (Some (VInt 2), VStr "Chula Vista");
        (Some (VInt 3), VStr "Descanso");
        (Some (VInt 4), VStr "El Cajon");
        (Some (VInt 5), VStr "Encinitas");
        (Some (VInt 6), VStr "Escondido");
        (Some (VInt 7), VStr "La Mesa");
        (Some (VInt 8), VStr "Lakeside");
        (Some (VInt 9), VStr "Lemon Grove");
        (Some (VInt 10), VStr "National City");
        (Some (VInt 11), VStr "Oceanside");
        (Some (VInt 12), VStr "Pala");
        (Some (VInt 13), VStr "Poway");
        (Some (VInt 14), VStr "Ramona");
        (Some (VInt 15), VStr "San Diego");
        (Some (VInt 16), VStr "San Diego County");
        (Some (VInt 17), VStr "San Marcos");
        (Some (VInt 18), VStr "Santee");
        (Some (VInt 19), VStr "Vista");
        (None, VStr "Not Applicable") ]) ].

(** The [columns] dictionary of [df.rename] (line 4439): old name, new name. *)
Definition renames : list (string * string) :=
  [ ("tripid", "trip_id");
    ("tripid_linked", "trip_id_linked");
    ("location_tripid", "trip_id_location");
    ("personid", "person_id");
    ("hhid", "household_id");
    ("traveldate", "travel_date");
    ("daynum", "travel_day_number");
    ("travel_dow", "travel_day_of_week");
    ("svy_complete", "completed_trip_survey");
    ("completed_at", "completed_date");
    ("day_hhcomplete", "completed_household_survey");
    ("pday_complete", "completed_person_survey");
    ("h_complete_weekdays", "number_household_survey_weekdays");
    ("analyst_merged", "analyst_merged_trip");
    ("analyst_split", "analyst_split_trip");
    ("user_merged", "user_merged_trip");
    ("user_split", "user_split_trip");
    ("origin_lat", "origin_latitude");
    ("origin_lng", "origin_longitude");
    ("destination_lat", "destination_latitude");
    ("destination_lng", "destination_longitude");
    ("o_purpose", "origin_purpose");
    ("o_purpose_other", "origin_purpose_other_specify");
    ("o_purpose_inferred", "origin_purpose_inferred");
    ("d_purpose", "destination_purpose");
    ("d_purpose_other", "destination_purpose_other_specify");
    ("d_purpose_inferred", "destination_purpose_inferred");
    ("travelers_total", "travelers");
    ("travelers_hh", "travelers_household");
    ("travelers_nonhh", "travelers_non_household");
    ("mode1", "mode_1");
    ("mode2", "mode_2");
    ("mode3", "mode_3");
    ("mode4", "mode_4");
    ("transit_access", "mode_transit_access");
    ("transit_egress", "mode_transit_egress");
    ("toll_no", "toll_road");
    ("toll_express", "toll_road_express");
    ("parklocation", "parking_location");
    ("parktype", "parking_pay_type");
    ("parkcost", "parking_cost");
    ("park_cost_dk", "parking_cost_dk");
    ("parkegress_time", "parking_egress_duration");
    ("taxitype", "taxi_pay_type");
    ("taxicost", "taxi_cost");
    ("airtype", "airplane_pay_type");
    ("airfarecost", "airplane_cost");
    ("airfare_cost_dk", "airplane_cost_dk");
    ("bustype", "bus_pay_type");
    ("buscost", "bus_cost");
    ("railtype", "rail_pay_type");
    ("railcost", "rail_cost");
    ("ferrytype", "ferry_pay_type");
    ("ferrycost", "ferry_cost");
    ("trip_path_distance", "distance");
    ("trip_duration", "duration");
    ("trip_duration_reported", "duration_reported");
    ("speed_mph", "speed");
    ("h_multiday_factor", "weight_household_multiday_factor");
    ("multiday_weight_456x", "weight_person_multiday_456x") ].

(** The columns of the returned table, in order (line 4503). *)
Definition output_columns : list string :=
  [ "trip_id"; "trip_id_linked"; "trip_id_location"; "person_id"; "household_id";
    "travel_date"; "travel_day_number"; "travel_day_of_week"; "data_source";
    "completed_trip_survey"; "completed_date"; "completed_household_survey";
    "completed_person_survey"; "number_household_survey_weekdays"; "revised_at";
    "revised_count"; "error"; "flag_teleport"; "copied_trip"; "analyst_merged_trip";
    "analyst_split_trip"; "user_merged_trip"; "user_split_trip"; "added_trip";
    "nonproxy_derived_trip"; "proxy_added_trip"; "unlinked_transit_trip"; "origin_name";
    "origin_address"; "origin_latitude"; "origin_longitude"; "origin_shape";
    "destination_name"; "destination_address"; "destination_latitude";
    "destination_longitude"; "destination_shape"; "origin_purpose";
    "origin_purpose_other_specify"; "origin_purpose_inferred"; "destination_purpose";
    "destination_purpose_other_specify"; "destination_purpose_inferred"; "departure_time";
    "arrival_time"; "travelers"; "travelers_household"; "travelers_non_household";
    "mode_1"; "mode_2"; "mode_3"; "mode_4"; "mode_transit_access"; "mode_transit_egress";
    "google_mode"; "driver"; "toll_road"; "toll_road_express"; "parking_location";
    "parking_pay_type"; "parking_cost"; "parking_cost_dk"; "parking_egress_duration";
    "taxi_pay_type"; "taxi_cost"; "taxi_cost_dk"; "airplane_pay_type"; "airplane_cost";
    "airplane_cost_dk"; "bus_pay_type"; "bus_cost"; "bus_cost_dk"; "rail_pay_type";
    "rail_cost"; "rail_cost_dk"; "ferry_pay_type"; "ferry_cost"; "ferry_cost_dk";
    "parkride_lot"; "parkride_city"; "distance"; "duration"; "duration_reported"; "speed";
    "weight_trip"; "weight_person_trip"; "weight_household_multiday_factor";
    "weight_person_multiday_456x" ].

(** The columns set for the AT extract, which does not have them
    (lines 3420-3433): [location_tripid] is a copy of [tripid_linked], the
    others are constants. *)
Definition at_constants : list (string * value) :=
  [ ("data_source", VInt 1);
    ("day_hhcomplete", VInt 99);
    ("pday_complete", VInt 99);
    ("nonproxy_derived_trip", VInt 99);
    ("proxy_added_trip", VInt 99);
    ("origin_name", VStr "Not Applicable");
    ("origin_address", VStr "Not Applicable");
    ("destination_name", VStr "Not Applicable");
    ("destination_address", VStr "Not Applicable");
    ("transit_access", VInt 99);
    ("transit_egress", VInt 99);
    ("toll_no", VInt 99);
    ("toll_express", VInt 99) ].

Definition at_fill (df : row) : row :=
  assign_constants at_constants
    (set_cell "location_tripid" (df !! "tripid_linked") df).

(** [s.str.replace("\|", "", regex=True)] at one row: every bar is removed
    from a string; a cell that holds no string becomes [NaN]. *)
Fixpoint remove_bars (s : string) : string :=
  match s with
  | EmptyString => EmptyString
  | String a s => if Ascii.eqb a "|"%char then remove_bars s else String a (remove_bars s)
  end.

Definition str_replace_bar (x : cell) : cell :=
  match x with
  | Some (VStr s) => Some (VStr (remove_bars s))
  | _ => None
  end.

(** [condition] of line 4429; [range(1, 11)] is 1, ..., 10. *)
Definition condition (df : row) : bool :=
  num_ge (df !! "h_complete_weekdays") 1 &&
  isin (df !! "travelers_hh") (VInt <$> seqZ 1 10).

(** [1 / n] for the integer count [n] of a cell; where [condition] holds the
    cell is such a count, from 1 to 10. *)
Definition one_over (x : cell) : cell :=
  match x with
  | Some (VInt n) => Some (VNum (1 / inject_Z n))
  | _ => None
  end.

(** [missing_cols] (line 4214). *)
Definition missing_cols : list string :=
  [ "revised_count";
    "origin_name";
    "destination_name";
    "origin_address";
    "destination_address";
    "o_purpose_other";
    "d_purpose_other" ].

(** [transit_modes] (line 4268). *)
Definition transit_modes : list value :=
  [ VStr "VanpoolBus";
    VStr "School bus";
    VStr "Intercity bus";
    VStr "Shuttle bus";
    VStr "Paratransit";
    VStr "Other bus";
    VStr "Subway";
    VStr "Ferry or water taxi";
    VStr "University bus or shuttle";
    VStr "Rail - Light";
    VStr "Rail - Intercity";
    VStr "Rail - Other";
    VStr "Express bus/Rapid";
    VStr "San Diego Coaster Line" ].

(** [auto_modes] (line 4292). *)
Definition auto_modes : list value :=
  [ VStr "Household vehicle 1";
    VStr "Household vehicle 2";
    VStr "Household vehicle 3";
    VStr "Household vehicle 4";
    VStr "Household vehicle 5";
    VStr "Household vehicle 6";
    VStr "Household vehicle 7";
    VStr "Other household vehicle";
    VStr "Rental car";
    VStr "Carshare";
    VStr "Other auto";
    VStr "Work car";
    VStr "Friends car";
    VStr "Taxi - Regular";
    VStr "Taxi - Rideshare" ].

(** [auto_nontaxi_modes] (line 4316). *)
Definition auto_nontaxi_modes : list value :=
  [ VStr "Household vehicle 1";
    VStr "Household vehicle 2";
    VStr "Household vehicle 3";
    VStr "Household vehicle 4";
    VStr "Household vehicle 5";
    VStr "Household vehicle 6";
    VStr "Household vehicle 7";
    VStr "Other household vehicle";
    VStr "Rental car";
    VStr "Carshare";
    VStr "Other auto";
    VStr "Work car";
    VStr "Friends car" ].

(** [taxi_modes] (line 4353). *)
Definition taxi_modes : list value :=
  [ VStr "Taxi - Regular";
    VStr "Taxi - Rideshare" ].

(** [bus_modes] (line 4378). *)
Definition bus_modes : list value :=
  [ VStr "Bus";
    VStr "Intercity bus";
    VStr "Express bus/Rapid" ].

(** [rail_modes] (line 4392). *)
Definition rail_modes : list value :=
  [ VStr "Bus";
    VStr "Intercity bus";
    VStr "Express bus/Rapid" ].

(** The statements after the recode, in source order (lines 4224-4430).
    [toll_noexpress] is not a column of the extracts: the assignments of lines
    4227 and 4308 create it, and it is not among the returned columns. *)
Definition rules : list step :=
  (* line 4224 *) fillna missing_cols (VStr "Missing") ++
  [ (* line 4227 *)
    Loc (λ df, eq_lit (df !! "data_source") (VStr "rMove"))
        ["origin_name"; "origin_address"; "destination_name"; "destination_address";
         "toll_no"; "toll_noexpress"; "toll_express"; "transit_access";
         "transit_egress"; "parkride_lot"; "parkride_city"]
        (VStr "Not Applicable");
    (* line 4242 *)
    Loc (λ df, eq_lit (df !! "data_source") (VStr "Online"))
        ["revised_count"; "error"; "flag_teleport"; "copied_trip"; "analyst_merged";
         "analyst_split"; "user_merged"; "user_split"; "added_trip";
         "nonproxy_derived_trip"; "proxy_added_trip"; "o_purpose_inferred";
         "d_purpose_inferred"]
        (VStr "Not Applicable");
    (* line 4258 *)
    Loc (λ df, eq_lit (df !! "data_source") (VStr "Online"))
        ["location_tripid"]
        (VInt 0);
    (* line 4262 *)
    Loc (λ df, negb (isin (df !! "o_purpose") [VStr "Other"; VStr "Other purpose"]))
        ["o_purpose_other"]
        (VStr "Not Applicable");
    (* line 4264 *)
    Loc (λ df, negb (isin (df !! "d_purpose") [VStr "Other"; VStr "Other purpose"]))
        ["d_purpose_other"]
        (VStr "Not Applicable");
    (* line 4284 *)
    Loc (λ df, negb (isin (df !! "mode1") transit_modes) &&
               negb (isin (df !! "mode2") transit_modes) &&
               negb (isin (df !! "mode3") transit_modes) &&
               negb (isin (df !! "mode4") transit_modes))
        ["transit_access"; "transit_egress"]
        (VStr "Not Applicable");
    (* line 4308 *)
    Loc (λ df, negb (isin (df !! "mode1") auto_modes) &&
               negb (isin (df !! "mode2") auto_modes) &&
               negb (isin (df !! "mode3") auto_modes) &&
               negb (isin (df !! "mode4") auto_modes))
        ["toll_no"; "toll_noexpress"; "toll_express"]
        (VStr "Not Applicable");
    (* line 4330 *)
    Loc (λ df, negb (isin (df !! "mode1") auto_nontaxi_modes) &&
               negb (isin (df !! "mode2") auto_nontaxi_modes) &&
               negb (isin (df !! "mode3") auto_nontaxi_modes) &&
               negb (isin (df !! "mode4") auto_nontaxi_modes))
        ["driver"; "parklocation"]
        (VStr "Not Applicable");
    (* line 4338 *)
    Loc (λ df, negb (isin (df !! "parklocation") 
                 [ VStr "Someone elses driveway";
                   VStr "Parking lot/garage";
                   VStr "On street parking";
                   VStr "Park & Ride lot" ]))
        ["parktype"]
        (VStr "Not Applicable");
    (* line 4344 *)
    Loc (λ df, negb (isin (df !! "parktype") 
                 [ VStr "Paid via cash, credit card, or ticket(s)";
                   VStr "Reserved parking service (e.g., ParkingPanda)";
                   VStr "Another person paid" ]))
        ["park_cost_dk"]
        (VStr "Not Applicable");
    (* line 4349 *)
    Loc (λ df, ne_lit (df !! "parklocation") (VStr "Park & Ride lot"))
        ["parkride_lot"; "parkride_city"]
        (VStr "Not Applicable");
    (* line 4355 *)
    Loc (λ df, negb (isin (df !! "mode1") taxi_modes) &&
               negb (isin (df !! "mode2") taxi_modes) &&
               negb (isin (df !! "mode3") taxi_modes) &&
               negb (isin (df !! "mode4") taxi_modes))
        ["taxitype"]
        (VStr "Not Applicable");
    (* line 4361 *)
    Loc (λ df, negb (isin (df !! "taxitype") 
                 [ VStr "I paid the fare myself (no reimbursement)";
                   VStr "Employer paid (I am reimbursed)";
                   VStr "Split/shared fare with other(s)" ]))
        ["taxi_cost_dk"]
        (VStr "Not Applicable");
    (* line 4367 *)
    Loc (λ df, ne_lit (df !! "mode1") (VStr "Airplane") &&
               ne_lit (df !! "mode2") (VStr "Airplane") &&
               ne_lit (df !! "mode3") (VStr "Airplane") &&
               ne_lit (df !! "mode4") (VStr "Airplane"))
        ["airtype"]
        (VStr "Not Applicable");
    (* line 4373 *)
    Loc (λ df, negb (isin (df !! "taxitype") 
                 [ VStr "Personally paid the airfare cost";
                   VStr "Employer paid 100%" ]))
        ["airfare_cost_dk"]
        (VStr "Not Applicable");
    (* line 4382 *)
    Loc (λ df, negb (isin (df !! "mode1") bus_modes) &&
               negb (isin (df !! "mode2") bus_modes) &&
               negb (isin (df !! "mode3") bus_modes) &&
               negb (isin (df !! "mode4") bus_modes))
        ["bustype"]
        (VStr "Not Applicable");
    (* line 4388 *)
    Loc (λ df, ne_lit (df !! "bustype") (VStr "Cash, credit card, or ticket(s)"))
        ["bus_cost_dk"]
        (VStr "Not Applicable");
    (* line 4396 *)
    Loc (λ df, negb (isin (df !! "mode1") rail_modes) &&
               negb (isin (df !! "mode2") rail_modes) &&
               negb (isin (df !! "mode3") rail_modes) &&
               negb (isin (df !! "mode4") rail_modes))
        ["railtype"]
        (VStr "Not Applicable");
    (* line 4402 *)
    Loc (λ df, ne_lit (df !! "railtype") (VStr "Cash, credit card, or ticket(s)"))
        ["rail_cost_dk"]
        (VStr "Not Applicable");
    (* line 4406 *)
    Loc (λ df, ne_lit (df !! "mode1") (VStr "Ferry or water taxi") &&
               ne_lit (df !! "mode2") (VStr "Ferry or water taxi") &&
               ne_lit (df !! "mode3") (VStr "Ferry or water taxi") &&
               ne_lit (df !! "mode4") (VStr "Ferry or water taxi"))
        ["ferrytype"]
        (VStr "Not Applicable");
    (* line 4412 *)
    Loc (λ df, ne_lit (df !! "ferrytype") (VStr "Cash, credit card, or ticket(s)"))
        ["ferry_cost_dk"]
        (VStr "Not Applicable") ] ++
  [ (* line 4416 *)
    Derive (λ _, true) "origin_address"
           (λ df, str_replace_bar (df !! "origin_address"));
    (* line 4417 *)
    Derive (λ _, true) "destination_address"
           (λ df, str_replace_bar (df !! "destination_address")) ] ++
  [ (* line 4424 *)
    Loc (λ df, num_ge (df !! "h_complete_weekdays") 1)
        ["weight_person_trip"]
        (VInt 1);
    (* line 4428 *)
    Loc (λ df, num_ge (df !! "h_complete_weekdays") 1)
        ["weight_trip"]
        (VInt 1);
    (* lines 4429-4430 *)
    Derive condition "weight_trip" (λ df, one_over (df !! "travelers_hh")) ].

(** The frame after the recode (lines 3283-4210). *)
Definition trips_recoded (sdrts_file at_file : list row) : list row :=
  let at_df := at_fill <$> read_csv at_usecols at_file in
  let df := read_csv sdrts_usecols sdrts_file ++ at_df in
  recode mappings <$> df.

(** The frame after the rule pass and the weights (lines 4212-4430), before
    the geometry columns are added. *)
Definition trips_frame (sdrts_file at_file : list row) : list row :=
  run rules <$> trips_recoded sdrts_file at_file.

(** The [trips] property (lines 3190-4590). *)
Definition trips `{Geodesy (cell * cell)} (sdrts_file at_file : list row)
    : list row :=
  let df := trips_frame sdrts_file at_file in
  let df := assign_column "origin_shape"
              (shape "origin_lng" "origin_lat" "EPSG:2230" df) df in
  let df := assign_column "destination_shape"
              (shape "destination_lng" "destination_lat" "EPSG:2230" df) df in
  finish renames output_columns <$> df.

(** The geometry columns added after the rule pass (lines 4433-4436). *)
Definition shape_columns : list string := [ "origin_shape"; "destination_shape" ].

(** The four mode columns of the returned table. *)
Definition mode_columns : list string := [ "mode_1"; "mode_2"; "mode_3"; "mode_4" ].

(** No mode of the row is in the list of labels. *)
Definition no_mode_in (modes : list value) (out : row) : Prop :=
  Forall (λ c, isin (out !! c) modes = false) mode_columns.

(** The household has at least one complete survey weekday. *)
Definition eligible (out : row) : bool :=
  num_ge (out !! "number_household_survey_weekdays") 1.

(** The specification's weights: [weight_person_trip] is 1 for an eligible
    row and unset otherwise; [weight_trip] is 1 over the household travelers
    for an eligible row whose count is from 1 to 10, and unset in every other
    case. *)
Definition weights_as_specified (out : row) : Prop :=
  out !! "weight_person_trip" = (if eligible out then Some (VInt 1) else None) ∧
  out !! "weight_trip" =
    match out !! "travelers_household" with
    | Some (VInt n) =>
        if eligible out && bool_decide (1 ≤ n ≤ 10)
        then Some (VNum (1 / inject_Z n)) else None
    | _ => None
    end.

(** What the code computes: as specified, except that an eligible row whose
    count of household travelers is not from 1 to 10 keeps the initial weight
    1 of line 4428. *)
Definition weights_as_computed (out : row) : Prop :=
  out !! "weight_person_trip" = (if eligible out then Some (VInt 1) else None) ∧
  out !! "weight_trip" =
    if eligible out then
      match out !! "travelers_household" with
      | Some (VInt n) =>
          if bool_decide (1 ≤ n ≤ 10) then Some (VNum (1 / inject_Z n))
          else Some (VInt 1)
      | _ => Some (VInt 1)
      end
    else None.

End Trips.

(** ** Sample inputs *)

Module Samples.

(** A geodesy that leaves coordinates alone and accepts every geometry. *)
Definition flat : Geodesy (cell * cell) :=
  {| from_crs := λ _ xy, xy;
     is_valid := λ _, true;
     wkt := λ g, match g with
                 | Point _ => "POINT"
                 | LineString _ => "LINESTRING"
                 end |}.

(** A diary day with three trips whose reported answer is 2 ("No"), and one
    with no trip whose reported answer is 1 ("Yes"). *)
Definition day_with_trips : row :=
  list_to_map [("personid", VInt 1); ("num_trips", VInt 3); ("trips_yesno", VInt 2)].
Definition day_without_trips : row :=
  list_to_map [("personid", VInt 2); ("num_trips", VInt 0); ("trips_yesno", VInt 1)].

Definition nth_row (i : nat) (df : list row) : row := default ∅ (df !! i).

(** A trip of an eligible household (two complete weekdays) whose count of
    household travelers is the non-response code -9998; and one with four
    household travelers. *)
Definition trip_without_count : row :=
  list_to_map [("tripid", VInt 1); ("h_complete_weekdays", VInt 2);
               ("travelers_hh", VInt (-9998)); ("mode1", VInt 1)].
Definition trip_of_four : row :=
  list_to_map [("tripid", VInt 2); ("h_complete_weekdays", VInt 2);
               ("travelers_hh", VInt 4); ("mode1", VInt 1)].

(** A trip by light rail and Coaster only, paid in cash (rail fare code 3);
    the online diary reports a toll road, a driver and a parking place. *)
Definition rail_trip : row :=
  list_to_map [("tripid", VInt 3); ("data_source", VInt 2);
               ("mode1", VInt 39); ("mode2", VInt 150);
               ("railtype", VInt 3); ("toll_no", VInt 0); ("toll_express", VInt 1);
               ("driver", VInt 1); ("parklocation", VInt 3);
               ("airfare_cost_dk", VInt 1)].


(** Vehicle [vehnum] of household [hhid], a gas car. *)
Definition vehicle (hhid vehnum : Z) : row :=
  list_to_map [("hhid", VInt hhid); ("vehnum", VInt vehnum); ("fuel", VInt 1)].

(** A child under 5 whose record carries employment code 1 (full-time). *)
Definition child : row :=
  list_to_map [("personid", VInt 1); ("age", VInt 1); ("employment", VInt 1)].

(** An employed adult on active duty (military code 2) whose record carries
    civilian answers: an occupation, a commute frequency, a commute mode. *)
Definition service_member : row :=
  list_to_map [("personid", VInt 2); ("age", VInt 5); ("employment", VInt 1);
               ("military", VInt 2); ("occupation", VInt 55);
               ("commute_freq", VInt 2); ("commute_mode", VInt 1);
               ("telecommute_freq", VInt 9); ("commute_subsidy_other", VInt 0)].

End Samples.

(** ** Households *)

Module Households.
Import Frame FrameOps.

(** [usecols] of the [read_csv] of SDRTS_AT_HH_Data_20170809.csv (line 870). *)
Definition at_usecols : list string :=
  [ "hhid"; "hhgroup"; "traveldate_start"; "mobile_recruit"; "recruit_start_pt";
    "recruit_end_pt"; "num_rmove_participants"; "participate_future_studies";
    "hh_iscomplete"; "numdays_complete"; "language_pref"; "language_pref_other"; "hhsize";
    "numadults"; "numkids"; "numworkers"; "vehicle_count"; "bicycle_count"; "share_car";
    "share_bike"; "share_vanpool"; "home_address"; "home_lat"; "home_lng"; "res_duration";
    "rent_own"; "res_type"; "hhincome_detailed"; "hhincome_broad"; "tool_paper";
    "tool_freq_paper"; "tool_carnav"; "tool_freq_carnav"; "tool_511sd"; "tool_freq_511sd";
    "tool_apple"; "tool_freq_apple"; "tool_car2go"; "tool_freq_car2go"; "tool_google";
    "tool_freq_google"; "tool_icommutesd"; "tool_freq_icommutesd"; "tool_lyft";
    "tool_freq_lyft"; "tool_mapmy"; "tool_freq_mapmy"; "tool_mapquest";
    "tool_freq_mapquest"; "tool_sdmts"; "tool_freq_sdmts"; "tool_nctd"; "tool_freq_nctd";
    "tool_waze"; "tool_freq_waze"; "tool_uber"; "tool_freq_uber"; "tool_other";
    "tool_other_specify"; "tool_freq_other"; "tool_none"; "border_freq_1" ].

(** [usecols] of the [read_csv] of SDRTS_Household_Data_20170731.csv (line 1001). *)
Definition sdrts_usecols : list string :=
  [ "hhid"; "sample_segment"; "hhgroup"; "traveldate_start"; "callcenter_recruit";
    "mobile_recruit"; "recruit_start_pt"; "recruit_end_pt"; "num_rmove_participants";
    "participate_future_studies"; "hh_iscomplete"; "numdays_complete"; "language_pref";
    "language_pref_other"; "hhsize"; "numadults"; "numkids"; "numworkers"; "vehicle_count";
    "bicycle_count"; "share_car"; "share_bike"; "share_vanpool"; "home_address";
    "home_lat"; "home_lng"; "res_duration"; "rent_own"; "res_type"; "hhincome_detailed";
    "hhincome_broad"; "tool_paper"; "tool_freq_paper"; "tool_carnav"; "tool_freq_carnav";
    "tool_511sd"; "tool_freq_511sd"; "tool_apple"; "tool_freq_apple"; "tool_car2go";
    "tool_freq_car2go"; "tool_google"; "tool_freq_google"; "tool_icommutesd";
    "tool_freq_icommutesd"; "tool_lyft"; "tool_freq_lyft"; "tool_mapmy"; "tool_freq_mapmy";
    "tool_mapquest"; "tool_freq_mapquest"; "tool_sdmts"; "tool_freq_sdmts"; "tool_nctd";
    "tool_freq_nctd"; "tool_waze"; "tool_freq_waze"; "tool_uber"; "tool_freq_uber";
    "tool_other"; "tool_other_specify"; "tool_freq_other"; "tool_none"; "border_freq_1";
    "hh_init_wt"; "hh_weight_4x"; "hh_final_weight_456x" ].

(** [{key: str(key) for key in list(range(a, b))}]: the counts from [a] to
    [b - 1], each with its decimal numeral as label. *)
Definition count_labels (a b : Z) : mapping :=
  (λ key, (Some (VInt key), VStr (pretty key))) <$> seqZ a (b - a).

(** The [mappings] dictionary (line 1129): field, then code and label in
    insertion order; the key [None] is [pd.NA]. *)
Definition mappings : list (string * mapping) :=
  [ ("sample_segment",
      [ (Some (VStr "AT segment"), VStr "AT segment");
        (Some (VStr "Hispanic oversample"), VStr "Hispanic oversample");
        (Some (VStr "Other oversample"), VStr "Other oversample");
        (Some (VStr "Regular"), VStr "Regular");
        (Some (VStr "Transportation oversample"), VStr "Transportation oversample") ]);
    ("hhgroup",
      [ (Some (VInt 1), VStr "Group 1: rMove only");
        (Some (VInt 3), VStr "Group 3: Online diary only");
        (Some (VInt 4), VStr "Group 4: Split HH: some rMove, some online diary");
        (Some (VInt 5), VStr "Group 5: AT/Intercept (rMove only)");
        (None, VStr "Missing") ]);
    ("callcenter_recruit",
      [ (Some (VInt 0), VStr "Recruit survey completed online");
        (Some (VInt 1), VStr "Recruit survey completed via call center");
        (Some (VInt 99), VStr "Not Applicable");
        (None, VStr "Missing") ]);
    ("mobile_recruit",
      [ (Some (VInt 0), VStr "Recruit survey was not completed on mobile device");
        (Some (VInt 1), VStr "Recruit survey was completed on mobile device");
        (None, VStr "Missing") ]);
    ("participate_future_studies",
      [ (Some (VInt 1), VStr "Yes");
        (Some (VInt 2), VStr "No");
        (None, VStr "Missing") ]);
    ("hh_iscomplete",
      [ (Some (VInt 0), VStr "No");
        (Some (VInt 1), VStr "Yes");
        (None, VStr "Missing") ]);
    ("language_pref",
      [ (Some (VInt 1), VStr "English");
        (Some (VInt 2), VStr "Spanish");
        (Some (VInt 97), VStr "Other");
        (None, VStr "Missing") ]);
    ("hhsize",
      count_labels 0 12 ++
      [ (Some (VInt 12), VStr "12+");
        (None, VStr "Missing") ]);
    ("numadults",
      count_labels 0 12 ++
      [ (Some (VInt 12), VStr "12+");
        (None, VStr "Missing") ]);
    ("numkids",
      count_labels 0 11 ++
      [ (Some (VInt 11), VStr "11+");
        (None, VStr "Missing") ]);
    ("numworkers",
      count_labels 0 11 ++
      [ (Some (VInt 11), VStr "11+");
        (None, VStr "Missing") ]);
    ("vehicle_count",
      count_labels 0 7 ++
      [ (Some (VInt 7), VStr "7+");
        (None, VStr "Missing") ]);
    ("bicycle_count",
      count_labels 0 10 ++
      [ (Some (VInt 10), VStr "10+");
        (None, VStr "Missing") ]);
    ("share_car",
      [ (Some (VInt 0), VStr "No");
        (Some (VInt 1), VStr "Yes");
        (None, VStr "Missing") ]);
    ("share_bike",
      [ (Some (VInt 0), VStr "No");
        (Some (VInt 1), VStr "Yes");
        (None, VStr "Missing") ]);
    ("share_vanpool",
      [ (Some (VInt 0), VStr "No");
        (Some (VInt 1), VStr "Yes");
        (None, VStr "Missing") ]);
    ("res_duration",
      [ (Some (VInt 1), VStr "Less than a year");
        (Some (VInt 2), VStr "Between 1 and 2 years");
        (Some (VInt 3), VStr "Between 2 and 3 years");
        (Some (VInt 4), VStr "Between 3 and 5 years");
        (Some (VInt 5), VStr "Between 5 and 10 years");
        (Some (VInt 6), VStr "Between 10 and 20 years");
        (Some (VInt 7), VStr "More than 20 years");
        (None, VStr "Missing") ]);
    ("rent_own",
      [ (Some (VInt 1), VStr "Own/Buying (paying mortgage)");
        (Some (VInt 2), VStr "Rent");
        (Some (VInt 3), VStr "Provided by job or military");
        (Some (VInt 97), VStr "Other");
        (Some (VInt 99), VStr "Prefer not to answer");
        (None, VStr "Missing") ]);
    ("res_type",
      [ (Some (VInt 1), VStr "Single-family house (detached house)");
        (Some (VInt 2), VStr "Townhouse (attached house)");
        (Some (VInt 3), VStr "Building with 3 or fewer apartments/condos");
        (Some (VInt 4), VStr "Building with 4 or more apartments/condos");
        (Some (VInt 5), VStr "Mobile home/trailer");
        (Some (VInt 6), VStr "Dorm, barracks, or institutional housing");
        (Some (VInt 97), VStr "Other (including boat, RV, van, etc.)");
        (None, VStr "Missing") ]);
    ("hhincome_detailed",
      [ (Some (VInt 1), VStr "Under $15,000");
        (Some (VInt 2), VStr "$15,000-$29,999");
        (Some (VInt 3), VStr "$30,000-$44,999");
        (Some (VInt 4), VStr "$45,000-$59,999");
        (Some (VInt 5), VStr "$60,000-$74,999");
        (Some (VInt 6), VStr "$75,000-$99,999");
        (Some (VInt 7), VStr "$100,000-$124,999");
        (Some (VInt 8), VStr "$125,000-$149,999");
        (Some (VInt 9), VStr "$150,000-$199,999");
        (Some (VInt 10), VStr "$200,000-$249,999");
        (Some (VInt 11), VStr "$250,000 or more");
        (Some (VInt 99), VStr "Prefer not to answer");
        (None, VStr "Missing") ]);
    ("hhincome_broad",
      [ (Some (VInt 1), VStr "Under $30,000");
        (Some (VInt 2), VStr "$30,000-$59,999");
        (Some (VInt 3), VStr "$60,000-$99,999");
        (Some (VInt 4), VStr "$100,000-$149,999");
        (Some (VInt 5), VStr "$150,000 or more");
        (Some (VInt 99), VStr "Prefer not to answer");
        (None, VStr "Missing") ]);
    ("tool_paper",
      [ (Some (VInt 0), VStr "No");
        (Some (VInt 1), VStr "Yes");
        (None, VStr "Missing") ]);
    ("tool_freq_paper",
      [ (Some (VInt 1), VStr "Less than once a week");
        (Some (VInt 2), VStr "A few times a week");
        (Some (VInt 3), VStr "Daily or more");
        (None, VStr "Not Applicable") ]);
    ("tool_carnav",
      [ (Some (VInt 0), VStr "No");
        (Some (VInt 1), VStr "Yes");
        (None, VStr "Missing") ]);
    ("tool_freq_carnav",
      [ (Some (VInt 1), VStr "Less than once a week");
        (Some (VInt 2), VStr "A few times a week");
        (Some (VInt 3), VStr "Daily or more");
        (None, VStr "Not Applicable") ]);
    ("tool_511sd",
      [ (Some (VInt 0), VStr "No");
        (Some (VInt 1), VStr "Yes");
        (None, VStr "Missing") ]);
    ("tool_freq_511sd",
      [ (Some (VInt 1), VStr "Less than once a week");
        (Some (VInt 2), VStr "A few times a week");
        (Some (VInt 3), VStr "Daily or more");
        (None, VStr "Not Applicable") ]);
    ("tool_apple",
      [ (Some (VInt 0), VStr "No");
        (Some (VInt 1), VStr "Yes");
        (None, VStr "Missing") ]);
    ("tool_freq_apple",
      [ (Some (VInt 1), VStr "Less than once a week");
        (Some (VInt 2), VStr "A few times a week");
        (Some (VInt 3), VStr "Daily or more");
        (None, VStr "Not Applicable") ]);
    ("tool_car2go",
      [ (Some (VInt 0), VStr "No");
        (Some (VInt 1), VStr "Yes");
        (None, VStr "Missing") ]);
    ("tool_freq_car2go",
      [ (Some (VInt 1), VStr "Less than once a week");
        (Some (VInt 2), VStr "A few times a week");
        (Some (VInt 3), VStr "Daily or more");
        (None, VStr "Not Applicable") ]);
    ("tool_google",
      [ (Some (VInt 0), VStr "No");
        (Some (VInt 1), VStr "Yes");
        (None, VStr "Missing") ]);
    ("tool_freq_google",
      [ (Some (VInt 1), VStr "Less than once a week");
        (Some (VInt 2), VStr "A few times a week");
        (Some (VInt 3), VStr "Daily or more");
        (None, VStr "Not Applicable") ]);
    ("tool_icommutesd",
      [ (Some (VInt 0), VStr "No");
        (Some (VInt 1), VStr "Yes");
        (None, VStr "Missing") ]);
    ("tool_freq_icommutesd",
      [ (Some (VInt 1), VStr "Less than once a week");
        (Some (VInt 2), VStr "A few times a week");
        (Some (VInt 3), VStr "Daily or more");
        (None, VStr "Not Applicable") ]);
    ("tool_lyft",
      [ (Some (VInt 0), VStr "No");
        (Some (VInt 1), VStr "Yes");
        (None, VStr "Missing") ]);
    ("tool_freq_lyft",
      [ (Some (VInt 1), VStr "Less than once a week");
        (Some (VInt 2), VStr "A few times a week");
        (Some (VInt 3), VStr "Daily or more");
        (None, VStr "Not Applicable") ]);
    ("tool_mapmy",
      [ (Some (VInt 0), VStr "No");
        (Some (VInt 1), VStr "Yes");
        (None, VStr "Missing") ]);
    ("tool_freq_mapmy",
      [ (Some (VInt 1), VStr "Less than once a week");
        (Some (VInt 2), VStr "A few times a week");
        (Some (VInt 3), VStr "Daily or more");
        (None, VStr "Not Applicable") ]);
    ("tool_mapquest",
      [ (Some (VInt 0), VStr "No");
        (Some (VInt 1), VStr "Yes");
        (None, VStr "Missing") ]);
    ("tool_freq_mapquest",
      [ (Some (VInt 1), VStr "Less than once a week");
        (Some (VInt 2), VStr "A few times a week");
        (Some (VInt 3), VStr "Daily or more");
        (None, VStr "Not Applicable") ]);
    ("tool_sdmts",
      [ (Some (VInt 0), VStr "No");
        (Some (VInt 1), VStr "Yes");
        (None, VStr "Missing") ]);
    ("tool_freq_sdmts",
      [ (Some (VInt 1), VStr "Less than once a week");
        (Some (VInt 2), VStr "A few times a week");
        (Some (VInt 3), VStr "Daily or more");
        (None, VStr "Not Applicable") ]);
    ("tool_nctd",
      [ (Some (VInt 0), VStr "No");
        (Some (VInt 1), VStr "Yes");
        (None, VStr "Missing") ]);
    ("tool_freq_nctd",
      [ (Some (VInt 1), VStr "Less than once a week");
        (Some (VInt 2), VStr "A few times a week");
        (Some (VInt 3), VStr "Daily or more");
        (None, VStr "Not Applicable") ]);
    ("tool_waze",
      [ (Some (VInt 0), VStr "No");
        (Some (VInt 1), VStr "Yes");
        (None, VStr "Missing") ]);
    ("tool_freq_waze",
      [ (Some (VInt 1), VStr "Less than once a week");
        (Some (VInt 2), VStr "A few times a week");
        (Some (VInt 3), VStr "Daily or more");
        (None, VStr "Not Applicable") ]);
    ("tool_uber",
      [ (Some (VInt 0), VStr "No");
        (Some (VInt 1), VStr "Yes");
        (None, VStr "Missing") ]);
    ("tool_freq_uber",
      [ (Some (VInt 1), VStr "Less than once a week");
        (Some (VInt 2), VStr "A few times a week");
        (Some (VInt 3), VStr "Daily or more");
        (None, VStr "Not Applicable") ]);
    ("tool_other",
      [ (Some (VInt 0), VStr "No");
        (Some (VInt 1), VStr "Yes");
        (None, VStr "Missing") ]);
    ("tool_freq_other",
      [ (Some (VInt 1), VStr "Less than once a week");
        (Some (VInt 2), VStr "A few times a week");
        (Some (VInt 3), VStr "Daily or more");
        (None, VStr "Not Applicable") ]);
    ("tool_none",
      [ (Some (VInt 0), VStr "No");
        (Some (VInt 1), VStr "Yes");
        (None, VStr "Missing") ]);
    ("border_freq_1",
      count_labels 0 10 ++
      [ (Some (VInt 10), VStr "10+");
        (Some (VInt 98), VStr "Do not know");
        (None, VStr "Missing") ]) ].

(** The [columns] dictionary of [df.rename] (line 1357): old name, new name. *)
Definition renames : list (string * string) :=
  [ ("hhid", "household_id");
    ("hhgroup", "sample_group");
    ("traveldate_start", "travel_date_start");
    ("callcenter_recruit", "recruit_survey_where");
    ("mobile_recruit", "recruit_survey_mobile");
    ("recruit_start_pt", "recruit_survey_start");
    ("recruit_end_pt", "recruit_survey_end");
    ("num_rmove_participants", "number_rmove_participants");
    ("hh_iscomplete", "household_completed");
    ("numdays_complete", "completed_days");
    ("language_pref", "language");
    ("language_pref_other", "language_other");
    ("hhsize", "persons");
    ("numadults", "adults");
    ("numkids", "children");
    ("numworkers", "workers");
    ("vehicle_count", "vehicles");
    ("bicycle_count", "bicycles");
    ("share_car", "has_share_car");
    ("share_bike", "has_share_bicycle");
    ("share_vanpool", "has_share_vanpool");
    ("home_address", "address");
    ("home_lat", "latitude");
    ("home_lng", "longitude");
    ("res_duration", "residence_duration");
    ("rent_own", "residence_tenure_status");
    ("res_type", "residence_type");
    ("hhincome_detailed", "income_category_detailed");
    ("hhincome_broad", "income_category_broad");
    ("tool_paper", "use_paper_maps");
    ("tool_freq_paper", "freq_paper_maps");
    ("tool_carnav", "use_car_navigation");
    ("tool_freq_carnav", "freq_car_navigation");
    ("tool_511sd", "use_511sd");
    ("tool_freq_511sd", "freq_511sd");
    ("tool_apple", "use_apple_maps");
    ("tool_freq_apple", "freq_apple_maps");
    ("tool_car2go", "use_car2go");
    ("tool_freq_car2go", "freq_car2go");
    ("tool_google", "use_google_maps");
    ("tool_freq_google", "freq_google_maps");
    ("tool_icommutesd", "use_icommutesd");
    ("tool_freq_icommutesd", "freq_icommutesd");
    ("tool_lyft", "use_lyft");
    ("tool_freq_lyft", "freq_lyft");
    ("tool_mapmy", "use_mapmyride");
    ("tool_freq_mapmy", "freq_mapmyride");
    ("tool_mapquest", "use_mapquest");
    ("tool_freq_mapquest", "freq_mapquest");
    ("tool_sdmts", "use_sdmts");
    ("tool_freq_sdmts", "freq_sdmts");
    ("tool_nctd", "use_nctd");
    ("tool_freq_nctd", "freq_nctd");
    ("tool_waze", "use_waze");
    ("tool_freq_waze", "freq_waze");
    ("tool_uber", "use_uber");
    ("tool_freq_uber", "freq_uber");
    ("tool_other", "use_other_tool");
    ("tool_other_specify", "specify_other_tool");
    ("tool_freq_other", "freq_other_tool");
    ("tool_none", "use_no_navigation_tools");
    ("border_freq_1", "freq_cross_border");
    ("hh_init_wt", "weight_household_initial");
    ("hh_weight_4x", "weight_household_4x");
    ("hh_final_weight_456x", "weight_household_456x") ].

(** The columns of the returned table, in order (line 1426). *)
Definition output_columns : list string :=
  [ "household_id"; "sample_segment"; "sample_group"; "travel_date_start";
    "recruit_survey_where"; "recruit_survey_mobile"; "recruit_survey_start";
    "recruit_survey_end"; "number_rmove_participants"; "participate_future_studies";
    "household_completed"; "completed_days"; "language"; "language_other"; "persons";
    "adults"; "children"; "workers"; "vehicles"; "bicycles"; "has_share_car";
    "has_share_bicycle"; "has_share_vanpool"; "address"; "latitude"; "longitude"; "shape";
    "residence_duration"; "residence_tenure_status"; "residence_type";
    "income_category_detailed"; "income_category_broad"; "use_paper_maps";
    "freq_paper_maps"; "use_car_navigation"; "freq_car_navigation"; "use_511sd";
    "freq_511sd"; "use_apple_maps"; "freq_apple_maps"; "use_car2go"; "freq_car2go";
    "use_google_maps"; "freq_google_maps"; "use_icommutesd"; "freq_icommutesd"; "use_lyft";
    "freq_lyft"; "use_mapmyride"; "freq_mapmyride"; "use_mapquest"; "freq_mapquest";
    "use_sdmts"; "freq_sdmts"; "use_nctd"; "freq_nctd"; "use_waze"; "freq_waze";
    "use_uber"; "freq_uber"; "use_other_tool"; "specify_other_tool"; "freq_other_tool";
    "use_no_navigation_tools"; "freq_cross_border"; "weight_household_initial";
    "weight_household_4x"; "weight_household_456x" ].

(** The values set for the columns that the AT extract does not have
    (lines 995-996). *)
Definition at_constants : list (string * value) :=
  [ ("sample_segment", VStr "AT segment");
    ("callcenter_recruit", VInt 99) ].

(** The conditional assignments of lines 1349-1351, in source order. *)
Definition rules : list step :=
  [ Loc (λ df, eq_lit (df !! "hhgroup") (VStr "Group 3: Online diary only"))
        ["num_rmove_participants"] (VStr "Not Applicable");
    Loc (λ df, ne_lit (df !! "language_pref") (VStr "Other"))
        ["language_pref_other"] (VStr "Not Applicable");
    Loc (λ df, eq_lit (df !! "tool_other") (VStr "No"))
        ["tool_other_specify"] (VStr "Not Applicable") ].

(** The household records of the two extracts (lines 870-1126): the AT
    records, with their constants, follow the SDRTS records. *)
Definition households_read (sdrts_file at_file : list row) : list row :=
  let at_df := assign_constants at_constants <$> read_csv at_usecols at_file in
  read_csv sdrts_usecols sdrts_file ++ at_df.

(** The frame after the recode and the rule pass (lines 1129-1351), before
    the geometry column is added. *)
Definition households_frame (sdrts_file at_file : list row) : list row :=
  let df := households_read sdrts_file at_file in
  let df := recode mappings <$> df in
  run rules <$> df.

(** The [households] property (lines 799-1495). *)
Definition households `{Geodesy (cell * cell)} (sdrts_file at_file : list row)
    : list row :=
  let df := households_frame sdrts_file at_file in
  let df := assign_column "shape" (shape "home_lng" "home_lat" "EPSG:2230" df) df in
  finish renames output_columns <$> df.

(** The household weights of the returned table; the AT extract has none of
    them. *)
Definition weight_columns : list string :=
  [ "weight_household_initial"; "weight_household_4x"; "weight_household_456x" ].

End Households.

(** ** Intercept survey *)

Module Intercept.
Import Frame FrameOps.

(** [usecols] of the [read_csv] of SDRTS_AT_Intercept_Data_20170608.csv (line 1546). *)
Definition usecols : list string :=
  [ "hhid"; "status"; "survey_start_pdt"; "survey_end_pdt"; "survey_day"; "pilot_study";
    "origin_purpose_1_1"; "employment_int_1_1"; "student_int_1_1"; "origin_loc_address_1";
    "origin_loc_lat_1"; "origin_loc_lng_1"; "dest_purpose_1_1"; "dest_loc_address_1";
    "dest_loc_lat_1"; "dest_loc_lng_1"; "distance_beeline"; "distance_beeline_agg";
    "work_int_1_1"; "work_int_1_2"; "school_int_1_1"; "school_int_1_2";
    "vehicle_count_1_1"; "age_groups_1_1"; "age_groups_1_2"; "age_groups_1_3";
    "age_int_1_1"; "smartphone_int_1_1"; "resident_int_1_1"; "bikeparty_1_1";
    "bikeshare_1_1"; "gender_1_1"; "intercept_location_1_1"; "intercept_location_dir_1_1";
    "language_1_1"; "rmove_qualify"; "optout_1_1"; "rmove_participate"; "rmove_complete";
    "recruit_complete"; "survey_time_peak"; "expansion_site"; "exp_factor" ].

(** The [mappings] dictionary (line 1623): field, then code and label in
    insertion order; the key [None] is [pd.NA]. *)
Definition mappings : list (string * mapping) :=
  [ ("status",
      [ (Some (VInt 0), VStr "Incomplete");
        (Some (VInt 1), VStr "Complete");
        (None, VStr "Missing") ]);
    ("pilot_study",
      [ (Some (VInt 0), VStr "No");
        (Some (VInt 1), VStr "Yes");
        (None, VStr "Missing") ]);
    ("origin_purpose_1_1",
      [ (Some (VInt 1), VStr "My home");
        (Some (VInt 2), VStr "My work or a work-related place");
        (Some (VInt 3), VStr "My school");
        (Some (VInt 4), VStr "Someone elses home");
        (Some (VInt 5), VStr "A business (e.g., shopping, errand, banking, doctor, etc.)");
        (Some (VInt 6), VStr "A restaurant");
        (Some (VInt 7), VStr "A leisure activity (e.g., museum, gym, sporting event, etc.)");
        (Some (VInt 8), VStr "Pickup or drop-off child at daycare, school, etc.");
        (Some (VInt 9), VStr "Other");
        (None, VStr "Missing") ]);
    ("employment_int_1_1",
      [ (Some (VInt 1), VStr "Employed full-time (paid) 35+ hours/week");
        (Some (VInt 2), VStr "Employed part-time (paid) up to 35 hours/week");
        (Some (VInt 3), VStr "Unpaid volunteer or intern");
        (Some (VInt 4), VStr "Not currently employed");
        (None, VStr "Missing") ]);
    ("student_int_1_1",
      [ (Some (VInt 1), VStr "Not a student");
        (Some (VInt 2), VStr "Enrolled in higher education");
        (Some (VInt 3), VStr "Enrolled in high school (grades 9-12)");
        (Some (VInt 4), VStr "Enrolled in grade school or middle school (grades K-8)");
        (None, VStr "Missing") ]);
    ("dest_purpose_1_1",
      [ (Some (VInt 1), VStr "My home");
        (Some (VInt 2), VStr "My work or a work-related place");
        (Some (VInt 3), VStr "My school");
        (Some (VInt 4), VStr "Someone elses home");
        (Some (VInt 5), VStr "A business (e.g., shopping, errand, banking, doctor, etc.)");
        (Some (VInt 6), VStr "A restaurant");
        (Some (VInt 7), VStr "A leisure activity (e.g., museum, gym, sporting event, etc.)");
        (Some (VInt 8), VStr "Pickup or drop-off child at daycare, school, etc.");
        (Some (VInt 9), VStr "Other");
        (None, VStr "Missing") ]);
    ("distance_beeline_agg",
      [ (Some (VInt 0), VStr "0-2 miles");
        (Some (VInt 2), VStr "2-4 miles");
        (Some (VInt 4), VStr "4-6 miles");
        (Some (VInt 6), VStr "6-8 miles");
        (Some (VInt 8), VStr "8-10 miles");
        (Some (VInt 10), VStr "10-12 miles");
        (Some (VInt 12), VStr "12-14 miles");
        (Some (VInt 14), VStr "14-16 miles");
        (Some (VInt 16), VStr "16-18 miles");
        (Some (VInt 18), VStr "18-20 miles");
        (Some (VInt 20), VStr "20 miles or more");
        (None, VStr "Missing") ]);
    ("work_int_1_1",
      [ (Some (VInt 1), VStr "Yes");
        (Some (VInt 2), VStr "No");
        (Some (VInt 3), VStr "Not Applicable");
        (None, VStr "Missing") ]);
    ("work_int_1_2",
      [ (Some (VInt 1), VStr "Yes");
        (Some (VInt 2), VStr "No");
        (Some (VInt 3), VStr "Not Applicable");
        (None, VStr "Missing") ]);
    ("school_int_1_1",
      [ (Some (VInt 1), VStr "Yes");
        (Some (VInt 2), VStr "No");
        (Some (VInt 3), VStr "Not Applicable");
        (None, VStr "Missing") ]);
    ("school_int_1_2",
      [ (Some (VInt 1), VStr "Yes");
        (Some (VInt 2), VStr "No");
        (Some (VInt 3), VStr "Not Applicable");
        (None, VStr "Missing") ]);
    ("vehicle_count_1_1",
      [ (Some (VInt 0), VInt 0);
        (Some (VInt 1), VInt 1);
        (Some (VInt 2), VInt 2);
        (Some (VInt 3), VInt 3);
        (Some (VInt 4), VInt 4);
        (Some (VInt 5), VInt 5);
        (Some (VInt 6), VInt 6);
        (Some (VInt 7), VStr "7+");
        (None, VStr "Missing") ]);
    ("age_int_1_1",
      [ (Some (VInt 1), VStr "16-17 years");
        (Some (VInt 2), VStr "18-24 years");
        (Some (VInt 3), VStr "25-34 years");
        (Some (VInt 4), VStr "35-44 years");
        (Some (VInt 5), VStr "45-49 years");
        (Some (VInt 6), VStr "50-54 years");
        (Some (VInt 7), VStr "55-59 years");
        (Some (VInt 8), VStr "60-64 years");
        (Some (VInt 9), VStr "65 years or older");
        (None, VStr "Missing") ]);
    ("smartphone_int_1_1",
      [ (Some (VInt 1), VStr "Yes, an Android smartphone");
        (Some (VInt 2), VStr "Yes, an Apple smartphone");
        (Some (VInt 3), VStr "Yes, another type of smartphone");
        (Some (VInt 4), VStr "No, I do not own a smartphone");
        (None, VStr "Missing") ]);
    ("resident_int_1_1",
      [ (Some (VInt 1), VStr "Yes");
        (Some (VInt 2), VStr "No");
        (None, VStr "Missing") ]);
    ("bikeparty_1_1",
      [ (Some (VInt 1), VInt 0);
        (Some (VInt 2), VInt 1);
        (Some (VInt 3), VInt 2);
        (Some (VInt 4), VInt 3);
        (Some (VInt 5), VInt 4);
        (Some (VInt 6), VStr "5+");
        (None, VStr "Missing") ]);
    ("bikeshare_1_1",
      [ (Some (VInt 1), VStr "Yes");
        (Some (VInt 2), VStr "No");
        (None, VStr "Missing") ]);
    ("gender_1_1",
      [ (Some (VInt 1), VStr "Male");
        (Some (VInt 2), VStr "Female");
        (Some (VInt 3), VStr "Do not know");
        (None, VStr "Missing") ]);
    ("intercept_location_1_1",
      [ (Some (VInt 1), VStr "1 - (Oceanside) - S. Pacific Street and Tyson St");
        (Some (VInt 2), VStr "2 - (Oceanside) - Rail Trail and Elm Street");
        (Some (VInt 3), VStr "3 - (Oceanside) - N Coast Highway and Topeka St (8/16/16 - 2/05/17)");
        (Some (VInt 4), VStr "4 - (San Marcos) - Valpreda Rd and Mission Rd");
        (Some (VInt 5), VStr "5 - (San Marcos) - Campus Way and Campus View Dr");
        (Some (VInt 6), VStr "6 - (Escondido) - Rock Springs Rd and W Mission Ave");
        (Some (VInt 7), VStr "7 - (Escondido) - Centre City Pkwy and W Valley Pkwy");
        (Some (VInt 8), VStr "8 - (Solana Beach) - Coast Highway and Lomas Santa Fe/Plaza St");
        (Some (VInt 9), VStr "9 - (Chula Vista) - Broadway, Between E Street and Flower St");
        (Some (VInt 10), VStr "10 - (San Diego - La Jolla) - N Torrey Pines Rd and La Jolla Shores Dr");
        (Some (VInt 11), VStr "11 - (San Diego - La Jolla) - Gilman Dr between Osler Ln and La Jolla Village Dr");
        (Some (VInt 12), VStr "12 - (San Diego - Pacific Beach) - Fanuel St and Crown Point Bike Path");
        (Some (VInt 13), VStr "13 - (San Diego - Pacific Beach) - Ingraham St and Hornblend St");
        (Some (VInt 14), VStr "14 - (San Diego - Downtown) - Union St and Ash St");
        (Some (VInt 15), VStr "15 - (San Diego - Downtown) - 4th Ave and C St");
        (Some (VInt 16), VStr "16 - (San Diego - Downtown) - 5th Ave and Broadway (8/16/16 - 02/05/17)");
        (Some (VInt 17), VStr "17 - (San Diego - Downtown) - 10th Ave and Market St");
        (Some (VInt 18), VStr "18 - (San Diego - North Park) - Park Blvd and Myrtle St");
        (Some (VInt 19), VStr "19 - (San Diego - North Park) - 30th St and University Ave");
        (Some (VInt 20), VStr "20 - (San Diego - North Park) - Oregon St and El Cajon Blvd");
        (Some (VInt 21), VStr "21 - (San Diego - North Park) - Utah St and Meade Ave");
        (Some (VInt 22), VStr "22 - (San Diego - College Area) - Collwood Blvd and Montezuma Rd");
        (Some (VInt 23), VStr "23 - (San Diego - College Area) - E Campus Dr and Montezuma Rd");
        (Some (VInt 24), VStr "24 - (El Cajon) - Orlando St and Main St");
        (Some (VInt 25), VStr "25 - (El Cajon) - Jamacha Road and E. Washington Ave");
        (Some (VInt 26), VStr "26 - Other");
        (Some (VInt 27), VStr "3 - (Oceanside) - N Coast Highway and Mission Ave (2/06/17 - 2/16/17)");
        (Some (VInt 28), VStr "16 - (San Diego - Downtown) - 5th Ave, between Elm St and Fir St (2/06/17 - 2/16/17)");
        (None, VStr "Missing") ]);
    ("intercept_location_dir_1_1",
      [ (Some (VInt 1), VStr "North");
        (Some (VInt 2), VStr "East");
        (Some (VInt 3), VStr "South");
        (Some (VInt 4), VStr "West");
        (None, VStr "Missing") ]);
    ("language_1_1",
      [ (Some (VInt 1), VStr "English");
        (Some (VInt 2), VStr "Spanish");
        (Some (VInt 3), VStr "Other");
        (None, VStr "Missing") ]);
    ("rmove_qualify",
      [ (Some (VInt 0), VStr "No");
        (Some (VInt 1), VStr "Yes");
        (None, VStr "Missing") ]);
    ("optout_1_1",
      [ (Some (VInt 0), VStr "No");
        (Some (VInt 1), VStr "Yes");
        (None, VStr "Not Applicable") ]);
    ("rmove_participate",
      [ (Some (VInt 0), VStr "No");
        (Some (VInt 1), VStr "Yes");
        (None, VStr "Missing") ]);
    ("rmove_complete",
      [ (Some (VInt 0), VStr "No");
        (Some (VInt 1), VStr "Yes");
        (None, VStr "Not Applicable") ]);
    ("recruit_complete",
      [ (Some (VInt 0), VStr "No (dropped out)");
        (Some (VInt 1), VStr "Yes");
        (None, VStr "Not Applicable") ]);
    ("survey_time_peak",
      [ (Some (VInt 0), VStr "No");
        (Some (VInt 1), VStr "Yes");
        (None, VStr "Missing") ]);
    ("expansion_site",
      [ (Some (VInt 1), VStr "1 - (Oceanside) - S. Pacific Street and Tyson St");
        (Some (VInt 2), VStr "2 - (Oceanside) - Rail Trail and Elm Street");
        (Some (VInt 3), VStr "3 - (Oceanside) - N Coast Highway and Topeka St (8/16/16 - 2/05/17)");
        (Some (VInt 4), VStr "4 - (San Marcos) - Valpreda Rd and Mission Rd");
        (Some (VInt 5), VStr "5 - (San Marcos) - Campus Way and Campus View Dr");
        (Some (VInt 6), VStr "6 - (Escondido) - Rock Springs Rd and W Mission Ave");
        (Some (VInt 7), VStr "7 - (Escondido) - Centre City Pkwy and W Valley Pkwy");
        (Some (VInt 8), VStr "8 - (Solana Beach) - Coast Highway and Lomas Santa Fe/Plaza St");
        (Some (VInt 9), VStr "9 - (Chula Vista) - Broadway, Between E Street and Flower St");
        (Some (VInt 10), VStr "10 - (San Diego - La Jolla) - N Torrey Pines Rd and La Jolla Shores Dr");
        (Some (VInt 11), VStr "11 - (San Diego - La Jolla) - Gilman Dr between Osler Ln and La Jolla Village Dr");
        (Some (VInt 12), VStr "12 - (San Diego - Pacific Beach) - Fanuel St and Crown Point Bike Path");
        (Some (VInt 13), VStr "13 - (San Diego - Pacific Beach) - Ingraham St and Hornblend St");
        (Some (VInt 14), VStr "14 - (San Diego - Downtown) - Union St and Ash St");
        (Some (VInt 15), VStr "15 - (San Diego - Downtown) - 4th Ave and C St");
        (Some (VInt 16), VStr "16 - (San Diego - Downtown) - 5th Ave and Broadway (8/16/16 - 02/05/17)");
        (Some (VInt 17), VStr "17 - (San Diego - Downtown) - 10th Ave and Market St");
        (Some (VInt 18), VStr "18 - (San Diego - North Park) - Park Blvd and Myrtle St");
        (Some (VInt 19), VStr "19 - (San Diego - North Park) - 30th St and University Ave");
        (Some (VInt 20), VStr "20 - (San Diego - North Park) - Oregon St and El Cajon Blvd");
        (Some (VInt 21), VStr "21 - (San Diego - North Park) - Utah St and Meade Ave");
        (Some (VInt 22), VStr "22 - (San Diego - College Area) - Collwood Blvd and Montezuma Rd");
        (Some (VInt 23), VStr "23 - (San Diego - College Area) - E Campus Dr and Montezuma Rd");
        (Some (VInt 24), VStr "24 - (El Cajon) - Orlando St and Main St");
        (Some (VInt 25), VStr "25 - (El Cajon) - Jamacha Road and E. Washington Ave");
        (Some (VInt 26), VStr "26 - Other");
        (Some (VInt 27), VStr "3 - (Oceanside) - N Coast Highway and Mission Ave (2/06/17 - 2/16/17)");
        (Some (VInt 28), VStr "16 - (San Diego - Downtown) - 5th Ave, between Elm St and Fir St (2/06/17 - 2/16/17)");
        (None, VStr "Missing") ]) ].

(** The [columns] dictionary of [df.rename] (line 1843): old name, new name. *)
Definition renames : list (string * string) :=
  [ ("hhid", "household_id");
    ("status", "survey_status");
    ("survey_start_pdt", "survey_start");
    ("survey_end_pdt", "survey_end");
    ("survey_day", "survey_date");
    ("origin_purpose_1_1", "origin_purpose");
    ("employment_int_1_1", "employment_status");
    ("student_int_1_1", "student_status");
    ("origin_loc_address_1", "origin_address");
    ("origin_loc_lat_1", "origin_latitude");
    ("origin_loc_lng_1", "origin_longitude");
    ("dest_purpose_1_1", "destination_purpose");
    ("dest_loc_address_1", "destination_address");
    ("dest_loc_lat_1", "destination_latitude");
    ("dest_loc_lng_1", "destination_longitude");
    ("distance_beeline", "distance_beeline");
    ("distance_beeline_agg", "distance_beeline_bin");
    ("vehicle_count_1_1", "number_household_vehicles");
    ("age_groups_1_1", "number_children_0_15");
    ("age_groups_1_2", "number_children_16_17");
    ("age_groups_1_3", "number_adults");
    ("age_int_1_1", "age");
    ("smartphone_int_1_1", "smartphone");
    ("resident_int_1_1", "resident");
    ("bikeparty_1_1", "bike_party");
    ("bikeshare_1_1", "bike_share");
    ("gender_1_1", "gender");
    ("intercept_location_1_1", "intercept_site");
    ("intercept_location_dir_1_1", "intercept_direction");
    ("language_1_1", "language");
    ("rmove_qualify", "rmove_qualify");
    ("optout_1_1", "opt_out");
    ("rmove_participate", "rmove_participate");
    ("rmove_complete", "rmove_complete");
    ("recruit_complete", "recruit_complete");
    ("survey_time_peak", "survey_time_peak");
    ("expansion_site", "expansion_site");
    ("exp_factor", "expansion_factor") ].

(** The columns of the returned table, in order (line 1885). *)
Definition output_columns : list string :=
  [ "household_id"; "survey_status"; "survey_start"; "survey_end"; "survey_date";
    "pilot_study"; "origin_purpose"; "employment_status"; "student_status";
    "origin_address"; "origin_latitude"; "origin_longitude"; "destination_purpose";
    "destination_address"; "destination_latitude"; "destination_longitude";
    "distance_beeline"; "distance_beeline_bin"; "visit_work"; "visit_school";
    "number_household_vehicles"; "number_children_0_15"; "number_children_16_17";
    "number_adults"; "age"; "smartphone"; "resident"; "bike_party"; "bike_share"; "gender";
    "intercept_site"; "intercept_direction"; "language"; "rmove_qualify"; "opt_out";
    "rmove_participate"; "rmove_complete"; "recruit_complete"; "survey_time_peak";
    "expansion_site"; "expansion_factor" ].

(** [np.where(condition, x, y)] at one row. *)
Definition np_where (condition : bool) (x y : cell) : cell :=
  if condition then x else y.

(** The combined visit columns (lines 1829-1840), in source order. *)
Definition rules : list step :=
  [ Derive (λ _, true) "visit_work"
           (λ df, np_where (isin (df !! "work_int_1_1") [VStr "Missing"; VStr "Not Applicable"])
                           (df !! "work_int_1_2") (df !! "work_int_1_1"));
    Derive (λ _, true) "visit_school"
           (λ df, np_where (isin (df !! "school_int_1_1") [VStr "Missing"; VStr "Not Applicable"])
                           (df !! "school_int_1_2") (df !! "school_int_1_1")) ].

(** The [intercept] property (lines 1497-1927). *)
Definition intercept (file : list row) : list row :=
  let df := read_csv usecols file in
  let df := recode mappings <$> df in
  let df := run rules <$> df in
  finish renames output_columns <$> df.

End Intercept.

(** ** Location tracking *)

Module Location.
Import Frame FrameOps.

(** [usecols] of the two [read_csv] calls (lines 1949 and 1959). *)
Definition usecols : list string :=
  [ "tripid"; "collected_at"; "accuracy"; "heading"; "speed"; "lat"; "lng" ].

(** The [columns] dictionaries of the two [rename] calls (lines 1990, 1997). *)
Definition points_renames : list (string * string) :=
  [ ("tripid", "trip_id_location");
    ("lat", "latitude");
    ("lng", "longitude") ].

Definition lines_renames : list (string * string) :=
  [ ("tripid", "trip_id_location") ].

(** The columns of the two returned tables, in order (lines 2001, 2010). *)
Definition points_columns : list string :=
  [ "point_id"; "trip_id_location"; "collected_at"; "accuracy"; "heading"; "speed";
    "latitude"; "longitude"; "shape" ].

Definition lines_columns : list string := [ "trip_id_location"; "shape" ].

(** The order of the values of a column: numbers by their size, strings by
    their code points.  A column that [read_csv] reads holds values of one
    kind; between the kinds, numbers come first. *)
Definition number (v : value) : option Q :=
  match v with
  | VInt z => Some (inject_Z z)
  | VNum q => Some q
  | VStr _ => None
  end.

Definition code_points (s : string) : list N := N_of_ascii <$> String.list_ascii_of_string s.

Definition value_le (x y : value) : Prop :=
  match x, y with
  | VStr s, VStr t =>
      code_points s = code_points t ∨ lexico (code_points s) (code_points t)
  | VStr _, _ => False
  | _, VStr _ => True
  | _, _ =>
      match number x, number y with
      | Some p, Some q => Qle_bool p q = true
      | _, _ => False
      end
  end.

#[global] Instance value_le_dec : RelDecision value_le.
Proof.
  intros [z1|s1|q1] [z2|s2|q2]; unfold value_le; simpl; apply _.
Defined.

(** Missing cells come last ([na_position="last"], the default). *)
Definition cell_le (x y : cell) : Prop :=
  match x, y with
  | _, None => True
  | None, Some _ => False
  | Some a, Some b => value_le a b
  end.

#[global] Instance cell_le_dec : RelDecision cell_le.
Proof. intros [a|] [b|]; unfold cell_le; apply _. Defined.

(** The order of the rows by the columns [by]: the first column decides, the
    next one breaks its ties, and so on. *)
Fixpoint row_le (by_ : list string) (r1 r2 : row) : Prop :=
  match by_ with
  | [] => True
  | c :: by_ =>
      cell_le (r1 !! c) (r2 !! c) ∧
      (cell_le (r2 !! c) (r1 !! c) → row_le by_ r1 r2)
  end.

#[global] Instance row_le_dec by_ : RelDecision (row_le by_).
Proof. intros r1 r2. induction by_; simpl; apply _. Defined.

(** A stable sort: [x] goes before the first element that is not below it,
    so it stays before the later elements that tie with it. *)
Fixpoint insert_sorted {A} (le : relation A) `{!RelDecision le} (x : A) (l : list A)
    : list A :=
  match l with
  | [] => [x]
  | y :: l' => if decide (le x y) then x :: l else y :: insert_sorted le x l'
  end.

Definition stable_sort {A} (le : relation A) `{!RelDecision le} (l : list A) : list A :=
  foldr (insert_sorted le) [] l.

(** [df.sort_values(by=...)]: ascending, and with several columns the rows
    that tie keep their order. *)
Definition sort_values (by_ : list string) (df : list row) : list row :=
  stable_sort (row_le by_) df.

(** The groups of [df.groupby(c)] with its defaults: the distinct values of
    the column in ascending order; the rows without a value are in no group. *)
Definition group_keys (c : string) (df : list row) : list value :=
  stable_sort value_le (remove_dups (omap (λ r : row, r !! c) df)).

(** The rows of group [k], in the order of the frame. *)
Definition group_rows (c : string) (k : value) (df : list row) : list row :=
  filter (λ r : row, r !! c = Some k) df.

(** [(lng, lat)] of a row: its entry in [list(zip(points.lng, points.lat))]. *)
Definition coordinates (r : row) : cell * cell := (r !! "lng", r !! "lat").

(** The location fixes of the two extracts (line 1947), sorted (line 1976). *)
Definition points_sorted (sdrts_file at_file : list row) : list row :=
  sort_values ["tripid"; "collected_at"]
    (read_csv usecols sdrts_file ++ read_csv usecols at_file).

(** [points.groupby("tripid")["coordinates"].apply(list)] (line 1978): for
    each trip, the coordinates of its fixes. *)
Definition paths (points : list row) : list (value * list (cell * cell)) :=
  (λ k, (k, coordinates <$> group_rows "tripid" k points))
    <$> group_keys "tripid" points.

(** The [location] property (lines 1929-2012): the table of the points and
    the table of the lines. *)
Definition location `{Geodesy (cell * cell)} (sdrts_file at_file : list row)
    : result (list row * list row) :=
  let points := points_sorted sdrts_file at_file in
  let lines := paths points in
  match Geometry.line_wkt lines.*2 "EPSG:2230" with
  | Raise e => Raise e
  | Ok wkts =>
      let lines :=
        zip_with (λ k (w : option string),
                    set_cell "shape" (VStr <$> w) {["tripid" := k]})
                 lines.*1 wkts in
      let points := assign_column "shape" (shape "lng" "lat" "EPSG:2230" points) points in
      let points := arange "point_id" points in
      Ok (finish points_renames points_columns <$> points,
          finish lines_renames lines_columns <$> lines)
  end.

#[global] Instance result_eq_dec {A} `{EqDecision A} : EqDecision (result A).
Proof. solve_decision. Defined.

(** The coordinates of a row of the returned table of points. *)
Definition point_coordinates (p : row) : cell * cell :=
  (p !! "longitude", p !! "latitude").

End Location.

(** ** Further sample inputs *)

Module Records.

(** A day of the online diary (data source code 2) that starts at home and
    has no end location. *)
Definition online_day : row :=
  list_to_map [("personid", VInt 3); ("data_source", VInt 2); ("num_trips", VInt 2);
               ("loc_start", VInt 1); ("loc_start_other", VStr "garage")].

(** A vehicle whose record holds its two identifiers and nothing else. *)
Definition bare_vehicle : row :=
  list_to_map [("hhid", VInt 3); ("vehnum", VInt 1)].

(** An adult who is not currently employed (employment code 4) and whose
    record still carries an occupation and a work address. *)
Definition job_seeker : row :=
  list_to_map [("personid", VInt 4); ("age", VInt 5); ("employment", VInt 4);
               ("occupation", VInt 55); ("work_address", VStr "1 Main St");
               ("commute_freq", VInt 2)].

(** A trip of the online diary by bus only (mode code 23), reached on foot
    (access code 1), whose origin address holds a bar. *)
Definition bus_trip : row :=
  list_to_map [("tripid", VInt 5); ("data_source", VInt 2); ("mode1", VInt 23);
               ("transit_access", VInt 1); ("transit_egress", VInt 1);
               ("origin_address", VStr "12|34 Elm St"); ("location_tripid", VInt 77)].

(** A household of the online diary group (group code 3) of thirteen
    persons with two vehicles, which prefers English (language code 1) and
    uses no other tool, and whose record still names one. *)
Definition online_household : row :=
  list_to_map [("hhid", VInt 9); ("hhgroup", VInt 3); ("num_rmove_participants", VInt 2);
               ("language_pref", VInt 1); ("tool_other", VInt 0);
               ("tool_other_specify", VStr "atlas"); ("hhsize", VInt 13);
               ("vehicle_count", VInt 2); ("hh_init_wt", VInt 40)].

(** An intercepted traveller whose first work answer is "Not Applicable"
    (3) and whose second is "Yes" (1); the first school answer is the
    undeclared code 7 and the second is "No" (2). *)
Definition passer_by : row :=
  list_to_map [("hhid", VInt 10); ("work_int_1_1", VInt 3); ("work_int_1_2", VInt 1);
               ("school_int_1_1", VInt 7); ("school_int_1_2", VInt 2)].

(** A location fix of trip [tripid]. *)
Definition location_fix (tripid : Z) (collected_at : string) (lng lat : Q) : row :=
  list_to_map [("tripid", VInt tripid); ("collected_at", VStr collected_at);
               ("lng", VNum lng); ("lat", VNum lat)].

(** Four fixes of two trips, out of order; trip 1 comes back to its first
    point. *)
Definition sdrts_fixes : list row :=
  [ location_fix 2 "2016-10-03 08:00:00" (-117) 33;
    location_fix 1 "2016-10-02 09:30:00" (-116) 32;
    location_fix 1 "2016-10-02 09:00:00" (-117) 32 ].
Definition at_fixes : list row :=
  [ location_fix 1 "2016-10-02 10:00:00" (-117) 32 ].

(** The two tables of [location] for these fixes. *)
Definition tracks : list row * list row :=
  match @Location.location Samples.flat sdrts_fixes at_fixes with
  | Ok tables => tables
  | Raise _ => ([], [])
  end.

End Records.

(** * Properties *)

(** ** Facts about the data frame operations *)

Module FrameFacts.
Import Frame FrameOps.

Lemma lookup_set_cell (c c' : string) (x : cell) (df : row) :
  set_cell c x df !! c' = if decide (c = c') then x else df !! c'.
Proof.
  destruct x as [v|]; simpl.
  - by rewrite lookup_insert.
  - by rewrite lookup_delete.
Qed.

Lemma lookup_select (columns : list string) (df : row) (c : string) :
  select columns df !! c = if decide (c ∈ columns) then df !! c else None.
Proof.
  unfold select. rewrite map_lookup_filter.
  destruct (df !! c) as [v|]; simpl; [|by case_decide].
  destruct (decide (c ∈ columns)).
  - by rewrite option_guard_True.
  - by rewrite option_guard_False.
Qed.

Lemma lookup_read_csv_row (usecols : list string) (raw : row) (c : string) :
  c ∉ usecols → filter (λ kv : string * value, kv.1 ∈ usecols) raw !! c = None.
Proof.
  intros Hc. change (select usecols raw !! c = None).
  rewrite lookup_select. by case_decide.
Qed.

Lemma lookup_assign_constants_notin constants (df : row) (c : string) :
  c ∉ constants.*1 → assign_constants constants df !! c = df !! c.
Proof.
  unfold assign_constants. revert df.
  induction constants as [|[c' v] cs IH]; intros df Hc; simpl; [done|].
  rewrite IH by set_solver. rewrite lookup_insert_ne; [done|set_solver].
Qed.


(** *** Recoding *)

Lemma map_cell_Some (m : mapping) (x : cell) (v : value) :
  map_cell m x = Some v → (x, v) ∈ m.
Proof.
  induction m as [|[k w] m IH]; simpl; [done|].
  case_decide; intros ?; simplify_eq; set_solver.
Qed.

Lemma map_cell_is_Some (m : mapping) (x : cell) :
  is_Some (map_cell m x) ↔ x ∈ m.*1.
Proof.
  induction m as [|[k w] m IH]; simpl.
  - split; [by intros [? ?]|by intros ?%elem_of_nil].
  - case_decide; subst.
    + split; [set_solver|by eauto].
    + rewrite IH. set_solver.
Qed.

Lemma recode_field_Some (m : mapping) (x : cell) (v : value) :
  recode_field m x = Some v → v ∈ m.*2.
Proof.
  unfold recode_field, categorical.
  destruct (map_cell m x) as [w|]; [|done].
  case_decide; intros ?; by simplify_eq.
Qed.

Lemma recode_field_is_Some (m : mapping) (x : cell) :
  is_Some (recode_field m x) ↔ x ∈ m.*1.
Proof.
  rewrite <- map_cell_is_Some. unfold recode_field, categorical.
  destruct (map_cell m x) as [w|] eqn:Hw; [|done].
  rewrite decide_True; [done|].
  apply map_cell_Some in Hw. apply list_elem_of_fmap. by exists (x, w).
Qed.

Lemma lookup_recode_notin mappings (df : row) (c : string) :
  c ∉ mappings.*1 → recode mappings df !! c = df !! c.
Proof.
  unfold recode. revert df.
  induction mappings as [|[f m] ms IH]; intros df Hc; simpl; [done|].
  rewrite IH by set_solver. rewrite lookup_set_cell.
  rewrite decide_False; [done|set_solver].
Qed.

Lemma lookup_recode mappings (df : row) (f : string) (m : mapping) :
  NoDup mappings.*1 → (f, m) ∈ mappings →
  recode mappings df !! f = recode_field m (df !! f).
Proof.
  unfold recode. revert df.
  induction mappings as [|[f' m'] ms IH]; intros df Hnd Hin; simpl in *.
  { by apply elem_of_nil in Hin. }
  apply NoDup_cons in Hnd as [Hf' Hnd].
  apply elem_of_cons in Hin as [Heq|Hin].
  - simplify_eq.
    pose proof (lookup_recode_notin ms) as Hr. unfold recode in Hr.
    rewrite Hr by done. rewrite lookup_set_cell. by rewrite decide_True.
  - rewrite IH by done. rewrite lookup_set_cell.
    rewrite decide_False; [done|].
    intros ->. apply Hf'. apply list_elem_of_fmap. by exists (f, m).
Qed.

(** *** The rule passes *)

Lemma lookup_foldr_insert (columns : list string) (v : value) (df : row) (c : string) :
  foldr (λ c acc, <[c:=v]> acc) df columns !! c =
  if decide (c ∈ columns) then Some v else df !! c.
Proof.
  induction columns as [|c' cs IH].
  - case_decide; [by set_solver|done].
  - cbn [foldr]. rewrite lookup_insert, IH.
    repeat case_decide; set_solver.
Qed.

Lemma lookup_apply_step_notin (df : row) (s : step) (c : string) :
  c ∉ targets s → apply_step df s !! c = df !! c.
Proof.
  destruct s as [mask columns v|mask column f]; simpl; intros Hc;
    destruct (mask df); try done.
  - rewrite lookup_foldr_insert. by rewrite decide_False.
  - rewrite lookup_set_cell. rewrite decide_False; [done|set_solver].
Qed.

Lemma lookup_apply_Loc (df : row) mask columns (v : value) (c : string) :
  mask df = true → c ∈ columns →
  apply_step df (Loc mask columns v) !! c = Some v.
Proof.
  intros Hm Hc. simpl. rewrite Hm, lookup_foldr_insert. by rewrite decide_True.
Qed.

Lemma apply_step_mask_false (df : row) mask columns (v : value) :
  mask df = false → apply_step df (Loc mask columns v) = df.
Proof. intros Hm. simpl. by rewrite Hm. Qed.

Lemma run_app (steps1 steps2 : list step) (df : row) :
  run (steps1 ++ steps2) df = run steps2 (run steps1 df).
Proof. unfold run. by rewrite foldl_app. Qed.

Lemma run_take_drop (k : nat) (steps : list step) (df : row) :
  run steps df = run (drop k steps) (run (take k steps) df).
Proof. by rewrite <- run_app, take_drop. Qed.

Lemma lookup_run_untouched (c : string) (steps : list step) (df : row) :
  untouched c steps = true → run steps df !! c = df !! c.
Proof.
  unfold run, untouched. revert df.
  induction steps as [|s steps IH]; intros df Hu; simpl in *; [done|].
  apply andb_true_iff in Hu as [Hs Hu].
  rewrite IH by done. apply lookup_apply_step_notin.
  by apply bool_decide_eq_true in Hs.
Qed.

Lemma lookup_run_writes_only (c : string) (v : value) (steps : list step) (df : row) :
  writes_only c v steps = true → df !! c = Some v → run steps df !! c = Some v.
Proof.
  unfold run, writes_only. revert df.
  induction steps as [|s steps IH]; intros df Hw Hdf; simpl in *; [done|].
  apply andb_true_iff in Hw as [Hs Hw].
  apply IH; [done|].
  destruct s as [mask columns v'|mask column f]; simpl.
  - destruct (mask df); [|done]. rewrite lookup_foldr_insert.
    case_decide; [|done].
    apply orb_true_iff in Hs as [Hs|Hs].
    + by apply bool_decide_eq_true in Hs.
    + apply bool_decide_eq_true in Hs. by subst.
  - apply bool_decide_eq_true in Hs.
    destruct (mask df); [|done]. rewrite lookup_set_cell. by rewrite decide_False.
Qed.

(** The statement at position [k] fires and nothing after it writes another
    value to the column. *)
Lemma run_hit (k : nat) (steps : list step) (df : row) mask columns
    (v : value) (c : string) :
  steps !! k = Some (Loc mask columns v) →
  c ∈ columns →
  writes_only c v (drop (S k) steps) = true →
  mask (run (take k steps) df) = true →
  run steps df !! c = Some v.
Proof.
  intros Hk Hc Hw Hm.
  rewrite <- (take_drop_middle steps k _ Hk).
  rewrite run_app. change (run (?s :: ?l) ?d) with (run l (apply_step d s)).
  apply lookup_run_writes_only; [done|]. by apply lookup_apply_Loc.
Qed.

Lemma apply_step_skip (df : row) (s : step) :
  step_mask s df = false → apply_step df s = df.
Proof. destruct s; simpl; by intros ->. Qed.

Lemma run_skip (k : nat) (steps : list step) (df : row) (s : step) :
  steps !! k = Some s →
  step_mask s (run (take k steps) df) = false →
  run (take (S k) steps) df = run (take k steps) df.
Proof.
  intros Hk Hm. rewrite (take_S_r _ _ _ Hk), run_app.
  change (run [?s] ?d) with (apply_step d s). by apply apply_step_skip.
Qed.

Lemma run_last (k : nat) (steps : list step) (df : row) (s : step) :
  steps !! k = Some s → length steps = S k →
  run steps df = apply_step (run (take k steps) df) s.
Proof.
  intros Hk Hlen. rewrite <- (firstn_all steps) at 1. rewrite Hlen.
  by rewrite (take_S_r _ _ _ Hk), run_app.
Qed.

Lemma lookup_run_writes_within (c : string) (vs : list value) (steps : list step)
    (df : row) :
  writes_within c vs steps = true →
  run steps df !! c = df !! c ∨ ∃ v, v ∈ vs ∧ run steps df !! c = Some v.
Proof.
  unfold run, writes_within. revert df.
  induction steps as [|s steps IH] using rev_ind; intros df Hw; [by left|].
  rewrite forallb_app in Hw. apply andb_true_iff in Hw as [Hw Hs].
  simpl in Hs. rewrite andb_true_r in Hs.
  rewrite foldl_app. simpl.
  destruct s as [mask columns v|mask column f]; simpl.
  - destruct (mask _); [|by apply IH]. rewrite lookup_foldr_insert.
    case_decide as Hc; [|by apply IH].
    apply orb_true_iff in Hs as [Hs|Hs]; apply bool_decide_eq_true in Hs; [done|].
    right. by exists v.
  - apply bool_decide_eq_true in Hs.
    destruct (mask _); [|by apply IH].
    rewrite lookup_set_cell, decide_False by done. by apply IH.
Qed.

Lemma lookup_recode_labels mappings (df : row) (c : string) (v : value) :
  c ∈ mappings.*1 → recode mappings df !! c = Some v → v ∈ labels_of mappings c.
Proof.
  unfold recode, labels_of. revert df.
  induction mappings as [|[f m] ms IH] using rev_ind; intros df Hc Hv.
  { by apply elem_of_nil in Hc. }
  rewrite foldl_app in Hv. simpl in Hv. rewrite lookup_set_cell in Hv.
  rewrite bind_app. apply elem_of_app. case_decide as Hf; simpl in *.
  - right. subst f. rewrite decide_True by done. rewrite app_nil_r.
    by apply recode_field_Some in Hv.
  - left. apply (IH df); [|done].
    rewrite fmap_app in Hc. apply elem_of_app in Hc as [Hc|Hc]; [done|].
    apply list_elem_of_singleton in Hc. by simplify_eq/=.
Qed.

Lemma isin_range (n : Z) :
  isin (Some (VInt n)) (VInt <$> seqZ 1 10) = bool_decide (1 ≤ n ≤ 10).
Proof.
  unfold isin. apply bool_decide_ext. rewrite list_elem_of_fmap. split.
  - intros (z & ? & Hz%elem_of_seqZ). simplify_eq. lia.
  - intros Hn. exists n. split; [done|]. apply elem_of_seqZ. lia.
Qed.

Lemma isin_subset (x : cell) (l1 l2 : list value) :
  Forall (λ v, v ∈ l2) l1 → isin x l2 = false → isin x l1 = false.
Proof.
  destruct x as [v|]; [|done]. simpl. rewrite Forall_forall.
  intros Hsub Hv%bool_decide_eq_false. apply bool_decide_eq_false. naive_solver.
Qed.

(** Goals that evaluation decides. *)
Ltac by_compute := vm_compute; reflexivity.

(** [fire k]: the goal [run steps df !! c = Some v] holds because the
    statement at position [k] writes [v] to [c] and no later statement writes
    anything else there; what remains is the statement's mask. *)
Ltac fire k :=
  eapply (run_hit k);
  [reflexivity | compute_done | by_compute | cbv beta].

(** *** Renaming and selecting *)

Lemma lookup_rename_new columns (df : row) (old new : string) :
  NoDup columns.*2 → (old, new) ∈ columns → rename columns df !! new = df !! old.
Proof.
  unfold rename.
  generalize (filter (λ kv : string * value, kv.1 ∉ columns.*1) df) as base.
  induction columns as [|[o n] cs IH]; intros base Hnd Hin; simpl in *.
  { by apply elem_of_nil in Hin. }
  apply NoDup_cons in Hnd as [Hn Hnd]. rewrite lookup_set_cell.
  apply elem_of_cons in Hin as [Heq|Hin].
  - simplify_eq. by rewrite decide_True.
  - rewrite decide_False; [by apply IH|].
    intros ->. apply Hn. apply list_elem_of_fmap. by exists (old, new).
Qed.

Lemma lookup_rename_same columns (df : row) (c : string) :
  c ∉ columns.*1 → c ∉ columns.*2 → rename columns df !! c = df !! c.
Proof.
  intros Hold Hnew. unfold rename.
  assert (∀ l (base : row), c ∉ l.*2 →
    foldr (λ on acc, set_cell on.2 (df !! on.1) acc) base l !! c = base !! c) as Hf.
  { induction l as [|[o n] l IH]; intros base Hl; simpl; [done|].
    rewrite lookup_set_cell. rewrite decide_False by set_solver.
    apply IH. set_solver. }
  rewrite Hf by done. rewrite map_lookup_filter.
  destruct (df !! c) as [v|]; simpl; [|done]. by rewrite option_guard_True.
Qed.

Lemma lookup_finish_renamed renames output_columns (df : row) (old new : string) :
  NoDup renames.*2 → (old, new) ∈ renames → new ∈ output_columns →
  finish renames output_columns df !! new = df !! old.
Proof.
  intros. unfold finish. rewrite lookup_select, decide_True by done.
  by apply lookup_rename_new.
Qed.

Lemma lookup_finish_kept renames output_columns (df : row) (c : string) :
  c ∉ renames.*1 → c ∉ renames.*2 → c ∈ output_columns →
  finish renames output_columns df !! c = df !! c.
Proof.
  intros. unfold finish. rewrite lookup_select, decide_True by done.
  by apply lookup_rename_same.
Qed.

(** *** Whole tables *)

Lemma elem_of_arange (name : string) (df : list row) (out : row) :
  out ∈ arange name df ↔
  ∃ i r, df !! i = Some r ∧ out = <[name := VInt (Z.of_nat i)]> r.
Proof.
  unfold arange. rewrite elem_of_lookup_imap. naive_solver.
Qed.

Lemma elem_of_assign_column (name : string) (values : list cell) (df : list row)
    (out : row) :
  out ∈ assign_column name values df →
  ∃ x r, r ∈ df ∧ out = set_cell name x r.
Proof.
  unfold assign_column. intros (x & r & -> & _ & Hr)%elem_of_zip_with. eauto.
Qed.

Lemma lookup_assign_column (name : string) (values : list cell) (df : list row)
    (i : nat) (out : row) :
  assign_column name values df !! i = Some out →
  ∃ r, df !! i = Some r ∧ ∀ c, c ≠ name → out !! c = r !! c.
Proof.
  unfold assign_column. intros (x & r & -> & _ & Hr)%lookup_zip_with_Some.
  exists r. split; [done|]. intros c Hc.
  rewrite lookup_set_cell. by rewrite decide_False.
Qed.

Lemma lookup_apply_Derive (df : row) mask column f (c : string) :
  apply_step df (Derive mask column f) !! c =
  if mask df && bool_decide (column = c) then f df else df !! c.
Proof.
  simpl. destruct (mask df); simpl; [|done].
  rewrite lookup_set_cell. by rewrite decide_bool_decide.
Qed.

End FrameFacts.

(** ** Geometry *)

Module GeometryFacts.
Import Geometry.
Section geometry.
Context {C : Type} `{EqDecision C} `{Geodesy C}.
Implicit Types (line points : list C) (x y : C).

Lemma keep_first_occurrences_filter (P : C → Prop) `{!∀ x, Decision (P x)} line :
  keep_first_occurrences (filter P line) = filter P (keep_first_occurrences line).
Proof.
  induction line as [|x line IH]; [done|].
  destruct (decide (P x)) as [HP|HP].
  - rewrite filter_cons_True by done. simpl.
    rewrite filter_cons_True by done. f_equal.
    rewrite IH, !list_filter_filter. apply list_filter_iff. naive_solver.
  - rewrite filter_cons_False by done. simpl.
    rewrite filter_cons_False by done.
    rewrite IH, list_filter_filter. apply list_filter_iff. naive_solver.
Qed.

(** The loop started from the accumulator [points] appends the first
    occurrences of the values that are not yet in it. *)
Lemma foldl_unique points line :
  foldl (λ points x, if decide (x ∈ points) then points else points ++ [x])
        points line
  = points ++ keep_first_occurrences (filter (λ x, x ∉ points) line).
Proof.
  revert points. induction line as [|x line IH]; intros points; simpl.
  - by rewrite app_nil_r.
  - rewrite IH. case_decide as Hx.
    + by rewrite filter_cons_False by (by intros []).
    + rewrite filter_cons_True by done. simpl. rewrite <- app_assoc. simpl.
      do 2 f_equal. rewrite <- keep_first_occurrences_filter. f_equal.
      rewrite list_filter_filter. apply list_filter_iff.
      intros y. rewrite elem_of_app, list_elem_of_singleton. naive_solver.
Qed.

Lemma unique_points_keep_first line :
  unique_points line = keep_first_occurrences line.
Proof.
  unfold unique_points. rewrite foldl_unique. simpl. f_equal.
  induction line as [|x line IH]; [done|].
  rewrite filter_cons_True by apply not_elem_of_nil. by f_equal.
Qed.

Lemma keep_first_occurrences_nil line :
  keep_first_occurrences line = [] → line = [].
Proof. by destruct line. Qed.

Lemma line_wkt_one_encode_line crs line :
  line_wkt_one crs line = Ok (encode_line line crs).
Proof.
  unfold line_wkt_one, encode_line, checked_text.
  rewrite unique_points_keep_first.
  destruct line as [|x line]; [done|].
  rewrite decide_True by (simpl; lia).
  destruct (keep_first_occurrences (x :: line)) as [|y [|z points]] eqn:Hk.
  - by apply keep_first_occurrences_nil in Hk.
  - rewrite decide_False by (simpl; lia). by destruct (is_valid _).
  - rewrite decide_True by (simpl; lia). by destruct (is_valid _).
Qed.


End geometry.
End GeometryFacts.

(** ** Person days *)

Module DayFacts.
Import Frame FrameOps FrameFacts Day.

(** Every row of the returned table is the renamed, keyed result of the rule
    pass on a recoded row. *)
Lemma day_row_inv (sdrts_file at_file : list row) (out : row) :
  out ∈ day sdrts_file at_file →
  ∃ (i : nat) (raw : row),
    out = finish renames output_columns
            (<["day_id" := VInt (Z.of_nat i)]> (run rules (recode mappings raw))).
Proof.
  unfold day, day_frame.
  intros (keyed & -> & Hin)%list_elem_of_fmap.
  apply elem_of_arange in Hin as (i & r & Hr & ->).
  apply list_elem_of_lookup_2 in Hr.
  apply list_elem_of_fmap in Hr as (s0 & -> & Hs0).
  apply list_elem_of_fmap in Hs0 as (raw & -> & _).
  by exists i, raw.
Qed.

Lemma num_gt_not_eq (x : cell) : num_gt x 0 = true → num_eq x 0 = false.
Proof.
  destruct x as [[z|s|q]|]; simpl; try done.
  - intros Hz%bool_decide_eq_true. apply bool_decide_eq_false. lia.
  - intros Hq%negb_true_iff. apply not_true_iff_false.
    intros Heq%Qeq_bool_iff. apply not_true_iff_false in Hq. apply Hq.
    apply Qle_bool_iff. rewrite Heq. apply Qle_refl.
Qed.

Lemma num_eq_not_gt (x : cell) : num_eq x 0 = true → num_gt x 0 = false.
Proof.
  intros Heq. destruct (num_gt x 0) eqn:Hgt; [|done].
  apply num_gt_not_eq in Hgt. congruence.
Qed.

Lemma lookup_number_trips (i : Z) (df : row) :
  finish renames output_columns (<["day_id" := VInt i]> (run rules df))
    !! "number_trips" = df !! "num_trips".
Proof.
  rewrite (lookup_finish_renamed _ _ _ "num_trips") by compute_done.
  rewrite lookup_insert_ne by done.
  by apply lookup_run_untouched.
Qed.

Lemma lookup_made_trips (i : Z) (df : row) :
  finish renames output_columns (<["day_id" := VInt i]> (run rules df))
    !! "made_trips" = run rules df !! "trips_yesno".
Proof.
  rewrite (lookup_finish_renamed _ _ _ "trips_yesno") by compute_done.
  by rewrite lookup_insert_ne.
Qed.

(** The state of [trips_yesno] after the two statements of lines 670-671. *)
Lemma trips_yesno_after_rules (df : row) :
  run rules df !! "trips_yesno" =
  if num_gt (df !! "num_trips") 0 then Some (VStr "Yes")
  else if num_eq (df !! "num_trips") 0 then Some (VStr "No")
  else df !! "trips_yesno".
Proof.
  rewrite (run_take_drop 2).
  rewrite lookup_run_untouched by done.
  change (run (take 2 rules) df) with
    (apply_step (apply_step df (Loc (λ df, num_gt (df !! "num_trips") 0)
                                     ["trips_yesno"] (VStr "Yes")))
                (Loc (λ df, num_eq (df !! "num_trips") 0)
                     ["trips_yesno"] (VStr "No"))).
  destruct (num_gt (df !! "num_trips") 0) eqn:Hgt.
  - rewrite apply_step_mask_false.
    + by apply lookup_apply_Loc; [|set_solver].
    + rewrite lookup_apply_step_notin by set_solver.
      by apply num_gt_not_eq.
  - rewrite (apply_step_mask_false df) by done.
    destruct (num_eq (df !! "num_trips") 0) eqn:Heq.
    + by apply lookup_apply_Loc; [|set_solver].
    + by rewrite apply_step_mask_false.
Qed.

(** C6: in every row of the day table, [made_trips] is "Yes" when
    [number_trips] is positive and "No" when it is zero, whatever answer the
    source data reported. *)
Theorem made_trips_follows_number_trips (sdrts_file at_file : list row) (out : row) :
  out ∈ day sdrts_file at_file →
  (num_gt (out !! "number_trips") 0 = true →
   out !! "made_trips" = Some (VStr "Yes")) ∧
  (num_eq (out !! "number_trips") 0 = true →
   out !! "made_trips" = Some (VStr "No")).
Proof.
  intros (i & raw & ->)%day_row_inv.
  rewrite lookup_number_trips, lookup_made_trips, trips_yesno_after_rules.
  split; intros Hn.
  - by rewrite Hn.
  - by rewrite (num_eq_not_gt _ Hn), Hn.
Qed.

Lemma made_trips_follows_number_trips_witness :
  let df := day [Samples.day_with_trips] [Samples.day_without_trips] in
  Samples.nth_row 0 df !! "made_trips" = Some (VStr "Yes") ∧
  Samples.nth_row 1 df !! "made_trips" = Some (VStr "No").
Proof.
  intros df. split.
  - apply (made_trips_follows_number_trips
             [Samples.day_with_trips] [Samples.day_without_trips]);
      [compute_done|by vm_compute].
  - apply (made_trips_follows_number_trips
             [Samples.day_with_trips] [Samples.day_without_trips]);
      [compute_done|by vm_compute].
Defined.

End DayFacts.

(** ** Persons *)

Module PersonsFacts.
Import Frame FrameOps FrameFacts Persons.
Section persons.
Context `{Geodesy (cell * cell)}.

(** Row [i] of the returned table is row [i] of the recoded frame after the
    rule pass, renamed; the geometry columns come on top. *)
Lemma persons_lookup_inv (sdrts_file at_file : list row) (i : nat) (out : row) :
  persons sdrts_file at_file !! i = Some out →
  ∃ s0 df,
    persons_recoded sdrts_file at_file !! i = Some s0 ∧
    (∀ c, c ∉ shape_columns → df !! c = run rules s0 !! c) ∧
    out = finish renames output_columns df.
Proof.
  unfold persons, persons_frame.
  intros (df5 & -> & H5)%list_lookup_fmap_Some.
  apply lookup_assign_column in H5 as (df4 & H4 & E5).
  apply lookup_assign_column in H4 as (df3 & H3 & E4).
  apply lookup_assign_column in H3 as (df2 & H2 & E3).
  apply lookup_assign_column in H2 as (df1 & H1 & E2).
  apply lookup_assign_column in H1 as (df0 & H0 & E1).
  apply list_lookup_fmap_Some in H0 as (s0 & -> & Hs0).
  exists s0, df5. split; [done|]. split; [|done].
  intros c Hc. unfold shape_columns in Hc.
  repeat (apply not_elem_of_cons in Hc as [? Hc]).
  by rewrite E5, E4, E3, E2, E1.
Qed.

(** A column of the returned table that [rename] moved. *)
Lemma lookup_person_renamed (df s : row) (old new : string) :
  (∀ c, c ∉ shape_columns → df !! c = s !! c) →
  bool_decide ((old, new) ∈ renames ∧ new ∈ output_columns ∧ old ∉ shape_columns) = true →
  finish renames output_columns df !! new = s !! old.
Proof.
  intros Hdf (Hr & Ho & Hs)%bool_decide_eq_true.
  rewrite (lookup_finish_renamed _ _ _ old) by (done || compute_done).
  by apply Hdf.
Qed.

(** A column of the returned table that kept its name. *)
Lemma lookup_person_kept (df s : row) (c : string) :
  (∀ c, c ∉ shape_columns → df !! c = s !! c) →
  bool_decide ((c ∉ renames.*1) ∧ (c ∉ renames.*2) ∧ c ∈ output_columns ∧
               c ∉ shape_columns) = true →
  finish renames output_columns df !! c = s !! c.
Proof.
  intros Hdf (Hr1 & Hr2 & Ho & Hs)%bool_decide_eq_true.
  rewrite lookup_finish_kept by done. by apply Hdf.
Qed.

(** C7: a person under 16 has employment status "Not Applicable" in the
    returned table; the age rule of line 2815 sets it and no later statement
    writes to the column. *)
Theorem children_employment_not_applicable (sdrts_file at_file : list row)
    (out : row) :
  out ∈ persons sdrts_file at_file →
  (out !! "age_category" = Some (VStr "Under 5 years old") ∨
   out !! "age_category" = Some (VStr "5-15 years")) →
  out !! "employment_status" = Some (VStr "Not Applicable").
Proof.
  intros (i & Hi)%list_elem_of_lookup_1.
  apply persons_lookup_inv in Hi as (s0 & df & _ & Hdf & ->).
  rewrite (lookup_person_renamed df (run rules s0) "age") by done.
  rewrite (lookup_person_renamed df (run rules s0) "employment") by done.
  rewrite lookup_run_untouched by by_compute. intros Hage.
  fire 0%nat.
  change (run (take 0 rules) s0) with s0.
  by destruct Hage as [-> | ->].
Qed.

(** The military rule of line 2937 is statement 12 of the pass and the
    commute rule of line 2966 is statement 15: the military rule runs first. *)
Lemma rule_positions (df : row) :
  (λ s, (step_mask s df, targets s)) <$> rules !! 12%nat =
    Some (isin (df !! "military") active_duty,
          [ "job_type"; "occupation"; "industry"; "hours_work"; "commute_freq";
            "commute_mode"; "work_flex"; "work_park_pay"; "work_park_cost_dk";
            "work_park_ease"; "telecommute_freq"; "commute_subsidy_none";
            "commute_subsidy_parking"; "commute_subsidy_transit";
            "commute_subsidy_vanpool"; "commute_subsidy_cash";
            "commute_subsidy_other"; "commute_subsidy_specify" ]) ∧
  (λ s, (step_mask s df, targets s)) <$> rules !! 15%nat =
    Some (isin (df !! "commute_freq") [VStr "Never"; VStr "Not Applicable"],
          [ "commute_mode"; "work_flex"; "work_park_pay"; "work_park_cost_dk";
            "work_park_ease"; "commute_subsidy_none"; "commute_subsidy_parking";
            "commute_subsidy_transit"; "commute_subsidy_vanpool";
            "commute_subsidy_cash"; "commute_subsidy_other";
            "commute_subsidy_specify" ]).
Proof. by split. Qed.

(** When neither the age rule (line 2815) nor the employment rule (line
    2864) fires, [military] still holds its recoded value when the military
    rule runs, and keeps it to the end. *)
Lemma military_unchanged (s0 : row) :
  isin (s0 !! "age") [VStr "Under 5 years old"; VStr "5-15 years"] = false →
  eq_lit (run (take 3 rules) s0 !! "employment") (VStr "Not currently employed")
    = false →
  run (take 12 rules) s0 !! "military" = s0 !! "military" ∧
  run rules s0 !! "military" = s0 !! "military".
Proof.
  intros Hage Hemp.
  assert (run (take 4 rules) s0 !! "military" = s0 !! "military") as H4.
  { rewrite (run_skip 3 rules s0 _ eq_refl) by done.
    rewrite (run_take_drop 1 (take 3 rules)).
    rewrite lookup_run_untouched by by_compute.
    change (take 1 (take 3 rules)) with (take 1 rules).
    by rewrite (run_skip 0 rules s0 _ eq_refl) by done. }
  split.
  - rewrite (run_take_drop 4 (take 12 rules)).
    rewrite lookup_run_untouched by by_compute.
    by change (take 4 (take 12 rules)) with (take 4 rules).
  - rewrite (run_take_drop 4 rules).
    by rewrite lookup_run_untouched by by_compute.
Qed.

(** In every case [military] is only ever overwritten with "Not Applicable",
    so an active-duty label in the returned table was there after the
    recode. *)
Lemma active_duty_final_recoded (s0 : row) :
  isin (run rules s0 !! "military") active_duty = true →
  isin (s0 !! "military") active_duty = true.
Proof.
  intros Hfinal.
  destruct (isin (s0 !! "age") [VStr "Under 5 years old"; VStr "5-15 years"])
    eqn:Hage.
  { assert (run rules s0 !! "military" = Some (VStr "Not Applicable")) as Hna.
    { fire 0%nat. by change (run (take 0 rules) s0) with s0. }
    by rewrite Hna in Hfinal. }
  destruct (eq_lit (run (take 3 rules) s0 !! "employment")
              (VStr "Not currently employed")) eqn:Hemp.
  { assert (run rules s0 !! "military" = Some (VStr "Not Applicable")) as Hna.
    { by fire 3%nat. }
    by rewrite Hna in Hfinal. }
  by rewrite <- (proj2 (military_unchanged s0 Hage Hemp)).
Qed.

(** A row whose recoded military status is active duty has every civilian
    employment column at "Not Applicable" from the military rule on: in the
    prefix of the pass that ends before statement [n], for every [n] past the
    military rule, and so at the end. *)
Lemma active_duty_columns (s0 : row) (c : string) (n : nat) :
  isin (s0 !! "military") active_duty = true →
  c ∈ civilian_employment_columns →
  n ∈ [15; length rules]%nat →
  run (take n rules) s0 !! c = Some (VStr "Not Applicable").
Proof.
  intros Hmil Hc Hn.
  destruct (isin (s0 !! "age") [VStr "Under 5 years old"; VStr "5-15 years"])
    eqn:Hage.
  { repeat (apply elem_of_cons in Hn as [->|Hn]); [..|by apply elem_of_nil in Hn];
    repeat (apply elem_of_cons in Hc as [->|Hc]); try (by apply elem_of_nil in Hc);
    (fire 0%nat; exact Hage). }
  destruct (eq_lit (run (take 3 rules) s0 !! "employment")
              (VStr "Not currently employed")) eqn:Hemp.
  { repeat (apply elem_of_cons in Hn as [->|Hn]); [..|by apply elem_of_nil in Hn];
    repeat (apply elem_of_cons in Hc as [->|Hc]); try (by apply elem_of_nil in Hc);
    (fire 3%nat; exact Hemp). }
  pose proof (proj1 (military_unchanged s0 Hage Hemp)) as H12.
  repeat (apply elem_of_cons in Hn as [->|Hn]); [..|by apply elem_of_nil in Hn];
  repeat (apply elem_of_cons in Hc as [->|Hc]); try (by apply elem_of_nil in Hc);
  (fire 12%nat;
   match goal with
   | |- context [run ?p s0] => change (run p s0) with (run (take 12 rules) s0)
   end;
   by rewrite H12).
Qed.

(** C8: a person whose military status is active duty, read after the
    recode or in the returned table, has the civilian employment fields at
    "Not Applicable" in the returned table; and when the commute rule of line
    2966 runs, after the military rule, [commute_freq] is already "Not
    Applicable", so that rule fires and assigns the same label. *)
Theorem active_duty_blanks_civilian_employment (sdrts_file at_file : list row)
    (i : nat) (s0 out : row) :
  persons_recoded sdrts_file at_file !! i = Some s0 →
  persons sdrts_file at_file !! i = Some out →
  (isin (s0 !! "military") active_duty = true ∨
   isin (out !! "military_status") active_duty = true) →
  Forall (λ c, out !! c = Some (VStr "Not Applicable")) civilian_employment_fields ∧
  run rules_before_commute_rule s0 !! "commute_freq" = Some (VStr "Not Applicable") ∧
  isin (run rules_before_commute_rule s0 !! "commute_freq")
       [VStr "Never"; VStr "Not Applicable"] = true.
Proof.
  intros Hs0 Hout Hmil.
  apply persons_lookup_inv in Hout as (s0' & df & Hs0' & Hdf & ->).
  assert (s0' = s0) as -> by congruence.
  assert (isin (s0 !! "military") active_duty = true) as Hrec.
  { destruct Hmil as [Hmil|Hmil]; [done|].
    rewrite (lookup_person_renamed df (run rules s0) "military") in Hmil by done.
    by apply active_duty_final_recoded. }
  assert (∀ c, c ∈ civilian_employment_columns →
               run rules s0 !! c = Some (VStr "Not Applicable")) as Hend.
  { intros c Hc.
    rewrite <- (firstn_all rules).
    apply active_duty_columns; [done..|compute_done]. }
  assert (run rules_before_commute_rule s0 !! "commute_freq"
          = Some (VStr "Not Applicable")) as Hcommute.
  { apply active_duty_columns; [done|compute_done..]. }
  split; [|split; [done|by rewrite Hcommute]].
  unfold civilian_employment_fields. repeat apply Forall_cons_2; [..|done].
  all: first
    [ rewrite (lookup_person_kept df (run rules s0)) by done
    | rewrite (lookup_person_renamed df (run rules s0) "hours_work") by done
    | rewrite (lookup_person_renamed df (run rules s0) "commute_freq") by done
    | rewrite (lookup_person_renamed df (run rules s0) "work_park_pay") by done
    | rewrite (lookup_person_renamed df (run rules s0) "work_park_cost_dk") by done
    | rewrite (lookup_person_renamed df (run rules s0) "work_park_ease") by done
    | rewrite (lookup_person_renamed df (run rules s0) "telecommute_freq") by done ];
    apply Hend; compute_done.
Qed.

End persons.

Lemma children_employment_not_applicable_witness :
  Samples.nth_row 0 (@persons Samples.flat [Samples.child] [])
    !! "employment_status" = Some (VStr "Not Applicable").
Proof.
  apply (@children_employment_not_applicable Samples.flat [Samples.child] []).
  - compute_done.
  - left. by_compute.
Defined.

Lemma active_duty_blanks_civilian_employment_witness :
  Forall (λ c, Samples.nth_row 0 (@persons Samples.flat [Samples.service_member] [])
                 !! c = Some (VStr "Not Applicable"))
         civilian_employment_fields.
Proof.
  apply (@active_duty_blanks_civilian_employment Samples.flat
           [Samples.service_member] [] 0
           (Samples.nth_row 0 (persons_recoded [Samples.service_member] []))).
  - compute_done.
  - compute_done.
  - left. by_compute.
Defined.

End PersonsFacts.

(** ** Trips *)

Module TripsFacts.
Import Frame FrameOps FrameFacts Trips.
Section trips.
Context `{Geodesy (cell * cell)}.

(** The weight columns are not read from the extracts. *)
Lemma trips_recoded_unweighted (sdrts_file at_file : list row) (s0 : row) (c : string) :
  s0 ∈ trips_recoded sdrts_file at_file →
  c ∈ ["weight_trip"; "weight_person_trip"] →
  s0 !! c = None.
Proof.
  unfold trips_recoded. intros (r & -> & Hr)%list_elem_of_fmap Hc.
  assert ((c ∉ mappings.*1) ∧ (c ∉ sdrts_usecols) ∧ (c ∉ at_usecols) ∧
          (c ∉ at_constants.*1) ∧ c ≠ "location_tripid") as (Hm & Hs & Ha & Hk & Hl).
  { repeat (apply elem_of_cons in Hc as [->|Hc]); [compute_done..|].
    by apply elem_of_nil in Hc. }
  rewrite lookup_recode_notin by done.
  apply elem_of_app in Hr as [Hr|Hr].
  - apply list_elem_of_fmap in Hr as (raw & -> & _). by apply lookup_read_csv_row.
  - apply list_elem_of_fmap in Hr as (r' & -> & Hr).
    apply list_elem_of_fmap in Hr as (raw & -> & _).
    unfold at_fill. rewrite lookup_assign_constants_notin by done.
    rewrite lookup_set_cell, decide_False by done.
    by apply lookup_read_csv_row.
Qed.

(** Every row of the returned table is a recoded row after the rule pass,
    renamed; the geometry columns come on top. *)
Lemma trips_row_inv (sdrts_file at_file : list row) (out : row) :
  out ∈ trips sdrts_file at_file →
  ∃ s0 df,
    s0 ∈ trips_recoded sdrts_file at_file ∧
    (∀ c, c ∉ shape_columns → df !! c = run rules s0 !! c) ∧
    out = finish renames output_columns df.
Proof.
  unfold trips, trips_frame. intros (i & Hi)%list_elem_of_lookup_1.
  apply list_lookup_fmap_Some in Hi as (df2 & -> & H2).
  apply lookup_assign_column in H2 as (df1 & H1 & E2).
  apply lookup_assign_column in H1 as (df0 & H0 & E1).
  apply list_lookup_fmap_Some in H0 as (s0 & -> & Hs0).
  exists s0, df2. split; [by eapply list_elem_of_lookup_2|]. split; [|done].
  intros c Hc. unfold shape_columns in Hc.
  repeat (apply not_elem_of_cons in Hc as [? Hc]).
  by rewrite E2, E1.
Qed.

Lemma lookup_trip_renamed (df s : row) (old new : string) :
  (∀ c, c ∉ shape_columns → df !! c = s !! c) →
  bool_decide ((old, new) ∈ renames ∧ new ∈ output_columns ∧ old ∉ shape_columns) = true →
  finish renames output_columns df !! new = s !! old.
Proof.
  intros Hdf (Hr & Ho & Hs)%bool_decide_eq_true.
  rewrite (lookup_finish_renamed _ _ _ old) by (done || compute_done).
  by apply Hdf.
Qed.

Lemma lookup_trip_kept (df s : row) (c : string) :
  (∀ c, c ∉ shape_columns → df !! c = s !! c) →
  bool_decide ((c ∉ renames.*1) ∧ (c ∉ renames.*2) ∧ c ∈ output_columns ∧
               c ∉ shape_columns) = true →
  finish renames output_columns df !! c = s !! c.
Proof.
  intros Hdf (Hr1 & Hr2 & Ho & Hs)%bool_decide_eq_true.
  rewrite lookup_finish_kept by done. by apply Hdf.
Qed.

(** The mode columns of the returned table hold the recoded modes: no
    statement writes to them. *)
Lemma no_mode_in_recoded (df s0 : row) (modes : list value) :
  (∀ c, c ∉ shape_columns → df !! c = run rules s0 !! c) →
  no_mode_in modes (finish renames output_columns df) →
  isin (s0 !! "mode1") modes = false ∧ isin (s0 !! "mode2") modes = false ∧
  isin (s0 !! "mode3") modes = false ∧ isin (s0 !! "mode4") modes = false.
Proof.
  intros Hdf Hmodes. unfold no_mode_in, mode_columns in Hmodes.
  rewrite !Forall_cons in Hmodes. destruct Hmodes as (H1 & H2 & H3 & H4 & _).
  rewrite (lookup_trip_renamed df (run rules s0) "mode1") in H1 by done.
  rewrite (lookup_trip_renamed df (run rules s0) "mode2") in H2 by done.
  rewrite (lookup_trip_renamed df (run rules s0) "mode3") in H3 by done.
  rewrite (lookup_trip_renamed df (run rules s0) "mode4") in H4 by done.
  rewrite lookup_run_untouched in H1, H2, H3, H4 by by_compute.
  done.
Qed.

(** The mask "no mode is in [modes]" at any point of the pass. *)
Lemma no_mode_mask (steps : list step) (s0 : row) (modes : list value) :
  untouched "mode1" steps && untouched "mode2" steps &&
  untouched "mode3" steps && untouched "mode4" steps = true →
  isin (s0 !! "mode1") modes = false ∧ isin (s0 !! "mode2") modes = false ∧
  isin (s0 !! "mode3") modes = false ∧ isin (s0 !! "mode4") modes = false →
  negb (isin (run steps s0 !! "mode1") modes) &&
  negb (isin (run steps s0 !! "mode2") modes) &&
  negb (isin (run steps s0 !! "mode3") modes) &&
  negb (isin (run steps s0 !! "mode4") modes) = true.
Proof.
  intros Hu (H1 & H2 & H3 & H4).
  repeat (apply andb_true_iff in Hu as [Hu ?]).
  rewrite !lookup_run_untouched by done. by rewrite H1, H2, H3, H4.
Qed.

(** C3: a trip none of whose modes is an auto mode has the toll, driver and
    parking location fields at "Not Applicable". *)
Theorem non_auto_trip_fields_not_applicable (sdrts_file at_file : list row)
    (out : row) :
  out ∈ trips sdrts_file at_file →
  no_mode_in auto_modes out →
  out !! "toll_road" = Some (VStr "Not Applicable") ∧
  out !! "toll_road_express" = Some (VStr "Not Applicable") ∧
  out !! "driver" = Some (VStr "Not Applicable") ∧
  out !! "parking_location" = Some (VStr "Not Applicable").
Proof.
  intros (s0 & df & _ & Hdf & ->)%trips_row_inv Hmodes.
  apply (no_mode_in_recoded df s0) in Hmodes; [|done].
  assert (isin (s0 !! "mode1") auto_nontaxi_modes = false ∧
          isin (s0 !! "mode2") auto_nontaxi_modes = false ∧
          isin (s0 !! "mode3") auto_nontaxi_modes = false ∧
          isin (s0 !! "mode4") auto_nontaxi_modes = false) as Hnontaxi.
  { destruct Hmodes as (H1 & H2 & H3 & H4).
    repeat split; (eapply isin_subset; [|eassumption]); compute_done. }
  rewrite (lookup_trip_renamed df (run rules s0) "toll_no") by done.
  rewrite (lookup_trip_renamed df (run rules s0) "toll_express") by done.
  rewrite (lookup_trip_kept df (run rules s0) "driver") by done.
  rewrite (lookup_trip_renamed df (run rules s0) "parklocation") by done.
  repeat split.
  - fire 13%nat. by apply no_mode_mask; [by_compute|].
  - fire 13%nat. by apply no_mode_mask; [by_compute|].
  - fire 14%nat. by apply no_mode_mask; [by_compute|].
  - fire 14%nat. by apply no_mode_mask; [by_compute|].
Qed.

(** The pay type of a taxi trip is never an airfare label: the column holds a
    label of its own mapping or "Not Applicable". *)
Lemma taxitype_not_airfare (sdrts_file at_file : list row) (s0 : row) :
  s0 ∈ trips_recoded sdrts_file at_file →
  isin (run (take 21 rules) s0 !! "taxitype")
       [VStr "Personally paid the airfare cost"; VStr "Employer paid 100%"] = false.
Proof.
  unfold trips_recoded. intros (r & -> & _)%list_elem_of_fmap.
  destruct (lookup_run_writes_within "taxitype" [VStr "Not Applicable"]
              (take 21 rules) (recode mappings r)) as [Hsame|(v & Hv & Hna)];
    [by_compute| |].
  - rewrite Hsame. destruct (recode mappings r !! "taxitype") as [v|] eqn:Hv; [|done].
    apply lookup_recode_labels in Hv; [|compute_done].
    simpl. apply bool_decide_eq_false. clear Hsame. revert v Hv.
    apply Forall_forall. compute_done.
  - rewrite Hna. apply list_elem_of_singleton in Hv. by subst v.
Qed.

(** C9: [airplane_cost_dk] is "Not Applicable" in every row: the statement
    of line 4373 tests [taxitype] against two airfare labels, which that
    column never holds. *)
Theorem airplane_cost_dk_always_not_applicable (sdrts_file at_file : list row)
    (out : row) :
  out ∈ trips sdrts_file at_file →
  out !! "airplane_cost_dk" = Some (VStr "Not Applicable").
Proof.
  intros (s0 & df & Hs0 & Hdf & ->)%trips_row_inv.
  rewrite (lookup_trip_renamed df (run rules s0) "airfare_cost_dk") by done.
  fire 21%nat. by rewrite (taxitype_not_airfare sdrts_file at_file).
Qed.

(** C10: a trip none of whose modes is "Bus", "Intercity bus" or "Express
    bus/Rapid" has [rail_pay_type] "Not Applicable"; so has, in particular, a
    trip whose modes are all rail modes or absent. *)
Theorem rail_pay_type_follows_bus_modes (sdrts_file at_file : list row)
    (out : row) :
  out ∈ trips sdrts_file at_file →
  (no_mode_in [VStr "Bus"; VStr "Intercity bus"; VStr "Express bus/Rapid"] out →
   out !! "rail_pay_type" = Some (VStr "Not Applicable")) ∧
  (Forall (λ c, out !! c ∈ [Some (VStr "Rail - Light");
                            Some (VStr "San Diego Coaster Line");
                            Some (VStr "Not Applicable")]) mode_columns →
   out !! "rail_pay_type" = Some (VStr "Not Applicable")).
Proof.
  intros Hout.
  assert (no_mode_in [VStr "Bus"; VStr "Intercity bus"; VStr "Express bus/Rapid"] out →
          out !! "rail_pay_type" = Some (VStr "Not Applicable")) as Hbus.
  { apply trips_row_inv in Hout as (s0 & df & _ & Hdf & ->). intros Hmodes.
    apply (no_mode_in_recoded df s0) in Hmodes; [|done].
    rewrite (lookup_trip_renamed df (run rules s0) "railtype") by done.
    fire 24%nat. by apply no_mode_mask; [by_compute|]. }
  split; [done|].
  intros Hrail. apply Hbus. unfold no_mode_in.
  eapply Forall_impl; [exact Hrail|]. intros c Hc. simpl in Hc.
  repeat (apply elem_of_cons in Hc as [->|Hc]); [done..|].
  by apply elem_of_nil in Hc.
Qed.

Lemma isin_range_int (x : cell) :
  isin x (VInt <$> seqZ 1 10) = true → ∃ n, x = Some (VInt n) ∧ 1 ≤ n ≤ 10.
Proof.
  destruct x as [v|]; [|done]. unfold isin. intros Hv%bool_decide_eq_true.
  apply list_elem_of_fmap in Hv as (n & -> & Hn%elem_of_seqZ).
  exists n. split; [done|lia].
Qed.

(** [weight_person_trip] after the pass: 1 for an eligible row, unset
    otherwise. *)
Lemma weight_person_trip_after_rules (s0 : row) :
  s0 !! "weight_person_trip" = None →
  run rules s0 !! "weight_person_trip" =
  if num_ge (s0 !! "h_complete_weekdays") 1 then Some (VInt 1) else None.
Proof.
  intros Hunset. destruct (num_ge _ 1) eqn:Hel.
  - fire 30%nat. by rewrite lookup_run_untouched by by_compute.
  - rewrite (run_take_drop 31), lookup_run_untouched by by_compute.
    rewrite (run_skip 30 rules s0 _ eq_refl).
    + by rewrite lookup_run_untouched by by_compute.
    + unfold step_mask. by rewrite lookup_run_untouched by by_compute.
Qed.

(** [weight_trip] before the division of line 4430: the initial weight 1 of
    line 4428 for an eligible row, unset otherwise. *)
Lemma weight_trip_initial (s0 : row) :
  s0 !! "weight_trip" = None →
  run (take 32 rules) s0 !! "weight_trip" =
  if num_ge (s0 !! "h_complete_weekdays") 1 then Some (VInt 1) else None.
Proof.
  intros Hunset. destruct (num_ge _ 1) eqn:Hel.
  - fire 31%nat. by rewrite lookup_run_untouched by by_compute.
  - rewrite (run_skip 31 rules s0 _ eq_refl).
    + by rewrite lookup_run_untouched by by_compute.
    + unfold step_mask. by rewrite lookup_run_untouched by by_compute.
Qed.

(** [weight_trip] after the pass. *)
Lemma weight_trip_after_rules (s0 : row) :
  s0 !! "weight_trip" = None →
  run rules s0 !! "weight_trip" =
  if num_ge (s0 !! "h_complete_weekdays") 1 then
    match s0 !! "travelers_hh" with
    | Some (VInt n) =>
        if bool_decide (1 ≤ n ≤ 10) then Some (VNum (1 / inject_Z n))
        else Some (VInt 1)
    | _ => Some (VInt 1)
    end
  else None.
Proof.
  intros Hunset.
  rewrite (run_last 32 rules s0 _ eq_refl eq_refl), lookup_apply_Derive.
  rewrite bool_decide_eq_true_2, andb_true_r by done.
  rewrite weight_trip_initial by done. unfold condition.
  rewrite !lookup_run_untouched by by_compute.
  destruct (num_ge _ 1); [|done]. rewrite andb_true_l.
  destruct (isin (s0 !! "travelers_hh") (VInt <$> seqZ 1 10)) eqn:Hin.
  - apply isin_range_int in Hin as (n & -> & Hn). unfold one_over.
    by rewrite bool_decide_eq_true_2.
  - destruct (s0 !! "travelers_hh") as [[n|?|?]|]; try done.
    rewrite isin_range in Hin. by rewrite Hin.
Qed.

(** C1, as the code has it: [weight_person_trip] is 1 exactly for the rows of
    eligible households and unset otherwise; [weight_trip] is 1 over the count
    of household travelers when the row is eligible and the count is from 1 to
    10, stays at the initial weight 1 when the row is eligible and the count
    is missing or outside that range, and is unset when the row is not
    eligible. *)
Theorem weights_computed (sdrts_file at_file : list row) (out : row) :
  out ∈ trips sdrts_file at_file → weights_as_computed out.
Proof.
  intros (s0 & df & Hs0 & Hdf & ->)%trips_row_inv.
  unfold weights_as_computed, eligible.
  rewrite (lookup_trip_kept df (run rules s0) "weight_person_trip") by done.
  rewrite (lookup_trip_kept df (run rules s0) "weight_trip") by done.
  rewrite (lookup_trip_renamed df (run rules s0) "h_complete_weekdays") by done.
  rewrite (lookup_trip_renamed df (run rules s0) "travelers_hh") by done.
  rewrite (lookup_run_untouched "h_complete_weekdays") by by_compute.
  rewrite (lookup_run_untouched "travelers_hh") by by_compute.
  split.
  - apply weight_person_trip_after_rules.
    by eapply trips_recoded_unweighted; [|compute_done].
  - apply weight_trip_after_rules.
    by eapply trips_recoded_unweighted; [|compute_done].
Qed.

End trips.

(** C1 as the specification states it fails: an eligible trip whose count of
    household travelers is a non-response keeps weight 1; the specification
    leaves it unset. *)
Lemma weights_not_as_specified :
  let out := Samples.nth_row 0 (@trips Samples.flat [Samples.trip_without_count] []) in
  out ∈ @trips Samples.flat [Samples.trip_without_count] [] ∧
  out !! "weight_trip" = Some (VInt 1) ∧
  ¬ weights_as_specified out.
Proof.
  split; [compute_done|]. split; [by_compute|].
  intros [_ Hwt]. vm_compute in Hwt. discriminate Hwt.
Qed.

Lemma weights_computed_witness :
  weights_as_computed
    (Samples.nth_row 1 (@trips Samples.flat
                          [Samples.trip_without_count; Samples.trip_of_four] [])).
Proof.
  apply (@weights_computed Samples.flat
           [Samples.trip_without_count; Samples.trip_of_four] []).
  compute_done.
Defined.

Lemma non_auto_trip_fields_not_applicable_witness :
  let out := Samples.nth_row 0 (@trips Samples.flat [Samples.rail_trip] []) in
  out !! "toll_road" = Some (VStr "Not Applicable") ∧
  out !! "toll_road_express" = Some (VStr "Not Applicable") ∧
  out !! "driver" = Some (VStr "Not Applicable") ∧
  out !! "parking_location" = Some (VStr "Not Applicable").
Proof.
  apply (@non_auto_trip_fields_not_applicable Samples.flat [Samples.rail_trip] []).
  - compute_done.
  - unfold no_mode_in, mode_columns. repeat apply Forall_cons_2; [by_compute..|done].
Defined.

Lemma airplane_cost_dk_always_not_applicable_witness :
  Samples.nth_row 0 (@trips Samples.flat [Samples.rail_trip] [])
    !! "airplane_cost_dk" = Some (VStr "Not Applicable").
Proof.
  apply (@airplane_cost_dk_always_not_applicable Samples.flat [Samples.rail_trip] []).
  compute_done.
Defined.

Lemma rail_pay_type_follows_bus_modes_witness :
  let out := Samples.nth_row 0 (@trips Samples.flat [Samples.rail_trip] []) in
  out !! "mode_1" = Some (VStr "Rail - Light") ∧
  out !! "mode_2" = Some (VStr "San Diego Coaster Line") ∧
  out !! "rail_pay_type" = Some (VStr "Not Applicable").
Proof.
  split; [by_compute|]. split; [by_compute|].
  refine (proj1 (@rail_pay_type_follows_bus_modes Samples.flat
                   [Samples.rail_trip] [] _ _) _).
  - compute_done.
  - unfold no_mode_in, mode_columns. repeat apply Forall_cons_2; [by_compute..|done].
Defined.

End TripsFacts.

(** ** Vehicles *)

Module VehiclesFacts.
Import Frame FrameOps FrameFacts Vehicles.

#[local] Instance key_le_transitive : Transitive key_le.
Proof.
  intros k1 k2 k3 [->|H12] [->|H23]; unfold key_le; auto.
  right. by trans k2.
Qed.

#[local] Instance key_le_total : Total key_le.
Proof.
  intros k1 k2. unfold key_le.
  destruct (trichotomyT lexico k1 k2) as [[?|?]|?]; auto.
Qed.

Lemma key_le_lexico (k1 k2 : Z * Z) : key_le k1 k2 → k1 ≠ k2 → lexico k1 k2.
Proof. by intros [?|?]. Qed.

Lemma key_le_not_lexico (k1 k2 : Z * Z) : key_le k1 k2 → ¬ lexico k2 k1.
Proof.
  intros [->|H12] H21.
  - by apply (irreflexivity lexico k2).
  - apply (irreflexivity lexico k1). by trans k2.
Qed.

(** In the sorted list of distinct keys, the position of a key is the number
    of keys before it in the order. *)
Lemma sorted_rank (l : list (Z * Z)) (k : Z * Z) :
  NoDup l → k ∈ l →
  list_find (λ k', k' = k) (merge_sort key_le l)
  = Some (length (filter (λ k', lexico k' k) l), k).
Proof.
  intros Hnd Hk.
  pose proof (merge_sort_Permutation key_le l) as Hperm.
  pose proof (StronglySorted_merge_sort key_le l) as Hsorted.
  rewrite <- Hperm in Hnd, Hk. rewrite <- Hperm at 2. clear Hperm.
  generalize dependent (merge_sort key_le l). intros s Hnd Hk Hsorted.
  apply list_elem_of_split in Hk as (l1 & l2 & ->).
  apply NoDup_app in Hnd as (_ & Hl1 & Hnd2). apply NoDup_cons in Hnd2 as [Hl2 _].
  assert (filter (λ k', lexico k' k) (l1 ++ k :: l2) = l1) as ->.
  { rewrite filter_app, filter_cons_False by apply (irreflexivity lexico).
    assert (filter (λ k', lexico k' k) l2 = []) as ->.
    { pose proof (StronglySorted_app_1_r _ _ _ Hsorted) as Hle.
      apply StronglySorted_cons in Hle as [Hle _]. clear -Hle.
      induction l2 as [|y l2 IH]; [done|].
      apply Forall_cons in Hle as [Hy Hle].
      rewrite filter_cons_False by by apply key_le_not_lexico.
      by apply IH. }
    rewrite app_nil_r.
    assert (∀ x, x ∈ l1 → lexico x k) as Hlt.
    { intros x Hx. apply key_le_lexico.
      - eapply (StronglySorted_app_1_elem_of key_le); [done..|]. by left.
      - intros ->. apply (Hl1 k Hx). by left. }
    clear -Hlt. induction l1 as [|x l1 IH]; [done|].
    rewrite filter_cons_True by (apply Hlt; by left).
    f_equal. apply IH. intros y Hy. apply Hlt. by right. }
  apply list_find_Some. split; [by apply list_lookup_middle|]. split; [done|].
  intros j y Hj Hlt ->. apply (Hl1 k); [|by left].
  rewrite lookup_app_l in Hj by done. by eapply list_elem_of_lookup_2.
Qed.

Lemma group_number_rank (df : list row) (r : row) (k : Z * Z) :
  r ∈ df → group_key r = Some k →
  group_number df r + 1 = ascending_id (omap group_key df) k.
Proof.
  intros Hr Hk. unfold group_number, groups, ascending_id. rewrite Hk.
  rewrite sorted_rank; [lia|apply NoDup_remove_dups|].
  apply elem_of_remove_dups, list_elem_of_omap. eauto.
Qed.

Lemma assign_column_fmap (name : string) (f : row → cell) (df : list row) :
  assign_column name (f <$> df) df = (λ r, set_cell name (f r) r) <$> df.
Proof.
  unfold assign_column. by rewrite zip_with_fmap_l, zip_with_diag.
Qed.

(** The returned table, row by row. *)
Lemma vehicles_rows (sdrts_file at_file : list row) :
  vehicles sdrts_file at_file =
  (λ r, finish renames output_columns
          (<["vehicle_id" := VInt (group_number (vehicles_recoded sdrts_file at_file) r + 1)]> r))
    <$> vehicles_recoded sdrts_file at_file.
Proof.
  unfold vehicles, ngroup.
  rewrite <- list_fmap_compose, assign_column_fmap, <- list_fmap_compose.
  done.
Qed.

Lemma vehicle_pair_finish (r : row) (v : value) :
  vehicle_pair (finish renames output_columns (<["vehicle_id" := v]> r)) = group_key r.
Proof.
  unfold vehicle_pair, group_key.
  rewrite (lookup_finish_renamed _ _ _ "hhid") by compute_done.
  rewrite (lookup_finish_renamed _ _ _ "vehnum") by compute_done.
  by rewrite !lookup_insert_ne.
Qed.

Lemma lookup_vehicle_id (r : row) (v : value) :
  finish renames output_columns (<["vehicle_id" := v]> r) !! "vehicle_id" = Some v.
Proof.
  rewrite lookup_finish_kept by compute_done. by rewrite lookup_insert_eq.
Qed.

(** The numbers grow with the pairs. *)
Lemma ascending_id_increasing (pairs : list (Z * Z)) (k1 k2 : Z * Z) :
  k1 ∈ pairs → lexico k1 k2 →
  1 ≤ ascending_id pairs k1 < ascending_id pairs k2.
Proof.
  intros Hk1 Hlt. unfold ascending_id. split; [lia|].
  rewrite <- (list_filter_filter_l (λ k', lexico k' k1) (λ k', lexico k' k2)).
  - enough (length (filter (λ k', lexico k' k1)
                      (filter (λ k', lexico k' k2) (remove_dups pairs)))
            < length (filter (λ k', lexico k' k2) (remove_dups pairs)))%nat
      by lia.
    apply (length_filter_lt _ _ k1).
    + apply list_elem_of_filter. split; [done|]. by apply elem_of_remove_dups.
    + apply (irreflexivity lexico).
  - intros k Hk. by trans k1.
Qed.

(** C4, as the code has it: the vehicle key numbers the distinct pairs of
    household and vehicle number from 1 in ascending order of the pair, which
    is the order of [groupby] with its default [sort=True]; for the pairs
    (1,1), (1,2), (2,1) in that order the keys are 1, 2, 3. *)
Theorem vehicle_ids_ascending (sdrts_file at_file : list row) :
  numbered_ascending (vehicles sdrts_file at_file) ∧
  (λ out : row, out !! "vehicle_id")
    <$> vehicles [Samples.vehicle 1 1; Samples.vehicle 1 2] [Samples.vehicle 2 1]
  = [Some (VInt 1); Some (VInt 2); Some (VInt 3)].
Proof.
  split; [|by_compute].
  unfold numbered_ascending. rewrite vehicles_rows.
  rewrite (list_omap_ext _ group_key _ (vehicles_recoded sdrts_file at_file)).
  2: { apply Forall2_same_length_lookup_2; [by rewrite length_fmap|].
       intros i out r (r' & -> & Hr')%list_lookup_fmap_Some Hr. simplify_eq.
       apply vehicle_pair_finish. }
  apply Forall_fmap, Forall_forall. intros r Hr k. simpl.
  rewrite vehicle_pair_finish, lookup_vehicle_id. intros Hk.
  by rewrite (group_number_rank _ _ k).
Qed.

(** C4 as the specification states it fails: when household 2 comes before
    household 1 in the rows, the first pair seen gets key 2. *)
Lemma vehicle_ids_not_first_seen :
  (λ out : row, out !! "vehicle_id")
    <$> vehicles [Samples.vehicle 2 1; Samples.vehicle 1 1] []
  = [Some (VInt 2); Some (VInt 1)] ∧
  ¬ numbered_as_first_seen (vehicles [Samples.vehicle 2 1; Samples.vehicle 1 1] []).
Proof.
  split; [by_compute|].
  intros Hfirst. apply Forall_cons in Hfirst as [Hfirst _].
  specialize (Hfirst (2, 1) eq_refl). vm_compute in Hfirst. discriminate Hfirst.
Qed.

End VehiclesFacts.

(** ** Household border trips *)

Module BorderTripsFacts.
Import Frame FrameOps FrameFacts BorderTrips.















End BorderTripsFacts.
(** * Further properties *)

(** ** More facts about the data frame operations *)

Module FrameLaws.
Import Frame FrameOps FrameFacts.

Lemma length_read_csv (usecols : list string) (file : list row) :
  length (read_csv usecols file) = length file.
Proof. unfold read_csv. by rewrite length_fmap. Qed.

Lemma lookup_arange (name : string) (df : list row) (i : nat) :
  arange name df !! i = (λ r, <[name := VInt (Z.of_nat i)]> r) <$> df !! i.
Proof. unfold arange. by rewrite list_lookup_imap. Qed.


Lemma length_shape `{Geodesy (cell * cell)} (lng lat crs : string) (df : list row) :
  length (shape lng lat crs df) = length df.
Proof. unfold shape, Geometry.point_wkt. by rewrite !length_fmap. Qed.

Lemma length_assign_column (name : string) (values : list cell) (df : list row) :
  length values = length df → length (assign_column name values df) = length df.
Proof. intros Hl. unfold assign_column. rewrite length_zip_with. lia. Qed.

Lemma lookup_assign_constants_in constants (df : row) (c : string) (v : value) :
  NoDup constants.*1 → (c, v) ∈ constants →
  assign_constants constants df !! c = Some v.
Proof.
  unfold assign_constants. revert df.
  induction constants as [|[c' v'] constants IH]; intros df Hnd Hin.
  - by apply elem_of_nil in Hin.
  - apply NoDup_cons in Hnd as [Hc' Hnd]. simpl.
    apply elem_of_cons in Hin as [[= <- <-]|Hin].
    + change (foldl _ ?d constants) with (assign_constants constants d).
      rewrite lookup_assign_constants_notin by done. apply lookup_insert_eq.
    + by apply IH.
Qed.

(** A statement that assigns a literal leaves no cell empty that held a
    value, and fills the cells it assigns to. *)
Lemma apply_Loc_is_Some (df : row) mask columns (v : value) (c : string) :
  is_Some (df !! c) → is_Some (apply_step df (Loc mask columns v) !! c).
Proof.
  intros Hc. simpl. destruct (mask df); [|done].
  rewrite lookup_foldr_insert. by case_decide.
Qed.

(** A pass keeps every cell that holds a value when the statements that
    assign to its column all assign a literal. *)
Lemma run_is_Some (steps : list step) (df : row) (c : string) :
  forallb (λ s, match s with
                | Loc _ _ _ => true
                | Derive _ column _ => bool_decide (column ≠ c)
                end) steps = true →
  is_Some (df !! c) → is_Some (run steps df !! c).
Proof.
  unfold run. revert df. induction steps as [|s steps IH]; intros df Hs Hc; [done|].
  apply andb_true_iff in Hs as [Hs Hsteps]. simpl. apply IH; [done|].
  destruct s as [mask columns v|mask column f]; [by apply apply_Loc_is_Some|].
  apply bool_decide_eq_true in Hs.
  rewrite lookup_apply_Derive, (bool_decide_eq_false_2 _ Hs), andb_false_r. done.
Qed.


(** The value of a column under a literal assignment. *)
Lemma lookup_apply_Loc_case (df : row) mask columns (v : value) (c : string) :
  apply_step df (Loc mask columns v) !! c =
  if mask df && bool_decide (c ∈ columns) then Some v else df !! c.
Proof.
  simpl. destruct (mask df); [|done]. rewrite lookup_foldr_insert.
  by case_decide; [rewrite bool_decide_eq_true_2|rewrite bool_decide_eq_false_2].
Qed.

(** [fillna] leaves no empty cell in the column. *)
Lemma fillna_is_Some (df : row) (c : string) (v : value) :
  is_Some (apply_step df (Loc (λ df, isnull (df !! c)) [c] v) !! c).
Proof.
  rewrite lookup_apply_Loc_case. unfold isnull.
  destruct (df !! c) eqn:E; [done|].
  rewrite bool_decide_eq_true_2 by done.
  rewrite bool_decide_eq_true_2 by set_solver. done.
Qed.

(** A column that a statement of the pass fills when it is empty, and to
    which the later statements only assign literals, is never empty after
    the pass. *)
Lemma run_fillna_is_Some (steps : list step) (k : nat) (df : row) (c : string)
    (v : value) :
  steps !! k = Some (Loc (λ df, isnull (df !! c)) [c] v) →
  forallb (λ s, match s with
                | Loc _ _ _ => true
                | Derive _ column _ => bool_decide (column ≠ c)
                end) (drop (S k) steps) = true →
  is_Some (run steps df !! c).
Proof.
  intros Hk Hrest. rewrite (run_take_drop (S k)). apply run_is_Some; [done|].
  rewrite (take_S_r _ _ _ Hk), run_app. apply fillna_is_Some.
Qed.

(** Two declared codes with the same label are the same code. *)
Lemma recode_field_inj (m : mapping) (x y : cell) :
  NoDup m.*2 → x ∈ m.*1 →
  recode_field m x = recode_field m y → x = y.
Proof.
  intros Hnd Hx Heq.
  apply recode_field_is_Some in Hx as [v Hv].
  rewrite Hv in Heq. symmetry in Heq.
  unfold recode_field, categorical in Hv, Heq.
  destruct (map_cell m x) as [vx|] eqn:Ex; [|done].
  destruct (map_cell m y) as [vy|] eqn:Ey; [|done].
  repeat case_decide; simplify_eq.
  apply map_cell_Some in Ex, Ey.
  clear -Hnd Ex Ey. induction m as [|[k l] m IH]; [by apply elem_of_nil in Ex|].
  simpl in Hnd. apply NoDup_cons in Hnd as [Hl Hnd].
  apply elem_of_cons in Ex as [Ex|Ex];
    apply elem_of_cons in Ey as [Ey|Ey]; simplify_eq; try done.
  - destruct Hl. apply list_elem_of_fmap. by eexists (_, _).
  - destruct Hl. apply list_elem_of_fmap. by eexists (_, _).
  - by apply IH.
Qed.

(** A column that no statement of a pass assigns to is assigned to by no
    statement of its prefixes. *)
Lemma untouched_take (c : string) (k : nat) (steps : list step) :
  untouched c steps = true → untouched c (take k steps) = true.
Proof.
  unfold untouched. revert k.
  induction steps as [|s steps IH]; intros [|k]; simpl; try done.
  intros [Hs Hsteps]%andb_true_iff. by rewrite Hs, IH.
Qed.

Lemma lookup_run_take_untouched (c : string) (k : nat) (steps : list step) (df : row) :
  untouched c steps = true → run (take k steps) df !! c = df !! c.
Proof. intros Hc. by apply lookup_run_untouched, untouched_take. Qed.

(** The value of a column that statement [k] computes and no later
    statement assigns to. *)
Lemma run_derive (k : nat) (steps : list step) (df : row) mask column f :
  steps !! k = Some (Derive mask column f) →
  untouched column (drop (S k) steps) = true →
  run steps df !! column =
  if mask (run (take k steps) df) then f (run (take k steps) df)
  else run (take k steps) df !! column.
Proof.
  intros Hk Hrest.
  rewrite (run_take_drop (S k)), lookup_run_untouched by done.
  rewrite (take_S_r _ _ _ Hk), run_app. cbn [run foldl].
  rewrite lookup_apply_Derive, bool_decide_eq_true_2 by done.
  by rewrite andb_true_r.
Qed.

(** A column that [read_csv] reads holds what the file holds. *)
Lemma lookup_read_csv_in (usecols : list string) (raw : row) (c : string) :
  c ∈ usecols → filter (λ kv : string * value, kv.1 ∈ usecols) raw !! c = raw !! c.
Proof.
  intros Hc. rewrite map_lookup_filter.
  destruct (raw !! c) as [v|]; [|done]. simpl. by rewrite option_guard_True.
Qed.

(** The recode of field [f]: its mapping is looked up in the dictionary. *)
Ltac recode_lookup ms f :=
  let m := eval vm_compute in
    (from_option (λ p : nat * (string * mapping), p.2.2) []
       (list_find (λ fm : string * mapping, fm.1 = f) ms)) in
  rewrite (lookup_recode ms _ f m) by compute_done.

(** The column of the frame that a column of the returned table shows:
    [kept] and [renamed] are the lookup lemmas of the table. *)
Ltac out_column kept renamed renames new :=
  first
    [ rewrite (kept new) by done
    | let old := eval vm_compute in
        (from_option (λ p : nat * (string * string), p.2.1) new
           (list_find (λ on : string * string, on.2 = new) renames)) in
      rewrite (renamed old new) by done ].

End FrameLaws.

(** ** Person days: keys, sources and the rule pass *)

Module DayLaws.
Import Frame FrameOps FrameFacts FrameLaws Day DayFacts.

(** The records the day table is built from: the SDRTS extract, then the AT
    extract with its constants. *)
Lemma day_lookup (sdrts_file at_file : list row) (i : nat) (out : row) :
  day sdrts_file at_file !! i = Some out →
  ∃ raw,
    (read_csv sdrts_usecols sdrts_file ++
     (assign_constants at_constants <$> read_csv at_usecols at_file)) !! i = Some raw ∧
    out = finish renames output_columns
            (<["day_id" := VInt (Z.of_nat i)]> (run rules (recode mappings raw))).
Proof.
  unfold day, day_frame.
  intros (keyed & -> & Hk)%list_lookup_fmap_Some.
  rewrite lookup_arange in Hk.
  apply fmap_Some in Hk as (r & Hr & ->).
  apply list_lookup_fmap_Some in Hr as (s0 & -> & Hs0).
  apply list_lookup_fmap_Some in Hs0 as (raw & -> & Hraw).
  by exists raw.
Qed.

Lemma day_at_lookup (sdrts_file at_file : list row) (i : nat) (out : row) :
  (length sdrts_file ≤ i)%nat →
  day sdrts_file at_file !! i = Some out →
  ∃ raw,
    out = finish renames output_columns
            (<["day_id" := VInt (Z.of_nat i)]>
               (run rules (recode mappings (assign_constants at_constants raw)))).
Proof.
  intros Hi (raw & Hraw & ->)%day_lookup.
  rewrite lookup_app_r in Hraw by (by rewrite length_read_csv).
  apply list_lookup_fmap_Some in Hraw as (raw0 & -> & _).
  by exists raw0.
Qed.

(** A renamed column of the returned table. *)
Lemma lookup_day_renamed (i : Z) (df : row) (old new : string) :
  bool_decide ((old, new) ∈ renames ∧ new ∈ output_columns ∧ old ≠ "day_id") = true →
  finish renames output_columns (<["day_id" := VInt i]> df) !! new = df !! old.
Proof.
  intros (Hr & Ho & Hs)%bool_decide_eq_true.
  rewrite (lookup_finish_renamed _ _ _ old) by (done || compute_done).
  by rewrite lookup_insert_ne.
Qed.

(** A column of the returned table that kept its name. *)
Lemma lookup_day_kept (i : Z) (df : row) (c : string) :
  bool_decide ((c ∉ renames.*1) ∧ (c ∉ renames.*2) ∧ c ∈ output_columns ∧
               c ≠ "day_id") = true →
  finish renames output_columns (<["day_id" := VInt i]> df) !! c = df !! c.
Proof.
  intros (Hr1 & Hr2 & Ho & Hs)%bool_decide_eq_true.
  rewrite lookup_finish_kept by done. by rewrite lookup_insert_ne.
Qed.

(** For a day recorded with rMove, the pass ends with the statement of line
    702: the four statements after it are for the online diary. *)
Lemma rmove_day_rules (s0 : row) :
  s0 !! "data_source" = Some (VStr "rMove") → run rules s0 = run (take 7 rules) s0.
Proof.
  intros Hsrc.
  assert (Hskip : ∀ k s, k ∈ [7; 8; 9; 10]%nat → rules !! k = Some s →
            step_mask s (run (take k rules) s0) = false).
  { intros k s Hk Hs.
    repeat (apply elem_of_cons in Hk as [->|Hk]); [..|by apply elem_of_nil in Hk];
      injection Hs as <-; unfold step_mask;
      rewrite lookup_run_untouched by by_compute; by rewrite Hsrc. }
  rewrite <- (firstn_all rules) at 1. change (length rules) with 11%nat.
  rewrite (run_skip 10 rules s0 _ eq_refl) by (apply Hskip; [compute_done|done]).
  rewrite (run_skip 9 rules s0 _ eq_refl) by (apply Hskip; [compute_done|done]).
  rewrite (run_skip 8 rules s0 _ eq_refl) by (apply Hskip; [compute_done|done]).
  by rewrite (run_skip 7 rules s0 _ eq_refl) by (apply Hskip; [compute_done|done]).
Qed.

(** The free text of the reason after the two statements of lines 686-695,
    in terms of the two reasons of the returned row. *)
Lemma notravel_other_after_rules (df : row) :
  run rules df !! "notravel_other" =
  if ne_lit (run rules df !! "notravel") (VStr "Other reason") &&
     ne_lit (run rules df !! "notravel_secondary") (VStr "Other reason")
  then Some (VStr "Not Applicable")
  else if isnull (df !! "notravel_other") then Some (VStr "Missing")
  else df !! "notravel_other".
Proof.
  rewrite (run_take_drop 4 rules df) at 2 3.
  rewrite !(lookup_run_untouched _ (drop 4 rules)) by by_compute.
  rewrite (run_take_drop 6 rules df) at 1.
  rewrite (lookup_run_untouched _ (drop 6 rules)) by by_compute.
  assert (Hother : run (take 4 rules) df !! "notravel_other" = df !! "notravel_other")
    by (by rewrite lookup_run_untouched by by_compute).
  set (s4 := run (take 4 rules) df) in *.
  change (run (take 6 rules) df) with
    (apply_step
       (apply_step s4
          (Loc (λ df, ne_lit (df !! "notravel") (VStr "Other reason") &&
                      ne_lit (df !! "notravel_secondary") (VStr "Other reason"))
               ["notravel_other"] (VStr "Not Applicable")))
       (Loc (λ df, (eq_lit (df !! "notravel") (VStr "Other reason") ||
                    eq_lit (df !! "notravel_secondary") (VStr "Other reason")) &&
                   isnull (df !! "notravel_other"))
            ["notravel_other"] (VStr "Missing"))).
  rewrite lookup_apply_Loc_case.
  rewrite !(lookup_apply_step_notin s4) by compute_done.
  rewrite lookup_apply_Loc_case.
  rewrite !bool_decide_eq_true_2 by compute_done.
  rewrite !andb_true_r. unfold ne_lit.
  destruct (eq_lit (s4 !! "notravel") (VStr "Other reason")),
    (eq_lit (s4 !! "notravel_secondary") (VStr "Other reason")); simpl;
    rewrite ?Hother; try done; by destruct (isnull (df !! "notravel_other")).
Qed.



(** X2: every row that comes from the AT extract has data source "rMove",
    and "Not Applicable" for the household completion flag, for the start and
    the end location and their free text, and for the free text of the reason
    for not travelling, whatever the reason is. *)
Theorem at_days_not_applicable (sdrts_file at_file : list row) (i : nat) (out : row) :
  (length sdrts_file ≤ i)%nat →
  day sdrts_file at_file !! i = Some out →
  out !! "data_source" = Some (VStr "rMove") ∧
  Forall (λ c, out !! c = Some (VStr "Not Applicable"))
         [ "completed_household_survey"; "start_location"; "start_location_other";
           "end_location"; "end_location_other"; "no_trips_reason_specify_other" ].
Proof.
  intros Hi (raw & ->)%day_at_lookup; [|done].
  set (s0 := recode mappings (assign_constants at_constants raw)).
  assert (Hsrc : s0 !! "data_source" = Some (VStr "rMove")).
  { unfold s0. recode_lookup mappings "data_source".
    by rewrite (lookup_assign_constants_in _ _ _ (VInt 1)) by compute_done. }
  assert (Hcomplete : s0 !! "day_hhcomplete" = Some (VStr "Not Applicable")).
  { unfold s0. recode_lookup mappings "day_hhcomplete".
    by rewrite (lookup_assign_constants_in _ _ _ (VInt 99)) by compute_done. }
  assert (Hother : s0 !! "notravel_other" = Some (VStr "Not Applicable")).
  { unfold s0. rewrite lookup_recode_notin by compute_done.
    by apply lookup_assign_constants_in; compute_done. }
  assert (Hmask : eq_lit (run (take 6 (take 7 rules)) s0 !! "data_source")
                        (VStr "rMove") = true).
  { rewrite lookup_run_untouched by by_compute. by rewrite Hsrc. }
  split.
  - rewrite lookup_finish_kept by compute_done.
    rewrite lookup_insert_ne by done.
    by rewrite lookup_run_untouched by by_compute.
  - repeat apply Forall_cons_2; [| | | | | |apply Forall_nil_2].
    + rewrite (lookup_day_renamed _ _ "day_hhcomplete") by done.
      by rewrite lookup_run_untouched by by_compute.
    + rewrite (lookup_day_renamed _ _ "loc_start") by done.
      rewrite rmove_day_rules by done. by fire 6%nat.
    + rewrite (lookup_day_renamed _ _ "loc_start_other") by done.
      rewrite rmove_day_rules by done. by fire 6%nat.
    + rewrite (lookup_day_renamed _ _ "loc_end") by done.
      rewrite rmove_day_rules by done. by fire 6%nat.
    + rewrite (lookup_day_renamed _ _ "loc_end_other") by done.
      rewrite rmove_day_rules by done. by fire 6%nat.
    + rewrite (lookup_day_renamed _ _ "notravel_other") by done.
      rewrite notravel_other_after_rules, Hother.
      by destruct (_ && _).
Qed.

Lemma at_days_not_applicable_witness :
  let out := Samples.nth_row 0 (day [] [Samples.day_without_trips]) in
  out !! "data_source" = Some (VStr "rMove") ∧
  Forall (λ c, out !! c = Some (VStr "Not Applicable"))
         [ "completed_household_survey"; "start_location"; "start_location_other";
           "end_location"; "end_location_other"; "no_trips_reason_specify_other" ].
Proof.
  refine (at_days_not_applicable [] [Samples.day_without_trips] 0
            (Samples.nth_row 0 (day [] [Samples.day_without_trips])) _ _);
    [simpl; lia|compute_done].
Defined.

(** X3: the free text of the reason for not travelling is "Not Applicable"
    on every row where neither reason is "Other reason" (a missing reason
    included), and it is never empty where one of them is. *)
Theorem other_reason_text (sdrts_file at_file : list row) (out : row) :
  out ∈ day sdrts_file at_file →
  (out !! "no_trips_reason_1" ≠ Some (VStr "Other reason") →
   out !! "no_trips_reason_2" ≠ Some (VStr "Other reason") →
   out !! "no_trips_reason_specify_other" = Some (VStr "Not Applicable")) ∧
  (out !! "no_trips_reason_1" = Some (VStr "Other reason") ∨
   out !! "no_trips_reason_2" = Some (VStr "Other reason") →
   is_Some (out !! "no_trips_reason_specify_other")).
Proof.
  intros (i & raw & ->)%day_row_inv.
  rewrite (lookup_day_renamed _ _ "notravel") by done.
  rewrite (lookup_day_renamed _ _ "notravel_secondary") by done.
  rewrite (lookup_day_renamed _ _ "notravel_other") by done.
  rewrite notravel_other_after_rules. unfold ne_lit, eq_lit, isnull.
  split.
  - intros H1 H2.
    by rewrite (bool_decide_eq_false_2 _ H1), (bool_decide_eq_false_2 _ H2).
  - intros H12. destruct (negb _ && negb _); [done|].
    case_bool_decide as Hnull; [done|].
    by apply not_eq_None_Some in Hnull.
Qed.

Lemma other_reason_text_witness :
  Samples.nth_row 0 (day [Samples.day_with_trips] [])
    !! "no_trips_reason_specify_other" = Some (VStr "Not Applicable").
Proof.
  refine (proj1 (other_reason_text [Samples.day_with_trips] []
                   (Samples.nth_row 0 (day [Samples.day_with_trips] [])) _) _ _);
    compute_done.
Defined.

(** The reason for not travelling after the two statements of lines 677-683. *)
Lemma notravel_after_rules (df : row) :
  run rules df !! "notravel" =
  if isnull (df !! "notravel") then
    if num_eq (df !! "num_trips") 0 then Some (VStr "Missing")
    else if num_gt (df !! "num_trips") 0 then Some (VStr "Not Applicable")
    else None
  else df !! "notravel".
Proof.
  rewrite (run_take_drop 4 rules df).
  rewrite (lookup_run_untouched _ (drop 4 rules)) by by_compute.
  assert (Hreason : run (take 2 rules) df !! "notravel" = df !! "notravel")
    by (by rewrite lookup_run_untouched by by_compute).
  assert (Hcount : run (take 2 rules) df !! "num_trips" = df !! "num_trips")
    by (by rewrite lookup_run_untouched by by_compute).
  set (s2 := run (take 2 rules) df) in *.
  change (run (take 4 rules) df) with
    (apply_step
       (apply_step s2
          (Loc (λ df, num_eq (df !! "num_trips") 0 && isnull (df !! "notravel"))
               ["notravel"] (VStr "Missing")))
       (Loc (λ df, num_gt (df !! "num_trips") 0 && isnull (df !! "notravel"))
            ["notravel"] (VStr "Not Applicable"))).
  rewrite lookup_apply_Loc_case.
  rewrite (lookup_apply_step_notin s2 _ "num_trips") by compute_done.
  rewrite lookup_apply_Loc_case.
  rewrite !bool_decide_eq_true_2 by compute_done.
  rewrite !andb_true_r, Hreason, Hcount.
  destruct (isnull (df !! "notravel")) eqn:Hnull.
  - destruct (num_eq (df !! "num_trips") 0) eqn:Heq; simpl.
    + by rewrite (num_eq_not_gt _ Heq).
    + rewrite Hnull, andb_true_r.
      destruct (num_gt (df !! "num_trips") 0); [done|].
      by apply bool_decide_eq_true in Hnull.
  - by rewrite !andb_false_r, Hnull, andb_false_r.
Qed.

(** X4: a day without trips always has a reason for not travelling, which
    is "Missing" when the record has none and is never "Not Applicable"; a day
    with trips always has one too, "Not Applicable" when the record has none
    and never "Missing". *)
Theorem reason_follows_number_trips (sdrts_file at_file : list row) (out : row) :
  out ∈ day sdrts_file at_file →
  (num_eq (out !! "number_trips") 0 = true →
   ∃ v, out !! "no_trips_reason_1" = Some v ∧ v ≠ VStr "Not Applicable") ∧
  (num_gt (out !! "number_trips") 0 = true →
   ∃ v, out !! "no_trips_reason_1" = Some v ∧ v ≠ VStr "Missing").
Proof.
  intros (i & raw & ->)%day_row_inv.
  rewrite lookup_number_trips.
  rewrite (lookup_day_renamed _ _ "notravel") by done.
  rewrite notravel_after_rules.
  assert (Hlabels : ∀ v, recode mappings raw !! "notravel" = Some v →
            v ≠ VStr "Not Applicable" ∧ v ≠ VStr "Missing").
  { intros v Hv. apply lookup_recode_labels in Hv; [|compute_done].
    revert v Hv. apply Forall_forall. compute_done. }
  unfold isnull. split; intros Hn.
  - rewrite Hn. case_bool_decide as Hnull; [by eexists|].
    apply not_eq_None_Some in Hnull as [v Hv]. exists v. split; [done|].
    by apply Hlabels.
  - rewrite (num_gt_not_eq _ Hn), Hn. case_bool_decide as Hnull; [by eexists|].
    apply not_eq_None_Some in Hnull as [v Hv]. exists v. split; [done|].
    by apply Hlabels.
Qed.

Lemma reason_follows_number_trips_witness :
  let df := day [Samples.day_with_trips] [Samples.day_without_trips] in
  (∃ v, Samples.nth_row 1 df !! "no_trips_reason_1" = Some v ∧
        v ≠ VStr "Not Applicable") ∧
  (∃ v, Samples.nth_row 0 df !! "no_trips_reason_1" = Some v ∧ v ≠ VStr "Missing").
Proof.
  intros df. split.
  - refine (proj1 (reason_follows_number_trips
                     [Samples.day_with_trips] [Samples.day_without_trips]
                     (Samples.nth_row 1 df) _) _); compute_done.
  - refine (proj2 (reason_follows_number_trips
                     [Samples.day_with_trips] [Samples.day_without_trips]
                     (Samples.nth_row 0 df) _) _); compute_done.
Defined.

(** A column that the last statement of a pass fills when it is empty is
    not empty after the pass. *)
Lemma filled_when_null (steps : list step) (k : nat) (df : row) mask (c : string)
    (v : value) :
  steps !! k = Some (Loc (λ df, mask df && isnull (df !! c)) [c] v) →
  untouched c (drop (S k) steps) = true →
  mask (run (take k steps) df) = true →
  is_Some (run steps df !! c).
Proof.
  intros Hk Hrest Hmask.
  rewrite (run_take_drop (S k)), lookup_run_untouched by done.
  rewrite (take_S_r _ _ _ Hk), run_app. cbn [run foldl].
  rewrite lookup_apply_Loc_case, Hmask. unfold isnull.
  destruct (run (take k steps) df !! c) eqn:E; [done|].
  rewrite bool_decide_eq_true_2 by done.
  by rewrite bool_decide_eq_true_2 by set_solver.
Qed.

(** X5: on a day of the online diary the start and the end location are
    never empty, and the free text of each is "Not Applicable" unless the
    location is "Other". *)
Theorem online_day_locations (sdrts_file at_file : list row) (out : row) :
  out ∈ day sdrts_file at_file →
  out !! "data_source" = Some (VStr "Online") →
  is_Some (out !! "start_location") ∧ is_Some (out !! "end_location") ∧
  (out !! "start_location" ≠ Some (VStr "Other") →
   out !! "start_location_other" = Some (VStr "Not Applicable")) ∧
  (out !! "end_location" ≠ Some (VStr "Other") →
   out !! "end_location_other" = Some (VStr "Not Applicable")).
Proof.
  intros (i & raw & ->)%day_row_inv.
  rewrite lookup_day_kept by done.
  rewrite (lookup_day_renamed _ _ "loc_start") by done.
  rewrite (lookup_day_renamed _ _ "loc_end") by done.
  rewrite (lookup_day_renamed _ _ "loc_start_other") by done.
  rewrite (lookup_day_renamed _ _ "loc_end_other") by done.
  set (s0 := recode mappings raw).
  rewrite lookup_run_untouched by by_compute. intros Hsrc.
  assert (Honline : ∀ k, (k ≤ 11)%nat →
            eq_lit (run (take k rules) s0 !! "data_source") (VStr "Online") = true).
  { intros k Hk. rewrite lookup_run_untouched; [by rewrite Hsrc|].
    do 12 (destruct k as [|k]; [by_compute|]). lia. }
  split_and!.
  - eapply (filled_when_null rules 7 s0
              (λ df, eq_lit (df !! "data_source") (VStr "Online")));
      [reflexivity|by_compute|]. apply Honline. lia.
  - eapply (filled_when_null rules 8 s0
              (λ df, eq_lit (df !! "data_source") (VStr "Online")));
      [reflexivity|by_compute|]. apply Honline. lia.
  - intros Hstart. fire 9%nat. rewrite Honline by lia.
    rewrite (run_take_drop 9 rules s0), lookup_run_untouched in Hstart by by_compute.
    unfold ne_lit, eq_lit. by rewrite bool_decide_eq_false_2.
  - intros Hend. fire 10%nat. rewrite Honline by lia.
    rewrite (run_take_drop 10 rules s0), lookup_run_untouched in Hend by by_compute.
    unfold ne_lit, eq_lit. by rewrite bool_decide_eq_false_2.
Qed.

Lemma online_day_locations_witness :
  let out := Samples.nth_row 0 (day [Records.online_day] []) in
  out !! "start_location" = Some (VStr "Home") ∧
  out !! "end_location" = Some (VStr "Missing") ∧
  out !! "start_location_other" = Some (VStr "Not Applicable") ∧
  out !! "end_location_other" = Some (VStr "Not Applicable").
Proof.
  intros out.
  pose proof (online_day_locations [Records.online_day] [] out
                ltac:(compute_done) ltac:(compute_done))
    as (_ & _ & Hstart & Hend).
  split_and!; [compute_done|compute_done|apply Hstart|apply Hend]; compute_done.
Defined.

End DayLaws.

(** ** Persons: employment, minors, addresses and the AT extract *)

Module PersonsLaws.
Import Frame FrameOps FrameFacts FrameLaws Persons PersonsFacts.
Section persons.
Context `{Geodesy (cell * cell)}.

(** The records behind the rows of the AT extract. *)
Lemma persons_at_lookup (sdrts_file at_file : list row) (i : nat) (s0 : row) :
  (length sdrts_file ≤ i)%nat →
  persons_recoded sdrts_file at_file !! i = Some s0 →
  ∃ raw, s0 = recode mappings (assign_constants at_constants raw).
Proof.
  unfold persons_recoded. intros Hi (r & -> & Hr)%list_lookup_fmap_Some.
  rewrite lookup_app_r in Hr by (by rewrite length_read_csv).
  apply list_lookup_fmap_Some in Hr as (raw & -> & _). by exists raw.
Qed.

Ltac person_column df s0 new :=
  out_column (lookup_person_kept df (run rules s0))
             (lookup_person_renamed df (run rules s0)) renames new.

(** X6: a person who is "Not currently employed" has "Not Applicable" in
    every field of the job: the number of jobs, the military status, the
    occupation, the commute, the subsidies and the two work addresses. *)
Theorem not_employed_job_fields (sdrts_file at_file : list row) (out : row) :
  out ∈ persons sdrts_file at_file →
  out !! "employment_status" = Some (VStr "Not currently employed") →
  Forall (λ c, out !! c = Some (VStr "Not Applicable"))
         [ "number_of_jobs"; "military_status"; "work_location_type"; "occupation";
           "industry"; "hours_worked"; "commute_frequency"; "commute_mode";
           "work_arrival_frequency"; "work_parking_payment"; "work_parking_cost_dk";
           "work_parking_ease"; "telecommute_frequency"; "commute_subsidy_none";
           "commute_subsidy_parking"; "commute_subsidy_transit";
           "commute_subsidy_vanpool"; "commute_subsidy_cash"; "commute_subsidy_other";
           "commute_subsidy_specify"; "work_address"; "second_work_address" ].
Proof.
  intros (i & Hi)%list_elem_of_lookup_1.
  apply persons_lookup_inv in Hi as (s0 & df & _ & Hdf & ->).
  person_column df s0 "employment_status".
  rewrite (run_take_drop 3 rules), lookup_run_untouched by by_compute.
  intros Hemp.
  assert (Hmask : eq_lit (run (take 3 rules) s0 !! "employment")
                         (VStr "Not currently employed") = true)
    by (by rewrite Hemp).
  repeat apply Forall_cons_2; [..|done].
  21: {
    person_column df s0 "work_address".
    rewrite (run_last 22 rules s0 _ eq_refl eq_refl), lookup_apply_Loc_case.
    assert (run (take 22 rules) s0 !! "work_address" = Some (VStr "Not Applicable"))
      as ->; [|done].
    eapply (run_hit 3 (take 22 rules)); [reflexivity|compute_done|by_compute|].
    exact Hmask. }
  all: match goal with
       | |- _ !! ?new = _ => person_column df s0 new
       end; by fire 3%nat.
Qed.

(** X7: a person under 18 has "Not Applicable" as student status of an
    adult, as educational attainment and as physical activity; and whoever
    is not 16 or 17 years old has "Not Applicable" for the smartphone of a
    child. *)
Theorem minors_fields (sdrts_file at_file : list row) (out : row) :
  out ∈ persons sdrts_file at_file →
  (out !! "age_category" ∈ [ Some (VStr "Under 5 years old"); Some (VStr "5-15 years");
                             Some (VStr "16-17 years") ] →
   Forall (λ c, out !! c = Some (VStr "Not Applicable"))
          [ "adult_student_status"; "educational_attainment"; "physical_activity" ]) ∧
  (out !! "age_category" ≠ Some (VStr "16-17 years") →
   out !! "smartphone_child" = Some (VStr "Not Applicable")).
Proof.
  intros (i & Hi)%list_elem_of_lookup_1.
  apply persons_lookup_inv in Hi as (s0 & df & _ & Hdf & ->).
  person_column df s0 "age_category".
  rewrite lookup_run_untouched by by_compute.
  split.
  - intros Hage.
    assert (Hmask : isin (run (take 2 rules) s0 !! "age")
                      [VStr "Under 5 years old"; VStr "5-15 years"; VStr "16-17 years"]
                    = true).
    { rewrite lookup_run_untouched by by_compute.
      repeat (apply elem_of_cons in Hage as [->|Hage]); [done..|].
      by apply elem_of_nil in Hage. }
    repeat apply Forall_cons_2; [..|done].
    all: match goal with
         | |- _ !! ?new = _ => person_column df s0 new
         end; by fire 2%nat.
  - intros Hage. person_column df s0 "smartphone_child". fire 1%nat.
    rewrite lookup_run_untouched by by_compute.
    unfold ne_lit, eq_lit. by rewrite bool_decide_eq_false_2.
Qed.

(** X8: the four address columns that the pass fills are never empty: the
    work and the school address, and the second work and second school
    address. *)
Theorem addresses_never_empty (sdrts_file at_file : list row) (out : row) :
  out ∈ persons sdrts_file at_file →
  Forall (λ c, is_Some (out !! c))
         [ "work_address"; "school_address"; "second_work_address";
           "second_school_address" ].
Proof.
  intros (i & Hi)%list_elem_of_lookup_1.
  apply persons_lookup_inv in Hi as (s0 & df & _ & Hdf & ->).
  repeat apply Forall_cons_2; [..|done].
  - person_column df s0 "work_address".
    by eapply (run_fillna_is_Some rules 22); [reflexivity|].
  - person_column df s0 "school_address".
    by eapply (run_fillna_is_Some rules 21); [reflexivity|].
  - person_column df s0 "second_work_address".
    by eapply (run_fillna_is_Some rules 4); [reflexivity|].
  - person_column df s0 "second_school_address".
    by eapply (run_fillna_is_Some rules 8); [reflexivity|].
Qed.

(** X9: every person of the AT extract has "Not Applicable" for the type
    and the age of the smartphone, for the smartphone of a child and for the
    two diary columns. *)
Theorem at_persons_not_applicable (sdrts_file at_file : list row) (i : nat)
    (out : row) :
  (length sdrts_file ≤ i)%nat →
  persons sdrts_file at_file !! i = Some out →
  Forall (λ c, out !! c = Some (VStr "Not Applicable"))
         [ "smartphone_type"; "smartphone_age"; "smartphone_child"; "diary_callcenter";
           "diary_mobile" ].
Proof.
  intros Hi Hout.
  apply persons_lookup_inv in Hout as (s0 & df & Hs0 & Hdf & ->).
  apply persons_at_lookup in Hs0 as (raw & ->); [|done].
  repeat apply Forall_cons_2; [..|done].
  all: match goal with
       | |- _ !! ?new = _ => person_column df (recode mappings (assign_constants at_constants raw)) new
       end.
  all: apply lookup_run_writes_only; [by_compute|].
  all: match goal with
       | |- _ !! ?c = _ => recode_lookup mappings c
       end.
  all: by rewrite (lookup_assign_constants_in _ _ _ (VInt 99)) by compute_done.
Qed.

End persons.

Lemma not_employed_job_fields_witness :
  Forall (λ c, Samples.nth_row 0 (@persons Samples.flat [Records.job_seeker] [])
                 !! c = Some (VStr "Not Applicable"))
         [ "number_of_jobs"; "military_status"; "work_location_type"; "occupation";
           "industry"; "hours_worked"; "commute_frequency"; "commute_mode";
           "work_arrival_frequency"; "work_parking_payment"; "work_parking_cost_dk";
           "work_parking_ease"; "telecommute_frequency"; "commute_subsidy_none";
           "commute_subsidy_parking"; "commute_subsidy_transit";
           "commute_subsidy_vanpool"; "commute_subsidy_cash"; "commute_subsidy_other";
           "commute_subsidy_specify"; "work_address"; "second_work_address" ].
Proof.
  refine (@not_employed_job_fields Samples.flat [Records.job_seeker] []
            (Samples.nth_row 0 (@persons Samples.flat [Records.job_seeker] [])) _ _);
    compute_done.
Defined.

Lemma minors_fields_witness :
  let out := Samples.nth_row 0 (@persons Samples.flat [Samples.child] []) in
  Forall (λ c, out !! c = Some (VStr "Not Applicable"))
         [ "adult_student_status"; "educational_attainment"; "physical_activity" ] ∧
  out !! "smartphone_child" = Some (VStr "Not Applicable").
Proof.
  intros out.
  pose proof (@minors_fields Samples.flat [Samples.child] [] out) as Hminor.
  split; apply Hminor; compute_done.
Defined.

Lemma addresses_never_empty_witness :
  Forall (λ c, is_Some (Samples.nth_row 0 (@persons Samples.flat [Samples.child] [])
                          !! c))
         [ "work_address"; "school_address"; "second_work_address";
           "second_school_address" ].
Proof.
  refine (@addresses_never_empty Samples.flat [Samples.child] []
            (Samples.nth_row 0 (@persons Samples.flat [Samples.child] [])) _);
    compute_done.
Defined.

Lemma at_persons_not_applicable_witness :
  Forall (λ c, Samples.nth_row 1 (@persons Samples.flat [Samples.child]
                                    [Samples.service_member])
                 !! c = Some (VStr "Not Applicable"))
         [ "smartphone_type"; "smartphone_age"; "smartphone_child"; "diary_callcenter";
           "diary_mobile" ].
Proof.
  refine (@at_persons_not_applicable Samples.flat [Samples.child]
            [Samples.service_member] 1
            (Samples.nth_row 1 (@persons Samples.flat [Samples.child]
                                  [Samples.service_member])) _ _);
    [simpl; lia|compute_done].
Defined.

End PersonsLaws.

(** ** Trips: modes, fares, parking, sources and addresses *)

Module TripsLaws.
Import Frame FrameOps FrameFacts FrameLaws Trips TripsFacts.

Lemma ne_lit_isin (x : cell) (v : value) : ne_lit x v = negb (isin x [v]).
Proof.
  unfold ne_lit, eq_lit, isin. destruct x as [w|]; [|done]. f_equal.
  apply bool_decide_ext. rewrite list_elem_of_singleton. naive_solver.
Qed.

(** No bar is left in a text from which the bars were removed. *)
Lemma remove_bars_no_bar (s : string) :
  "|"%char ∉ String.list_ascii_of_string (remove_bars s).
Proof.
  induction s as [|a s IH]; simpl; [apply not_elem_of_nil|].
  destruct (Ascii.eqb a "|") eqn:Ea; [done|].
  simpl. apply not_elem_of_cons. split; [|done].
  intros <-. by rewrite Ascii.eqb_refl in Ea.
Qed.

(** A text without bar is left as it is. *)
Lemma remove_bars_id (s : string) :
  "|"%char ∉ String.list_ascii_of_string s → remove_bars s = s.
Proof.
  induction s as [|a s IH]; simpl; [done|].
  intros [Ha Hs]%not_elem_of_cons.
  destruct (Ascii.eqb a "|") eqn:Ea; [by apply Ascii.eqb_eq in Ea|].
  by rewrite IH.
Qed.

Section trips.
Context `{Geodesy (cell * cell)}.

Ltac trip_column df s0 new :=
  out_column (lookup_trip_kept df (run rules s0))
             (lookup_trip_renamed df (run rules s0)) renames new.

(** The mask "no mode is in [modes]" before statement [k] of the pass. *)
Lemma no_mode_mask_at (k : nat) (s0 : row) (modes : list value) :
  isin (s0 !! "mode1") modes = false ∧ isin (s0 !! "mode2") modes = false ∧
  isin (s0 !! "mode3") modes = false ∧ isin (s0 !! "mode4") modes = false →
  negb (isin (run (take k rules) s0 !! "mode1") modes) &&
  negb (isin (run (take k rules) s0 !! "mode2") modes) &&
  negb (isin (run (take k rules) s0 !! "mode3") modes) &&
  negb (isin (run (take k rules) s0 !! "mode4") modes) = true.
Proof.
  intros Hmodes. apply no_mode_mask; [|done].
  by rewrite !untouched_take by by_compute.
Qed.

(** X10: a trip none of whose modes is in the list of transit modes of line
    4268 has "Not Applicable" as transit access and egress mode.  The list
    holds "VanpoolBus" and neither "Vanpool" nor "Bus", so a trip by bus or by
    vanpool alone is such a trip. *)
Theorem transit_access_follows_listed_modes (sdrts_file at_file : list row)
    (out : row) :
  out ∈ trips sdrts_file at_file →
  (no_mode_in transit_modes out →
   out !! "mode_transit_access" = Some (VStr "Not Applicable") ∧
   out !! "mode_transit_egress" = Some (VStr "Not Applicable")) ∧
  (Forall (λ c, out !! c ∈ [Some (VStr "Bus"); Some (VStr "Vanpool");
                            Some (VStr "Not Applicable")]) mode_columns →
   out !! "mode_transit_access" = Some (VStr "Not Applicable") ∧
   out !! "mode_transit_egress" = Some (VStr "Not Applicable")).
Proof.
  intros Hout.
  assert (Hlisted : no_mode_in transit_modes out →
            out !! "mode_transit_access" = Some (VStr "Not Applicable") ∧
            out !! "mode_transit_egress" = Some (VStr "Not Applicable")).
  { apply trips_row_inv in Hout as (s0 & df & _ & Hdf & ->). intros Hmodes.
    apply (no_mode_in_recoded df s0) in Hmodes; [|done].
    trip_column df s0 "mode_transit_access".
    trip_column df s0 "mode_transit_egress".
    split; (fire 12%nat; by apply no_mode_mask_at). }
  split; [done|].
  intros Hbus. apply Hlisted. unfold no_mode_in.
  eapply Forall_impl; [exact Hbus|]. intros c Hc. simpl in Hc.
  repeat (apply elem_of_cons in Hc as [->|Hc]); [done..|].
  by apply elem_of_nil in Hc.
Qed.

(** The state of a column before statement [n], when statement [k < n] has
    fired and the statements between them assign the same literal. *)
Ltac fire_before k n :=
  eapply (run_hit k (take n rules));
  [reflexivity | compute_done | by_compute
  | cbv beta; change (take k (take n rules)) with (take k rules)].

(** X11: a trip none of whose modes is a household, rental, shared, work or
    friend's car has "Not Applicable" in the whole parking chain: the pay
    type and the cost flag of the parking, and the lot and the city of the
    park and ride. *)
Theorem non_drivers_have_no_parking (sdrts_file at_file : list row) (out : row) :
  out ∈ trips sdrts_file at_file →
  no_mode_in auto_nontaxi_modes out →
  Forall (λ c, out !! c = Some (VStr "Not Applicable"))
         [ "parking_location"; "parking_pay_type"; "parking_cost_dk"; "parkride_lot";
           "parkride_city" ].
Proof.
  intros (s0 & df & _ & Hdf & ->)%trips_row_inv Hmodes.
  apply (no_mode_in_recoded df s0) in Hmodes; [|done].
  assert (Hloc : run (take 15 rules) s0 !! "parklocation" = Some (VStr "Not Applicable")).
  { fire_before 14%nat 15%nat. by apply no_mode_mask_at. }
  assert (Hride : run (take 17 rules) s0 !! "parklocation" = Some (VStr "Not Applicable")).
  { fire_before 14%nat 17%nat. by apply no_mode_mask_at. }
  assert (Htype : run (take 16 rules) s0 !! "parktype" = Some (VStr "Not Applicable")).
  { fire_before 15%nat 16%nat. by rewrite Hloc. }
  repeat apply Forall_cons_2; [..|done].
  - trip_column df s0 "parking_location". fire 14%nat. by apply no_mode_mask_at.
  - trip_column df s0 "parking_pay_type". fire 15%nat. by rewrite Hloc.
  - trip_column df s0 "parking_cost_dk". fire 16%nat. by rewrite Htype.
  - trip_column df s0 "parkride_lot". fire 17%nat. by rewrite Hride.
  - trip_column df s0 "parkride_city". fire 17%nat. by rewrite Hride.
Qed.

(** X12: the pay type and the cost flag of a fare are "Not Applicable" on a
    trip without the mode of the fare: taxi, bus and ferry; so is the cost flag
    of the rail fare on a trip without a bus mode, and the pay type of the
    airfare on a trip without "Airplane". *)
Theorem fares_follow_modes (sdrts_file at_file : list row) (out : row) :
  out ∈ trips sdrts_file at_file →
  (no_mode_in taxi_modes out →
   out !! "taxi_pay_type" = Some (VStr "Not Applicable") ∧
   out !! "taxi_cost_dk" = Some (VStr "Not Applicable")) ∧
  (no_mode_in bus_modes out →
   out !! "bus_pay_type" = Some (VStr "Not Applicable") ∧
   out !! "bus_cost_dk" = Some (VStr "Not Applicable") ∧
   out !! "rail_cost_dk" = Some (VStr "Not Applicable")) ∧
  (no_mode_in [VStr "Ferry or water taxi"] out →
   out !! "ferry_pay_type" = Some (VStr "Not Applicable") ∧
   out !! "ferry_cost_dk" = Some (VStr "Not Applicable")) ∧
  (no_mode_in [VStr "Airplane"] out →
   out !! "airplane_pay_type" = Some (VStr "Not Applicable")).
Proof.
  intros (s0 & df & _ & Hdf & ->)%trips_row_inv.
  trip_column df s0 "taxi_pay_type". trip_column df s0 "taxi_cost_dk".
  trip_column df s0 "bus_pay_type". trip_column df s0 "bus_cost_dk".
  trip_column df s0 "rail_cost_dk".
  trip_column df s0 "ferry_pay_type". trip_column df s0 "ferry_cost_dk".
  trip_column df s0 "airplane_pay_type".
  split_and!; intros Hmodes; apply (no_mode_in_recoded df s0) in Hmodes; try done.
  - split; [fire 18%nat; by apply no_mode_mask_at|].
    fire 19%nat.
    assert (run (take 19 rules) s0 !! "taxitype" = Some (VStr "Not Applicable")) as ->;
      [|done].
    fire_before 18%nat 19%nat. by apply no_mode_mask_at.
  - split_and!; [fire 22%nat; by apply no_mode_mask_at| |].
    + fire 23%nat.
      assert (run (take 23 rules) s0 !! "bustype" = Some (VStr "Not Applicable")) as ->;
        [|done].
      fire_before 22%nat 23%nat. by apply no_mode_mask_at.
    + fire 25%nat.
      assert (run (take 25 rules) s0 !! "railtype" = Some (VStr "Not Applicable")) as ->;
        [|done].
      fire_before 24%nat 25%nat. by apply no_mode_mask_at.
  - assert (Hmask : ∀ k,
              ne_lit (run (take k rules) s0 !! "mode1") (VStr "Ferry or water taxi") &&
              ne_lit (run (take k rules) s0 !! "mode2") (VStr "Ferry or water taxi") &&
              ne_lit (run (take k rules) s0 !! "mode3") (VStr "Ferry or water taxi") &&
              ne_lit (run (take k rules) s0 !! "mode4") (VStr "Ferry or water taxi")
              = true).
    { intros k. rewrite !ne_lit_isin. by apply no_mode_mask_at. }
    split; [fire 26%nat; apply Hmask|].
    fire 27%nat.
    assert (run (take 27 rules) s0 !! "ferrytype" = Some (VStr "Not Applicable")) as ->;
      [|done].
    fire_before 26%nat 27%nat. apply Hmask.
  - fire 20%nat. rewrite !ne_lit_isin. by apply no_mode_mask_at.
Qed.

(** X13: the origin and the destination address of the returned table hold
    a text without any bar, or nothing. *)
Theorem addresses_without_bar (sdrts_file at_file : list row) (out : row) (c : string)
    (v : value) :
  out ∈ trips sdrts_file at_file →
  c ∈ ["origin_address"; "destination_address"] →
  out !! c = Some v →
  ∃ s, v = VStr s ∧ "|"%char ∉ String.list_ascii_of_string s.
Proof.
  intros (s0 & df & _ & Hdf & ->)%trips_row_inv Hc.
  assert (Hbar : ∀ x, str_replace_bar x = Some v →
            ∃ s, v = VStr s ∧ "|"%char ∉ String.list_ascii_of_string s).
  { intros [[z|s|q]|] [= <-]. eexists. split; [done|]. apply remove_bars_no_bar. }
  repeat (apply elem_of_cons in Hc as [->|Hc]); [..|by apply elem_of_nil in Hc].
  - trip_column df s0 "origin_address".
    rewrite (run_derive 28 rules s0 _ _ _ eq_refl) by by_compute. apply Hbar.
  - trip_column df s0 "destination_address".
    rewrite (run_derive 29 rules s0 _ _ _ eq_refl) by by_compute. apply Hbar.
Qed.

(** X14: the names of the origin and of the destination, the free texts of
    the two purposes and the count of revisions are never empty. *)
Theorem trip_texts_never_empty (sdrts_file at_file : list row) (out : row) :
  out ∈ trips sdrts_file at_file →
  Forall (λ c, is_Some (out !! c))
         [ "revised_count"; "origin_name"; "destination_name";
           "origin_purpose_other_specify"; "destination_purpose_other_specify" ].
Proof.
  intros (s0 & df & _ & Hdf & ->)%trips_row_inv.
  repeat apply Forall_cons_2; [..|done].
  - trip_column df s0 "revised_count".
    by eapply (run_fillna_is_Some rules 0); [reflexivity|].
  - trip_column df s0 "origin_name".
    by eapply (run_fillna_is_Some rules 1); [reflexivity|].
  - trip_column df s0 "destination_name".
    by eapply (run_fillna_is_Some rules 2); [reflexivity|].
  - trip_column df s0 "origin_purpose_other_specify".
    by eapply (run_fillna_is_Some rules 5); [reflexivity|].
  - trip_column df s0 "destination_purpose_other_specify".
    by eapply (run_fillna_is_Some rules 6); [reflexivity|].
Qed.

(** X15: a trip recorded with rMove has "Not Applicable" in the fields of
    the online diary; a trip of the online diary has "Not Applicable" in the
    fields of rMove, and 0 as identifier of its location track. *)
Theorem trip_fields_follow_source (sdrts_file at_file : list row) (out : row) :
  out ∈ trips sdrts_file at_file →
  (out !! "data_source" = Some (VStr "rMove") →
   Forall (λ c, out !! c = Some (VStr "Not Applicable"))
          [ "origin_name"; "origin_address"; "destination_name";
            "destination_address"; "toll_road"; "toll_road_express";
            "mode_transit_access"; "mode_transit_egress"; "parkride_lot";
            "parkride_city" ]) ∧
  (out !! "data_source" = Some (VStr "Online") →
   out !! "trip_id_location" = Some (VInt 0) ∧
   Forall (λ c, out !! c = Some (VStr "Not Applicable"))
          [ "revised_count"; "error"; "flag_teleport"; "copied_trip";
            "analyst_merged_trip"; "analyst_split_trip"; "user_merged_trip";
            "user_split_trip"; "added_trip"; "nonproxy_derived_trip";
            "proxy_added_trip"; "origin_purpose_inferred";
            "destination_purpose_inferred" ]).
Proof.
  intros (s0 & df & _ & Hdf & ->)%trips_row_inv.
  trip_column df s0 "data_source".
  rewrite lookup_run_untouched by by_compute.
  assert (Hsrc : ∀ k, run (take k rules) s0 !! "data_source" = s0 !! "data_source").
  { intros k. by apply lookup_run_take_untouched. }
  split; intros Hsource.
  - assert (Haddress : ∀ k column, k ∈ [28; 29]%nat →
              rules !! k = Some (Derive (λ _, true) column
                                   (λ df, str_replace_bar (df !! column))) →
              untouched column (drop (S k) rules) = true →
              run (take k rules) s0 !! column = Some (VStr "Not Applicable") →
              run rules s0 !! column = Some (VStr "Not Applicable")).
    { intros k column _ Hk Hrest Hcol.
      by rewrite (run_derive k rules s0 _ _ _ Hk), Hcol by done. }
    repeat apply Forall_cons_2; [..|done].
    2: { trip_column df s0 "origin_address".
         apply (Haddress 28%nat); [compute_done|done|by_compute|].
         fire_before 7%nat 28%nat. by rewrite Hsrc, Hsource. }
    3: { trip_column df s0 "destination_address".
         apply (Haddress 29%nat); [compute_done|done|by_compute|].
         fire_before 7%nat 29%nat. by rewrite Hsrc, Hsource. }
    all: match goal with
         | |- _ !! ?new = _ => trip_column df s0 new
         end; fire 7%nat; by rewrite Hsrc, Hsource.
  - split.
    + trip_column df s0 "trip_id_location". fire 9%nat. by rewrite Hsrc, Hsource.
    + repeat apply Forall_cons_2; [..|done].
      all: match goal with
           | |- _ !! ?new = _ => trip_column df s0 new
           end; fire 8%nat; by rewrite Hsrc, Hsource.
Qed.

End trips.

Lemma transit_access_follows_listed_modes_witness :
  let out := Samples.nth_row 0 (@trips Samples.flat [Records.bus_trip] []) in
  out !! "mode_1" = Some (VStr "Bus") ∧
  out !! "mode_transit_access" = Some (VStr "Not Applicable") ∧
  out !! "mode_transit_egress" = Some (VStr "Not Applicable").
Proof.
  intros out. split; [by_compute|].
  refine (proj2 (@transit_access_follows_listed_modes Samples.flat
                   [Records.bus_trip] [] out _) _); compute_done.
Defined.

Lemma non_drivers_have_no_parking_witness :
  Forall (λ c, Samples.nth_row 0 (@trips Samples.flat [Samples.rail_trip] [])
                 !! c = Some (VStr "Not Applicable"))
         [ "parking_location"; "parking_pay_type"; "parking_cost_dk"; "parkride_lot";
           "parkride_city" ].
Proof.
  refine (@non_drivers_have_no_parking Samples.flat [Samples.rail_trip] []
            (Samples.nth_row 0 (@trips Samples.flat [Samples.rail_trip] [])) _ _);
    compute_done.
Defined.

Lemma fares_follow_modes_witness :
  let out := Samples.nth_row 0 (@trips Samples.flat [Samples.rail_trip] []) in
  (out !! "taxi_pay_type" = Some (VStr "Not Applicable") ∧
   out !! "taxi_cost_dk" = Some (VStr "Not Applicable")) ∧
  (out !! "bus_pay_type" = Some (VStr "Not Applicable") ∧
   out !! "bus_cost_dk" = Some (VStr "Not Applicable") ∧
   out !! "rail_cost_dk" = Some (VStr "Not Applicable")) ∧
  (out !! "ferry_pay_type" = Some (VStr "Not Applicable") ∧
   out !! "ferry_cost_dk" = Some (VStr "Not Applicable")) ∧
  out !! "airplane_pay_type" = Some (VStr "Not Applicable").
Proof.
  intros out.
  assert (Hout : out ∈ @trips Samples.flat [Samples.rail_trip] []) by compute_done.
  pose proof (@fares_follow_modes Samples.flat [Samples.rail_trip] [] out Hout)
    as (Htaxi & Hbus & Hferry & Hair).
  refine (conj (Htaxi _) (conj (Hbus _) (conj (Hferry _) (Hair _)))); compute_done.
Defined.

Lemma addresses_without_bar_witness :
  ∃ s, VStr "1234 Elm St" = VStr s ∧ "|"%char ∉ String.list_ascii_of_string s.
Proof.
  refine (@addresses_without_bar Samples.flat [Records.bus_trip] []
            (Samples.nth_row 0 (@trips Samples.flat [Records.bus_trip] []))
            "origin_address" (VStr "1234 Elm St") _ _ _); compute_done.
Defined.

Lemma trip_texts_never_empty_witness :
  Forall (λ c, is_Some (Samples.nth_row 0 (@trips Samples.flat [Records.bus_trip] [])
                          !! c))
         [ "revised_count"; "origin_name"; "destination_name";
           "origin_purpose_other_specify"; "destination_purpose_other_specify" ].
Proof.
  refine (@trip_texts_never_empty Samples.flat [Records.bus_trip] []
            (Samples.nth_row 0 (@trips Samples.flat [Records.bus_trip] [])) _);
    compute_done.
Defined.

Lemma trip_fields_follow_source_witness :
  let tracked := Samples.nth_row 0 (@trips Samples.flat [] [Records.bus_trip]) in
  let online := Samples.nth_row 0 (@trips Samples.flat [Records.bus_trip] []) in
  tracked !! "origin_address" = Some (VStr "Not Applicable") ∧
  online !! "trip_id_location" = Some (VInt 0).
Proof.
  intros tracked online. split.
  - pose proof (proj1 (@trip_fields_follow_source Samples.flat [] [Records.bus_trip]
                         tracked ltac:(compute_done)) ltac:(compute_done)) as Hna.
    rewrite Forall_forall in Hna. apply Hna. compute_done.
  - refine (proj1 (proj2 (@trip_fields_follow_source Samples.flat
                            [Records.bus_trip] [] online _) _)); compute_done.
Defined.

End TripsLaws.

(** ** Vehicles: the key and the codes *)

Module VehiclesLaws.
Import Frame FrameOps FrameFacts FrameLaws Vehicles VehiclesFacts.

(** The pairs of the returned table are the group keys of the frame. *)
Lemma vehicle_pairs_table (sdrts_file at_file : list row) :
  omap vehicle_pair (vehicles sdrts_file at_file)
  = omap group_key (vehicles_recoded sdrts_file at_file).
Proof.
  rewrite vehicles_rows.
  apply list_omap_ext, Forall2_same_length_lookup_2; [by rewrite length_fmap|].
  intros i out r (r' & -> & Hr')%list_lookup_fmap_Some Hr. simplify_eq.
  apply vehicle_pair_finish.
Qed.

(** The key of a row that has a pair. *)
Lemma vehicle_id_of_pair (sdrts_file at_file : list row) (out : row) (k : Z * Z) :
  out ∈ vehicles sdrts_file at_file → vehicle_pair out = Some k →
  k ∈ omap group_key (vehicles_recoded sdrts_file at_file) ∧
  out !! "vehicle_id"
  = Some (VInt (ascending_id (omap group_key (vehicles_recoded sdrts_file at_file)) k)).
Proof.
  rewrite vehicles_rows. intros (r & -> & Hr)%list_elem_of_fmap.
  rewrite vehicle_pair_finish, lookup_vehicle_id. intros Hk. split.
  - apply list_elem_of_omap. eauto.
  - by rewrite (group_number_rank _ _ k).
Qed.

(** X16: two rows of the vehicles table have the same [vehicle_id] exactly
    when they have the same household and vehicle number. *)
Theorem vehicle_id_identifies_pair (sdrts_file at_file : list row) (out1 out2 : row)
    (k1 k2 : Z * Z) :
  out1 ∈ vehicles sdrts_file at_file → out2 ∈ vehicles sdrts_file at_file →
  vehicle_pair out1 = Some k1 → vehicle_pair out2 = Some k2 →
  out1 !! "vehicle_id" = out2 !! "vehicle_id" ↔ k1 = k2.
Proof.
  intros Hout1 Hout2 Hk1 Hk2.
  destruct (vehicle_id_of_pair _ _ _ _ Hout1 Hk1) as [Hin1 ->].
  destruct (vehicle_id_of_pair _ _ _ _ Hout2 Hk2) as [Hin2 ->].
  split; [|by intros ->].
  intros [= Hid].
  destruct (trichotomyT lexico k1 k2) as [[Hlt|?]|Hlt]; [|done|].
  - pose proof (ascending_id_increasing _ _ _ Hin1 Hlt). lia.
  - pose proof (ascending_id_increasing _ _ _ Hin2 Hlt). lia.
Qed.

Lemma vehicle_id_identifies_pair_witness :
  let table := vehicles [Samples.vehicle 2 1; Samples.vehicle 1 1]
                        [Samples.vehicle 2 1] in
  Samples.nth_row 0 table !! "vehicle_id" = Samples.nth_row 2 table !! "vehicle_id".
Proof.
  intros table.
  refine (proj2 (vehicle_id_identifies_pair
                   [Samples.vehicle 2 1; Samples.vehicle 1 1] [Samples.vehicle 2 1]
                   (Samples.nth_row 0 table) (Samples.nth_row 2 table)
                   (2, 1) (2, 1) _ _ _ _) eq_refl); compute_done.
Defined.

(** X17: the [vehicle_id] of a row that has a pair is a number from 1 to
    the number of distinct pairs of the table. *)
Theorem vehicle_id_in_range (sdrts_file at_file : list row) (out : row) (k : Z * Z) :
  out ∈ vehicles sdrts_file at_file → vehicle_pair out = Some k →
  ∃ n, out !! "vehicle_id" = Some (VInt n) ∧
       1 ≤ n ≤ Z.of_nat (length (remove_dups
                                   (omap vehicle_pair (vehicles sdrts_file at_file)))).
Proof.
  intros Hout Hk.
  destruct (vehicle_id_of_pair _ _ _ _ Hout Hk) as [Hin ->].
  rewrite vehicle_pairs_table. eexists. split; [done|].
  unfold ascending_id. split; [lia|].
  enough (length (filter (λ k', lexico k' k)
                    (remove_dups (omap group_key (vehicles_recoded sdrts_file at_file))))
          < length (remove_dups (omap group_key (vehicles_recoded sdrts_file at_file))))%nat
    by lia.
  apply (length_filter_lt _ _ k).
  - by apply elem_of_remove_dups.
  - apply (irreflexivity lexico).
Qed.

Lemma vehicle_id_in_range_witness :
  let table := vehicles [Samples.vehicle 2 1; Samples.vehicle 1 1]
                        [Samples.vehicle 2 1] in
  ∃ n, Samples.nth_row 0 table !! "vehicle_id" = Some (VInt n) ∧
       1 ≤ n ≤ Z.of_nat (length (remove_dups (omap vehicle_pair table))).
Proof.
  intros table.
  refine (vehicle_id_in_range
            [Samples.vehicle 2 1; Samples.vehicle 1 1] [Samples.vehicle 2 1]
            (Samples.nth_row 0 table) (2, 1) _ _); compute_done.
Defined.

(** The records of the two extracts, in the order of the table. *)
Lemma vehicles_lookup (sdrts_file at_file : list row) (i : nat) (out : row) :
  vehicles sdrts_file at_file !! i = Some out →
  ∃ raw v,
    (read_csv sdrts_usecols sdrts_file ++ read_csv at_usecols at_file) !! i = Some raw ∧
    out = finish renames output_columns (<["vehicle_id" := v]> (recode mappings raw)).
Proof.
  rewrite vehicles_rows. intros (r & -> & Hr)%list_lookup_fmap_Some.
  unfold vehicles_recoded in Hr at 1.
  apply list_lookup_fmap_Some in Hr as (raw & -> & Hraw). eauto.
Qed.

(** X18: a coded column of the vehicles table is empty exactly when the
    code of the record is not a key of the column's mapping; only the mapping
    of the unknown parking cost has a key for a missing code. *)
Theorem vehicle_codes (sdrts_file at_file : list row) (i : nat) (raw out : row) :
  (read_csv sdrts_usecols sdrts_file ++ read_csv at_usecols at_file) !! i = Some raw →
  vehicles sdrts_file at_file !! i = Some out →
  Forall (λ fn : string * string,
            ∃ m, (fn.1, m) ∈ mappings ∧
                 (out !! fn.2 = None ↔ raw !! fn.1 ∉ m.*1))
         [ ("fuel", "fuel_type"); ("obtain", "how_obtained");
           ("tolltransp", "toll_transponder");
           ("respark_pass", "residence_parking_pass");
           ("respark_pass_dontknow_cost", "residence_parking_cost_unknown") ] ∧
  (raw !! "respark_pass_dontknow_cost" = None →
   out !! "residence_parking_cost_unknown" = Some (VStr "Not Applicable")) ∧
  (raw !! "fuel" = None → out !! "fuel_type" = None).
Proof.
  intros Hraw (raw' & v & Hraw' & ->)%vehicles_lookup. simplify_eq.
  assert (Hfield : ∀ f new m,
            bool_decide ((f, new) ∈ renames ∧ new ∈ output_columns ∧
                         f ≠ "vehicle_id" ∧ (f, m) ∈ mappings) = true →
            finish renames output_columns (<["vehicle_id" := v]> (recode mappings raw))
              !! new = recode_field m (raw !! f)).
  { intros f new m (Hr & Ho & Hid & Hm)%bool_decide_eq_true.
    rewrite (lookup_finish_renamed _ _ _ f) by (done || compute_done).
    rewrite lookup_insert_ne by done.
    by apply lookup_recode; [compute_done|]. }
  split_and!.
  - repeat apply Forall_cons_2; [..|done]; cbn [fst snd].
    all: match goal with
         | |- ∃ m, (?f, m) ∈ mappings ∧ _ =>
             let m := eval vm_compute in
               (from_option (λ p : nat * (string * mapping), p.2.2) []
                  (list_find (λ fm : string * mapping, fm.1 = f) mappings)) in
             exists m; split; [compute_done|];
             rewrite (Hfield f _ m) by done;
             rewrite <- recode_field_is_Some, eq_None_not_Some; done
         end.
  - intros Hnone.
    let m := eval vm_compute in
      (from_option (λ p : nat * (string * mapping), p.2.2) []
         (list_find (λ fm : string * mapping, fm.1 = "respark_pass_dontknow_cost")
            mappings)) in
    rewrite (Hfield "respark_pass_dontknow_cost" _ m) by done.
    by rewrite Hnone.
  - intros Hnone.
    let m := eval vm_compute in
      (from_option (λ p : nat * (string * mapping), p.2.2) []
         (list_find (λ fm : string * mapping, fm.1 = "fuel") mappings)) in
    rewrite (Hfield "fuel" _ m) by done.
    by rewrite Hnone.
Qed.

Lemma vehicle_codes_witness :
  let out := Samples.nth_row 0 (vehicles [Records.bare_vehicle] []) in
  out !! "residence_parking_cost_unknown" = Some (VStr "Not Applicable") ∧
  out !! "fuel_type" = None.
Proof.
  intros out.
  pose proof (vehicle_codes [Records.bare_vehicle] [] 0 Records.bare_vehicle out
                ltac:(compute_done) ltac:(compute_done)) as (_ & Hcost & Hfuel).
  split; [apply Hcost|apply Hfuel]; compute_done.
Defined.

End VehiclesLaws.

(** ** Household border trips: failure, keys and complete rows *)

Module BorderTripsLaws.
Import Frame FrameOps FrameFacts FrameLaws BorderTrips BorderTripsFacts.







End BorderTripsLaws.

(** ** Households *)

Module HouseholdsLaws.
Import Frame FrameOps FrameFacts FrameLaws Households.
Section households.
Context `{Geodesy (cell * cell)}.

(** Row [i] of the returned table is record [i] of the two extracts after
    the recode and the rule pass, renamed; the geometry column comes on top. *)
Lemma households_lookup (sdrts_file at_file : list row) (i : nat) (out : row) :
  households sdrts_file at_file !! i = Some out →
  ∃ raw df,
    households_read sdrts_file at_file !! i = Some raw ∧
    (∀ c, c ≠ "shape" → df !! c = run rules (recode mappings raw) !! c) ∧
    out = finish renames output_columns df.
Proof.
  unfold households, households_frame.
  intros (df & -> & Hdf)%list_lookup_fmap_Some.
  apply lookup_assign_column in Hdf as (s & Hs & Hshape).
  apply list_lookup_fmap_Some in Hs as (s0 & -> & Hs0).
  apply list_lookup_fmap_Some in Hs0 as (raw & -> & Hraw).
  by exists raw, df.
Qed.

(** A column of the returned table that [rename] moved. *)
Lemma lookup_household_renamed (df s : row) (old new : string) :
  (∀ c, c ≠ "shape" → df !! c = s !! c) →
  bool_decide ((old, new) ∈ renames ∧ new ∈ output_columns ∧ old ≠ "shape") = true →
  finish renames output_columns df !! new = s !! old.
Proof.
  intros Hdf (Hr & Ho & Hs)%bool_decide_eq_true.
  rewrite (lookup_finish_renamed _ _ _ old) by (done || compute_done).
  by apply Hdf.
Qed.

(** A column of the returned table that kept its name. *)
Lemma lookup_household_kept (df s : row) (c : string) :
  (∀ c, c ≠ "shape" → df !! c = s !! c) →
  bool_decide ((c ∉ renames.*1) ∧ (c ∉ renames.*2) ∧ c ∈ output_columns ∧
               c ≠ "shape") = true →
  finish renames output_columns df !! c = s !! c.
Proof.
  intros Hdf (Hr1 & Hr2 & Ho & Hs)%bool_decide_eq_true.
  rewrite lookup_finish_kept by done. by apply Hdf.
Qed.

Ltac household_column df s new :=
  out_column (lookup_household_kept df s) (lookup_household_renamed df s) renames new.

(** X21: a household of the online diary group has "Not Applicable" as
    number of rMove participants; a household whose language is not "Other"
    (an empty language included) has "Not Applicable" as other language; and a
    household that uses no other tool has "Not Applicable" as the tool's
    name. *)
Theorem household_conditional_fields (sdrts_file at_file : list row) (out : row) :
  out ∈ households sdrts_file at_file →
  (out !! "sample_group" = Some (VStr "Group 3: Online diary only") →
   out !! "number_rmove_participants" = Some (VStr "Not Applicable")) ∧
  (out !! "language" ≠ Some (VStr "Other") →
   out !! "language_other" = Some (VStr "Not Applicable")) ∧
  (out !! "use_other_tool" = Some (VStr "No") →
   out !! "specify_other_tool" = Some (VStr "Not Applicable")).
Proof.
  intros (i & Hi)%list_elem_of_lookup_1.
  apply households_lookup in Hi as (raw & df & _ & Hdf & ->).
  set (s0 := recode mappings raw) in *.
  household_column df (run rules s0) "sample_group".
  household_column df (run rules s0) "number_rmove_participants".
  household_column df (run rules s0) "language".
  household_column df (run rules s0) "language_other".
  household_column df (run rules s0) "use_other_tool".
  household_column df (run rules s0) "specify_other_tool".
  rewrite (lookup_run_untouched "hhgroup" rules) by by_compute.
  rewrite (lookup_run_untouched "language_pref" rules) by by_compute.
  rewrite (lookup_run_untouched "tool_other" rules) by by_compute.
  split_and!; intros Hcase.
  - fire 0%nat. rewrite lookup_run_take_untouched by by_compute.
    by rewrite Hcase.
  - fire 1%nat. rewrite lookup_run_take_untouched by by_compute.
    unfold ne_lit, eq_lit. by rewrite bool_decide_eq_false_2.
  - fire 2%nat. rewrite lookup_run_take_untouched by by_compute.
    by rewrite Hcase.
Qed.

(** X22: every household of the AT extract is in the sample segment "AT
    segment", has "Not Applicable" as place of the recruit survey, and has
    none of the three household weights. *)
Theorem at_households (sdrts_file at_file : list row) (i : nat) (out : row) :
  (length sdrts_file ≤ i)%nat →
  households sdrts_file at_file !! i = Some out →
  out !! "sample_segment" = Some (VStr "AT segment") ∧
  out !! "recruit_survey_where" = Some (VStr "Not Applicable") ∧
  Forall (λ c, out !! c = None) weight_columns.
Proof.
  intros Hi (raw & df & Hraw & Hdf & ->)%households_lookup.
  unfold households_read in Hraw.
  rewrite lookup_app_r in Hraw by (by rewrite length_read_csv).
  apply list_lookup_fmap_Some in Hraw as (raw0 & -> & Hraw0).
  apply list_lookup_fmap_Some in Hraw0 as (line & -> & _).
  set (at_row := filter (λ kv : string * value, kv.1 ∈ at_usecols) line) in *.
  set (s0 := recode mappings (assign_constants at_constants at_row)) in *.
  split_and!.
  - household_column df (run rules s0) "sample_segment".
    rewrite lookup_run_untouched by by_compute. unfold s0.
    recode_lookup mappings "sample_segment".
    by rewrite (lookup_assign_constants_in _ _ _ (VStr "AT segment")) by compute_done.
  - household_column df (run rules s0) "recruit_survey_where".
    rewrite lookup_run_untouched by by_compute. unfold s0.
    recode_lookup mappings "callcenter_recruit".
    by rewrite (lookup_assign_constants_in _ _ _ (VInt 99)) by compute_done.
  - unfold weight_columns. repeat apply Forall_cons_2; [..|done].
    all: match goal with
         | |- _ !! ?new = _ => household_column df (run rules s0) new
         end.
    all: rewrite lookup_run_untouched by by_compute; unfold s0.
    all: rewrite lookup_recode_notin by compute_done.
    all: rewrite lookup_assign_constants_notin by compute_done.
    all: unfold at_row; apply lookup_read_csv_row; compute_done.
Qed.

(** The label of a count under the mapping of a count column. *)
Lemma map_cell_counts (a : Z) (n : nat) (rest : mapping) (k : Z) :
  map_cell (((λ key, (Some (VInt key), VStr (pretty key))) <$> seqZ a (Z.of_nat n))
            ++ rest) (Some (VInt k)) =
  if bool_decide (a ≤ k < a + Z.of_nat n) then Some (VStr (pretty k))
  else map_cell rest (Some (VInt k)).
Proof.
  revert a. induction n as [|n IH]; intros a.
  { by rewrite bool_decide_eq_false_2 by lia. }
  rewrite seqZ_cons by lia. rewrite fmap_cons. cbn [app map_cell].
  replace (Z.pred (Z.of_nat (S n))) with (Z.of_nat n) by lia.
  rewrite IH. case_decide as Hk.
  - injection Hk as ->. by rewrite bool_decide_eq_true_2 by lia.
  - assert (a ≠ k) by congruence.
    by rewrite (bool_decide_ext (Z.succ a ≤ k < Z.succ a + Z.of_nat n)
                  (a ≤ k < a + Z.of_nat (S n))) by lia.
Qed.

Lemma map_cell_count_labels (a b : Z) (rest : mapping) (k : Z) :
  map_cell (count_labels a b ++ rest) (Some (VInt k)) =
  if bool_decide (a ≤ k < b) then Some (VStr (pretty k))
  else map_cell rest (Some (VInt k)).
Proof.
  unfold count_labels.
  destruct (decide (b ≤ a)) as [Hba|Hab].
  { rewrite bool_decide_eq_false_2 by lia. by rewrite seqZ_nil by lia. }
  rewrite <- (Z2Nat.id (b - a)) by lia. rewrite map_cell_counts.
  by rewrite (bool_decide_ext (a ≤ k < a + Z.of_nat (Z.to_nat (b - a))) (a ≤ k < b))
    by lia.
Qed.

(** The recode of a count column whose last label stands for [bound] and
    more. *)
Lemma recode_count (bound : Z) (top : string) (k : Z) :
  0 ≤ bound →
  recode_field (count_labels 0 bound ++
                [(Some (VInt bound), VStr top); (None, VStr "Missing")])
               (Some (VInt k)) =
  if bool_decide (0 ≤ k < bound) then Some (VStr (pretty k))
  else if bool_decide (k = bound) then Some (VStr top)
  else None.
Proof.
  intros Hbound. unfold recode_field. rewrite map_cell_count_labels.
  cbn [map_cell]. case_bool_decide as Hk.
  - unfold categorical. rewrite decide_True; [done|].
    rewrite fmap_app. apply elem_of_app. left.
    unfold count_labels. rewrite <- list_fmap_compose.
    apply list_elem_of_fmap. exists k. split; [done|]. apply elem_of_seqZ. lia.
  - case_decide as Hb.
    + injection Hb as <-. rewrite bool_decide_eq_true_2 by done.
      unfold categorical. rewrite decide_True; [done|].
      rewrite fmap_app. apply elem_of_app. right. set_solver.
    + rewrite bool_decide_eq_false_2 by congruence.
      by rewrite decide_False by done.
Qed.

(** X23: a count of the household that the record gives as a number from 0
    to the bound of its column has that number as label; the bound itself has
    the label of "the bound or more"; and any other number leaves the column
    empty. *)
Theorem household_counts (sdrts_file at_file : list row) (i : nat) (raw out : row) :
  households_read sdrts_file at_file !! i = Some raw →
  households sdrts_file at_file !! i = Some out →
  Forall (λ column : string * string * (Z * string),
            ∀ k, raw !! column.1.1 = Some (VInt k) →
                 out !! column.1.2 =
                 if bool_decide (0 ≤ k < column.2.1) then Some (VStr (pretty k))
                 else if bool_decide (k = column.2.1) then Some (VStr column.2.2)
                 else None)
         [ ("hhsize", "persons", (12, "12+")); ("numadults", "adults", (12, "12+"));
           ("numkids", "children", (11, "11+")); ("numworkers", "workers", (11, "11+"));
           ("vehicle_count", "vehicles", (7, "7+"));
           ("bicycle_count", "bicycles", (10, "10+")) ].
Proof.
  intros Hraw (raw' & df & Hraw' & Hdf & ->)%households_lookup. simplify_eq.
  repeat apply Forall_cons_2; [..|done]; cbn [fst snd]; intros k Hk.
  all: match goal with
       | |- _ !! ?new = _ => household_column df (run rules (recode mappings raw)) new
       end.
  all: rewrite lookup_run_untouched by by_compute.
  all: match goal with
       | |- _ !! ?c = if bool_decide (0 ≤ _ < ?bound) then _
                      else if _ then Some (VStr ?top) else _ =>
           rewrite (lookup_recode mappings _ c
                      (count_labels 0 bound ++
                       [(Some (VInt bound), VStr top); (None, VStr "Missing")]))
             by compute_done
       end.
  all: rewrite Hk; by apply recode_count.
Qed.

End households.

Lemma household_conditional_fields_witness :
  let out := Samples.nth_row 0 (@households Samples.flat [Records.online_household] [])
  in
  out !! "number_rmove_participants" = Some (VStr "Not Applicable") ∧
  out !! "language_other" = Some (VStr "Not Applicable") ∧
  out !! "specify_other_tool" = Some (VStr "Not Applicable").
Proof.
  intros out.
  pose proof (@household_conditional_fields Samples.flat [Records.online_household] []
                out ltac:(compute_done)) as (Hgroup & Hlanguage & Htool).
  split_and!; [apply Hgroup|apply Hlanguage|apply Htool]; compute_done.
Defined.

Lemma at_households_witness :
  let out := Samples.nth_row 0 (@households Samples.flat [] [Records.online_household])
  in
  out !! "sample_segment" = Some (VStr "AT segment") ∧
  out !! "recruit_survey_where" = Some (VStr "Not Applicable") ∧
  Forall (λ c, out !! c = None) weight_columns.
Proof.
  intros out.
  refine (@at_households Samples.flat [] [Records.online_household] 0 out _ _);
    [simpl; lia|compute_done].
Defined.

Lemma household_counts_witness :
  let out := Samples.nth_row 0 (@households Samples.flat [Records.online_household] [])
  in
  out !! "persons" = None ∧ out !! "vehicles" = Some (VStr "2").
Proof.
  intros out.
  pose proof (@household_counts Samples.flat [Records.online_household] [] 0
                (Samples.nth_row 0 (households_read [Records.online_household] []))
                out ltac:(compute_done) ltac:(compute_done)) as Hcounts.
  rewrite Forall_forall in Hcounts. split.
  - apply (Hcounts ("hhsize", "persons", (12, "12+")) ltac:(compute_done) 13).
    compute_done.
  - apply (Hcounts ("vehicle_count", "vehicles", (7, "7+")) ltac:(compute_done) 2).
    compute_done.
Defined.

End HouseholdsLaws.

(** ** Intercept survey *)

Module InterceptLaws.
Import Frame FrameOps FrameFacts FrameLaws Intercept.

(** Row [i] of the returned table is record [i] of the file. *)
Lemma intercept_lookup (file : list row) (i : nat) (out : row) :
  intercept file !! i = Some out →
  ∃ line,
    file !! i = Some line ∧
    out = finish renames output_columns
            (run rules
               (recode mappings
                  (filter (λ kv : string * value, kv.1 ∈ usecols) line))).
Proof.
  unfold intercept, read_csv.
  intros (s & -> & Hs)%list_lookup_fmap_Some.
  apply list_lookup_fmap_Some in Hs as (s0 & -> & Hs0).
  apply list_lookup_fmap_Some in Hs0 as (raw & -> & Hraw).
  apply list_lookup_fmap_Some in Hraw as (line & -> & Hline).
  by exists line.
Qed.

(** The two combined columns, in terms of the recoded answers. *)
Lemma visit_columns (s0 : row) :
  run rules s0 !! "visit_work" =
    np_where (isin (s0 !! "work_int_1_1") [VStr "Missing"; VStr "Not Applicable"])
             (s0 !! "work_int_1_2") (s0 !! "work_int_1_1") ∧
  run rules s0 !! "visit_school" =
    np_where (isin (s0 !! "school_int_1_1") [VStr "Missing"; VStr "Not Applicable"])
             (s0 !! "school_int_1_2") (s0 !! "school_int_1_1").
Proof.
  split.
  - by rewrite (run_derive 0 rules s0 _ _ _ eq_refl) by by_compute.
  - rewrite (run_derive 1 rules s0 _ _ _ eq_refl) by by_compute.
    by rewrite !(lookup_run_untouched _ (take 1 rules)) by by_compute.
Qed.

(** X24: the combined visit column shows the first answer when the record
    has "Yes" (1) or "No" (2) there; the second answer when the first is "Not
    Applicable" (3) or missing; and nothing, whatever the second answer is,
    when the first answer is not a declared code. *)
Theorem visit_takes_first_answer (file : list row) (i : nat) (line out : row)
    (first second visit : string) :
  let answers : mapping :=
    [ (Some (VInt 1), VStr "Yes"); (Some (VInt 2), VStr "No");
      (Some (VInt 3), VStr "Not Applicable"); (None, VStr "Missing") ] in
  file !! i = Some line →
  intercept file !! i = Some out →
  (first, second, visit) ∈ [ ("work_int_1_1", "work_int_1_2", "visit_work");
                             ("school_int_1_1", "school_int_1_2", "visit_school") ] →
  (line !! first = Some (VInt 1) → out !! visit = Some (VStr "Yes")) ∧
  (line !! first = Some (VInt 2) → out !! visit = Some (VStr "No")) ∧
  (line !! first = Some (VInt 3) ∨ line !! first = None →
   out !! visit = recode_field answers (line !! second)) ∧
  (line !! first ∉ answers.*1 → out !! visit = None).
Proof.
  intros answers Hline (line' & Hline' & ->)%intercept_lookup Hcolumns. simplify_eq.
  set (raw := filter (λ kv : string * value, kv.1 ∈ usecols) line).
  assert (Hout : ∀ x y,
            bool_decide (x ∈ usecols ∧ y ∈ usecols ∧ (x, answers) ∈ mappings ∧
                         (y, answers) ∈ mappings) = true →
            np_where (isin (recode mappings raw !! x)
                        [VStr "Missing"; VStr "Not Applicable"])
                     (recode mappings raw !! y) (recode mappings raw !! x) =
            np_where (isin (recode_field answers (line !! x))
                        [VStr "Missing"; VStr "Not Applicable"])
                     (recode_field answers (line !! y))
                     (recode_field answers (line !! x))).
  { intros x y (Hx & Hy & Hmx & Hmy)%bool_decide_eq_true.
    rewrite (lookup_recode mappings _ x answers) by (done || compute_done).
    rewrite (lookup_recode mappings _ y answers) by (done || compute_done).
    unfold raw. by rewrite !lookup_read_csv_in by done. }
  destruct (visit_columns (recode mappings raw)) as [Hwork Hschool].
  assert (Hcase : finish renames output_columns (run rules (recode mappings raw))
                    !! visit =
                  np_where (isin (recode_field answers (line !! first))
                              [VStr "Missing"; VStr "Not Applicable"])
                           (recode_field answers (line !! second))
                           (recode_field answers (line !! first))).
  { repeat (apply elem_of_cons in Hcolumns as [[= -> -> ->]|Hcolumns]);
      [..|by apply elem_of_nil in Hcolumns];
      rewrite lookup_finish_kept by compute_done.
    - rewrite Hwork. by apply Hout.
    - rewrite Hschool. by apply Hout. }
  rewrite Hcase. clear Hcase Hwork Hschool Hout.
  split_and!.
  - by intros ->.
  - by intros ->.
  - by intros [-> | ->].
  - intros Hnot.
    assert (recode_field answers (line !! first) = None) as ->; [|done].
    apply eq_None_not_Some. by rewrite recode_field_is_Some.
Qed.

Lemma visit_takes_first_answer_witness :
  let out := Samples.nth_row 0 (intercept [Records.passer_by]) in
  out !! "visit_work" = Some (VStr "Yes") ∧ out !! "visit_school" = None.
Proof.
  intros out. split.
  - refine (proj1 (proj2 (proj2 (visit_takes_first_answer [Records.passer_by] 0
                                   Records.passer_by out
                                   "work_int_1_1" "work_int_1_2" "visit_work"
                                   _ _ _))) _); compute_done.
  - refine (proj2 (proj2 (proj2 (visit_takes_first_answer [Records.passer_by] 0
                                   Records.passer_by out
                                   "school_int_1_1" "school_int_1_2" "visit_school"
                                   _ _ _))) _); compute_done.
Defined.

End InterceptLaws.

(** ** Location tracking: sorted points and the lines through them *)

Module LocationLaws.
Import Frame FrameOps FrameFacts FrameLaws Geometry GeometryFacts Location.

(** *** The order of the values *)

#[local] Instance value_le_total : Total value_le.
Proof.
  intros [z1|s1|q1] [z2|s2|q2]; unfold value_le; simpl; auto;
    rewrite ?Qle_bool_iff.
  - destruct (Qlt_le_dec (inject_Z z1) (inject_Z z2)); auto using Qlt_le_weak.
  - destruct (Qlt_le_dec (inject_Z z1) q2); auto using Qlt_le_weak.
  - destruct (trichotomyT lexico (code_points s1) (code_points s2)) as [[?|?]|?]; auto.
  - destruct (Qlt_le_dec q1 (inject_Z z2)); auto using Qlt_le_weak.
  - destruct (Qlt_le_dec q1 q2); auto using Qlt_le_weak.
Qed.

#[local] Instance value_le_transitive : Transitive value_le.
Proof.
  intros [z1|s1|q1] [z2|s2|q2] [z3|s3|q3]; unfold value_le; simpl; try done;
    rewrite ?Qle_bool_iff; try (by apply Qle_trans).
  intros [E12|L12] [E23|L23].
  - left. congruence.
  - right. by rewrite E12.
  - right. by rewrite <- E23.
  - right. by trans (code_points s2).
Qed.

#[local] Instance cell_le_total : Total cell_le.
Proof.
  intros [a|] [b|]; unfold cell_le; auto. apply (total value_le).
Qed.

#[local] Instance cell_le_transitive : Transitive cell_le.
Proof.
  intros [a|] [b|] [c|]; unfold cell_le; try done. apply (transitivity (R:=value_le)).
Qed.

#[local] Instance row_le_total by_ : Total (row_le by_).
Proof.
  intros r1 r2. induction by_ as [|c by_ IH]; simpl; [by left|].
  destruct (decide (cell_le (r1 !! c) (r2 !! c))) as [H12|H12];
    destruct (decide (cell_le (r2 !! c) (r1 !! c))) as [H21|H21].
  - destruct IH; [left|right]; by split.
  - left. by split.
  - right. by split.
  - by destruct (total cell_le (r1 !! c) (r2 !! c)).
Qed.

#[local] Instance row_le_transitive by_ : Transitive (row_le by_).
Proof.
  intros r1 r2 r3. induction by_ as [|c by_ IH]; simpl; [done|].
  intros [H12 T12] [H23 T23]. split; [by trans (r2 !! c)|].
  intros H31. apply IH.
  - apply T12. by trans (r3 !! c).
  - apply T23. by trans (r1 !! c).
Qed.

(** *** The stable sort *)

Section sort.
Context {A : Type} (le : relation A) `{!RelDecision le}.

Lemma insert_sorted_Permutation (x : A) (l : list A) :
  insert_sorted le x l ≡ₚ x :: l.
Proof.
  induction l as [|y l IH]; simpl; [done|].
  case_decide; [done|]. rewrite IH. apply Permutation_swap.
Qed.

Lemma stable_sort_Permutation (l : list A) : stable_sort le l ≡ₚ l.
Proof.
  unfold stable_sort. induction l as [|x l IH]; simpl; [done|].
  by rewrite insert_sorted_Permutation, IH.
Qed.


Context `{!Total le, !Transitive le}.

Lemma insert_sorted_StronglySorted (x : A) (l : list A) :
  StronglySorted le l → StronglySorted le (insert_sorted le x l).
Proof.
  induction l as [|y l IH]; simpl; intros Hl.
  { by repeat constructor. }
  apply StronglySorted_cons in Hl as [Hy Hl].
  case_decide as Hxy.
  - constructor; [by constructor|].
    constructor; [done|]. eapply Forall_impl; [exact Hy|].
    intros z Hz. by trans y.
  - constructor; [by apply IH|].
    rewrite insert_sorted_Permutation. constructor; [|done].
    by destruct (total le x y).
Qed.

Lemma stable_sort_StronglySorted (l : list A) : StronglySorted le (stable_sort le l).
Proof.
  unfold stable_sort. induction l as [|x l IH]; simpl; [constructor|].
  by apply insert_sorted_StronglySorted.
Qed.

(** In a sorted list, an element is below those that come after it. *)
Lemma StronglySorted_lookup (l : list A) (i j : nat) (x y : A) :
  StronglySorted le l → (i ≤ j)%nat → l !! i = Some x → l !! j = Some y → le x y.
Proof.
  intros Hl Hij Hi Hj.
  destruct (decide (i = j)) as [->|Hne].
  { rewrite Hi in Hj. injection Hj as <-. by destruct (total le x x). }
  revert i j Hij Hne Hi Hj. induction Hl as [|z l Hl IH Hz]; intros i j Hij Hne Hi Hj.
  { by rewrite lookup_nil in Hi. }
  destruct i as [|i], j as [|j]; try lia; simpl in *.
  - simplify_eq. rewrite Forall_forall in Hz. apply Hz.
    by eapply list_elem_of_lookup_2.
  - apply (IH i j); [lia|lia|done..].
Qed.

End sort.

(** *** The two tables *)

Section location.
Context `{Geodesy (cell * cell)}.

(** [line_wkt] returns the text of every line. *)
Lemma line_wkt_Ok (lines : list (list (cell * cell))) (crs : string) :
  line_wkt lines crs = Ok ((λ line, encode_line line crs) <$> lines).
Proof.
  induction lines as [|line lines IH]; simpl; [done|].
  by rewrite line_wkt_one_encode_line, IH.
Qed.

(** The geometry column is computed row by row. *)
Lemma shape_fmap (lng lat crs : string) :
  ∃ g : row → cell, ∀ df, shape lng lat crs df = g <$> df.
Proof.
  eexists. intros df. unfold shape, point_wkt.
  rewrite <- !list_fmap_compose. reflexivity.
Qed.

(** [location] never fails; its tables, row by row. *)
Lemma location_Ok (sdrts_file at_file : list row) :
  ∃ g : row → cell,
    location sdrts_file at_file =
    Ok (imap (λ i r, finish points_renames points_columns
                       (<["point_id" := VInt (Z.of_nat i)]> (set_cell "shape" (g r) r)))
             (points_sorted sdrts_file at_file),
        (λ k, finish lines_renames lines_columns
                (set_cell "shape"
                   (VStr <$> encode_line
                               (coordinates
                                  <$> group_rows "tripid" k
                                        (points_sorted sdrts_file at_file))
                               "EPSG:2230")
                   {["tripid" := k]}))
          <$> group_keys "tripid" (points_sorted sdrts_file at_file)).
Proof.
  destruct (shape_fmap "lng" "lat" "EPSG:2230") as [g Hg]. exists g.
  unfold location, paths. rewrite line_wkt_Ok, Hg. f_equal. f_equal.
  - unfold arange, assign_column.
    rewrite zip_with_fmap_l, zip_with_diag, imap_fmap, fmap_imap. done.
  - rewrite <- !list_fmap_compose.
    rewrite zip_with_fmap_l, zip_with_fmap_r, zip_with_diag.
    by rewrite <- list_fmap_compose.
Qed.

(** The columns of a row of the table of points. *)
Lemma lookup_point_row (i : Z) (x : cell) (r : row) :
  let p := finish points_renames points_columns
             (<["point_id" := VInt i]> (set_cell "shape" x r)) in
  p !! "point_id" = Some (VInt i) ∧
  p !! "trip_id_location" = r !! "tripid" ∧
  p !! "collected_at" = r !! "collected_at" ∧
  p !! "longitude" = r !! "lng" ∧
  p !! "latitude" = r !! "lat".
Proof.
  intros p. unfold p. split_and!.
  - rewrite lookup_finish_kept by compute_done. apply lookup_insert_eq.
  - rewrite (lookup_finish_renamed _ _ _ "tripid") by compute_done.
    rewrite lookup_insert_ne by done. by rewrite lookup_set_cell, decide_False.
  - rewrite lookup_finish_kept by compute_done.
    rewrite lookup_insert_ne by done. by rewrite lookup_set_cell, decide_False.
  - rewrite (lookup_finish_renamed _ _ _ "lng") by compute_done.
    rewrite lookup_insert_ne by done. by rewrite lookup_set_cell, decide_False.
  - rewrite (lookup_finish_renamed _ _ _ "lat") by compute_done.
    rewrite lookup_insert_ne by done. by rewrite lookup_set_cell, decide_False.
Qed.

(** The columns of a row of the table of lines. *)
Lemma lookup_line_row (x : cell) (k : value) :
  let l := finish lines_renames lines_columns (set_cell "shape" x {["tripid" := k]}) in
  l !! "trip_id_location" = Some k ∧ l !! "shape" = x.
Proof.
  intros l. unfold l. split.
  - rewrite (lookup_finish_renamed _ _ _ "tripid") by compute_done.
    rewrite lookup_set_cell, decide_False by done. apply lookup_singleton_eq.
  - rewrite lookup_finish_kept by compute_done.
    by rewrite lookup_set_cell, decide_True.
Qed.

(** The trips of the frame of points: every value of [tripid], once. *)
Lemma elem_of_group_keys (df : list row) (k : value) :
  k ∈ group_keys "tripid" df ↔ ∃ r, r ∈ df ∧ r !! "tripid" = Some k.
Proof.
  unfold group_keys. rewrite stable_sort_Permutation, elem_of_remove_dups.
  by rewrite list_elem_of_omap.
Qed.

Lemma NoDup_group_keys (df : list row) : NoDup (group_keys "tripid" df).
Proof.
  unfold group_keys. rewrite stable_sort_Permutation. apply NoDup_remove_dups.
Qed.

(** A selection of the rows of a keyed frame, read through the frame. *)
Lemma fmap_filter_imap {A B C} (F : nat → A → B) (P : B → Prop) (Q : A → Prop)
    `{!∀ x, Decision (P x)} `{!∀ x, Decision (Q x)} (h : B → C) (h' : A → C)
    (l : list A) :
  (∀ i x, P (F i x) ↔ Q x) → (∀ i x, h (F i x) = h' x) →
  h <$> filter P (imap F l) = h' <$> filter Q l.
Proof.
  revert F. induction l as [|x l IH]; intros F HP Hh; [done|].
  cbn [imap]. destruct (decide (Q x)) as [HQ|HQ].
  - rewrite !filter_cons_True by (done || by apply HP).
    rewrite !fmap_cons, Hh. f_equal.
    apply IH; intros i y; [apply (HP (S i))|apply (Hh (S i))].
  - rewrite !filter_cons_False by (done || by rewrite HP).
    apply IH; intros i y; [apply (HP (S i))|apply (Hh (S i))].
Qed.


(** X26: the table of lines has exactly one row for each trip that has a
    row in the table of points, and its rows are in ascending order of the
    trip. *)
Theorem location_lines_trips (sdrts_file at_file points lines : list row) :
  location sdrts_file at_file = Ok (points, lines) →
  NoDup ((λ l : row, l !! "trip_id_location") <$> lines) ∧
  (∀ k, (∃ l, l ∈ lines ∧ l !! "trip_id_location" = Some k) ↔
        (∃ p, p ∈ points ∧ p !! "trip_id_location" = Some k)) ∧
  (∀ (i j : nat) (l1 l2 : row),
     (i ≤ j)%nat → lines !! i = Some l1 → lines !! j = Some l2 →
     cell_le (l1 !! "trip_id_location") (l2 !! "trip_id_location")).
Proof.
  destruct (location_Ok sdrts_file at_file) as [g ->]. intros [= <- <-].
  set (sorted := points_sorted sdrts_file at_file).
  split_and!.
  - rewrite <- list_fmap_compose.
    rewrite (list_fmap_ext _ Some (group_keys "tripid" sorted)).
    + apply (NoDup_fmap_2 _), NoDup_group_keys.
    + intros i k _. apply lookup_line_row.
  - intros k. split.
    + intros (l & (k' & -> & Hk')%list_elem_of_fmap & Hl).
      rewrite (proj1 (lookup_line_row _ _)) in Hl. injection Hl as ->.
      apply elem_of_group_keys in Hk' as (r & Hr & Hk).
      apply list_elem_of_lookup_1 in Hr as [i Hi].
      eexists. split.
      * eapply list_elem_of_lookup_2. rewrite list_lookup_imap, Hi. done.
      * by rewrite (proj1 (proj2 (lookup_point_row _ _ _))).
    + intros (p & (i & Hp)%list_elem_of_lookup_1 & Hk).
      rewrite list_lookup_imap in Hp. apply fmap_Some in Hp as (r & Hr & ->).
      rewrite (proj1 (proj2 (lookup_point_row _ _ _))) in Hk.
      eexists. split.
      * apply list_elem_of_fmap. exists k. split; [done|].
        apply elem_of_group_keys. exists r. split; [|done].
        by eapply list_elem_of_lookup_2.
      * apply lookup_line_row.
  - intros i j l1 l2 Hij Hl1 Hl2.
    apply list_lookup_fmap_Some in Hl1 as (k1 & -> & Hk1).
    apply list_lookup_fmap_Some in Hl2 as (k2 & -> & Hk2).
    rewrite !(proj1 (lookup_line_row _ _)). simpl.
    apply (StronglySorted_lookup value_le (group_keys "tripid" sorted) i j);
      [|done..].
    unfold group_keys. apply (stable_sort_StronglySorted value_le).
Qed.

(** X27: the shape of the line of a trip is the text of the line through
    the trip's rows of the table of points, in the order of that table, each
    point once: a line through two or more distinct points, a point for one,
    nothing when the geometry is not valid.  The rows are fixes with their
    two coordinates. *)
Theorem location_line_through_points (sdrts_file at_file points lines : list row)
    (l : row) (k : value) :
  location sdrts_file at_file = Ok (points, lines) →
  l ∈ lines → l !! "trip_id_location" = Some k →
  Forall (λ p : row, is_Some (p !! "longitude") ∧ is_Some (p !! "latitude"))
         (filter (λ p : row, p !! "trip_id_location" = Some k) points) →
  l !! "shape" =
  VStr <$> encode_line
             (point_coordinates
                <$> filter (λ p : row, p !! "trip_id_location" = Some k) points)
             "EPSG:2230".
Proof.
  destruct (location_Ok sdrts_file at_file) as [g ->]. intros [= <- <-].
  intros (k' & -> & Hk')%list_elem_of_fmap Hk _.
  rewrite (proj1 (lookup_line_row _ _)) in Hk. injection Hk as ->.
  rewrite (proj2 (lookup_line_row _ _)). do 2 f_equal. symmetry.
  apply fmap_filter_imap.
  - intros i r. by rewrite (proj1 (proj2 (lookup_point_row _ _ _))).
  - intros i r. unfold point_coordinates, coordinates.
    by destruct (lookup_point_row (Z.of_nat i) (g r) r) as (_ & _ & _ & -> & ->).
Qed.

End location.

Lemma location_lines_trips_witness :
  NoDup ((λ l : row, l !! "trip_id_location") <$> Records.tracks.2) ∧
  (λ l : row, l !! "trip_id_location") <$> Records.tracks.2
  = [Some (VInt 1); Some (VInt 2)].
Proof.
  split; [|compute_done].
  refine (proj1 (@location_lines_trips Samples.flat Records.sdrts_fixes
                   Records.at_fixes Records.tracks.1 Records.tracks.2 _)).
  compute_done.
Defined.

Lemma location_line_through_points_witness :
  Samples.nth_row 0 Records.tracks.2 !! "shape" =
  VStr <$> @encode_line _ _ Samples.flat
             [ (Some (VNum (-117)), Some (VNum 32));
               (Some (VNum (-116)), Some (VNum 32)) ]
             "EPSG:2230".
Proof.
  etrans.
  - refine (@location_line_through_points Samples.flat Records.sdrts_fixes
              Records.at_fixes Records.tracks.1 Records.tracks.2
              (Samples.nth_row 0 Records.tracks.2) (VInt 1) _ _ _ _); compute_done.
  - compute_done.
Defined.

End LocationLaws.

(** ** The de-duplication of a line, and the recode of every table *)

Module GeometryLaws.
Import Geometry GeometryFacts.
Section geometry.
Context {C : Type} `{EqDecision C} `{Geodesy C}.

(** X28: the points that [line_wkt] keeps of a line are distinct, they are
    the points of the line, and they are in the order of the line. *)
Theorem unique_points_distinct (line : list C) :
  NoDup (unique_points line) ∧
  (∀ x, x ∈ unique_points line ↔ x ∈ line) ∧
  unique_points line `sublist_of` line.
Proof.
  rewrite unique_points_keep_first.
  induction line as [|x line (Hnd & Hin & Hsub)]; simpl.
  { split_and!; [constructor|done|constructor]. }
  split_and!.
  - constructor; [|by apply NoDup_filter].
    rewrite list_elem_of_filter. naive_solver.
  - intros y. rewrite !elem_of_cons, list_elem_of_filter, Hin.
    destruct (decide (y = x)); naive_solver.
  - apply sublist_skip. etrans; [apply sublist_filter|done].
Qed.

End geometry.
End GeometryLaws.

Module RecodeLaws.
Import Frame FrameOps FrameFacts FrameLaws.

(** X29: in every code table of the module, two codes that differ have
    labels that differ when one of them is declared: the label of a declared
    code tells the code. *)
Theorem labels_identify_codes (mappings : list (string * mapping)) (f : string)
    (m : mapping) (x y : cell) :
  mappings ∈ [ BorderTrips.mappings; Day.mappings; Households.mappings;
               Intercept.mappings; Persons.mappings; Trips.mappings;
               Vehicles.mappings ] →
  (f, m) ∈ mappings → x ∈ m.*1 → x ≠ y →
  recode_field m x ≠ recode_field m y.
Proof.
  intros Hmappings Hm Hx Hxy Heq. apply Hxy.
  apply (recode_field_inj m); [|done..].
  assert (Hall : Forall (λ ms : list (string * mapping),
                           Forall (λ fm : string * mapping, NoDup fm.2.*2) ms)
                   [ BorderTrips.mappings; Day.mappings; Households.mappings;
                     Intercept.mappings; Persons.mappings; Trips.mappings;
                     Vehicles.mappings ]) by compute_done.
  rewrite Forall_forall in Hall. specialize (Hall _ Hmappings).
  rewrite Forall_forall in Hall. apply (Hall (f, m) Hm).
Qed.

Lemma labels_identify_codes_witness :
  let m : mapping := [ (Some (VInt 1), VStr "No"); (Some (VInt 2), VStr "Yes") ] in
  ("tolltransp", m) ∈ Vehicles.mappings ∧
  recode_field m (Some (VInt 1)) ≠ recode_field m (Some (VInt 2)).
Proof.
  intros m. split; [compute_done|].
  refine (labels_identify_codes Vehicles.mappings "tolltransp" m _ _ _ _ _ _);
    compute_done.
Defined.

(** A pass whose computed columns are no coded field keeps the label of
    every coded field. *)
Lemma coded_field_survives (mappings : list (string * mapping)) (rules : list step)
    (raw : row) (f : string) (m : mapping) :
  NoDup mappings.*1 →
  forallb (λ s, match s with
                | Loc _ _ _ => true
                | Derive _ column _ => bool_decide (column ∉ mappings.*1)
                end) rules = true →
  (f, m) ∈ mappings → raw !! f ∈ m.*1 →
  is_Some (run rules (recode mappings raw) !! f).
Proof.
  intros Hnd Hrules Hm Hraw. apply run_is_Some.
  - rewrite forallb_forall in Hrules. apply forallb_forall. intros s Hs.
    specialize (Hrules s Hs). destruct s as [mask columns v|mask column g]; [done|].
    apply bool_decide_eq_true in Hrules. apply bool_decide_eq_true.
    intros ->. apply Hrules. apply list_elem_of_fmap. by exists (f, m).
  - rewrite (lookup_recode mappings _ f m) by done.
    by apply recode_field_is_Some.
Qed.

(** X30: in the day, households, persons and trips tables, a coded field
    whose code in the record is a key of the field's mapping holds a label
    after the recode and the rule pass: the statements of the pass replace
    labels, they never empty a coded field. *)
Theorem declared_codes_never_empty (mappings : list (string * mapping))
    (rules : list step) (raw : row) (f : string) (m : mapping) :
  (mappings, rules) ∈ [ (Day.mappings, Day.rules);
                        (Households.mappings, Households.rules);
                        (Persons.mappings, Persons.rules);
                        (Trips.mappings, Trips.rules) ] →
  (f, m) ∈ mappings → raw !! f ∈ m.*1 →
  is_Some (run rules (recode mappings raw) !! f).
Proof.
  intros Htable.
  repeat (apply elem_of_cons in Htable as [[= -> ->]|Htable]);
    [..|by apply elem_of_nil in Htable];
    (apply coded_field_survives; [compute_done|by_compute]).
Qed.

Lemma declared_codes_never_empty_witness :
  is_Some (run Persons.rules (recode Persons.mappings Samples.child) !! "employment").
Proof.
  refine (declared_codes_never_empty Persons.mappings Persons.rules Samples.child
            "employment"
            [ (Some (VInt 1), VStr "Employed full-time (paid) 35+ hours/week");
              (Some (VInt 2), VStr "Employed part-time (paid) up to 35 hours/week");
              (Some (VInt 3), VStr "Unpaid volunteer or intern");
              (Some (VInt 4), VStr "Not currently employed");
              (None, VStr "Missing") ] _ _ _).
  - do 2 apply list_elem_of_further. apply list_elem_of_here.
  - compute_done.
  - compute_done.
Defined.

End RecodeLaws.
